(** * MediaFlow proxy: translation of an MPD description into HLS

    A shallow embedding of [mediaflow_proxy/mpd_processor.py]:
    [process_manifest], [process_playlist], [process_segment], [build_hls]
    and [build_hls_playlist], together with the pieces of the Python
    runtime they rely on (insertion-ordered dictionaries, also as objects
    changed in place, truthiness, binary64 true division, [math.floor],
    [math.ceil], [max], the [.3f] format, [BytesIO]).  The master playlist
    is also read back as text, line by line and attribute by attribute. *)

From Stdlib Require Import ZArith List String Ascii Bool Lia.
From Stdlib Require Import Strings.Byte.
From Stdlib Require Import Numbers.DecimalString Floats.SpecFloat.
Import ListNotations.

#[local] Open Scope string_scope.
#[local] Open Scope Z_scope.

(** ** The Python runtime used by the module *)

Module Py.

(** Exceptions that the modelled code can raise. [Raised] stands for an
    exception coming out of an external collaborator. *)
Inductive exn : Type :=
| KeyError (key : string)
| OverflowError (msg : string)
| ValueError (msg : string)
| ZeroDivisionError
| HTTPException (status_code : Z) (detail : string)
| Raised (what : string).

Definition result (A : Type) : Type := (exn + A)%type.

Definition ok {A} (a : A) : result A := inr a.
Definition raise {A} (e : exn) : result A := inl e.

Definition rbind {A B} (m : result A) (k : A -> result B) : result B :=
  match m with
  | inl e => inl e
  | inr a => k a
  end.

(** [d[key]] on a key that may be missing. *)
Definition getitem {A} (key : string) (field : option A) : result A :=
  match field with
  | Some v => ok v
  | None => raise (KeyError key)
  end.

(** [d.get(key, default)]. *)
Definition get_or {A} (field : option A) (default : A) : A :=
  match field with
  | Some v => v
  | None => default
  end.

(** *** Truthiness *)

Definition truthy_str (s : option string) : bool :=
  match s with
  | Some (String _ _) => true
  | _ => false
  end.

Definition truthy_int (n : option Z) : bool :=
  match n with
  | Some n => negb (n =? 0)
  | None => false
  end.

(** [s or ""] *)
Definition str_or_empty (s : option string) : string :=
  if truthy_str s then get_or s "" else "".

(** *** Strings *)

Definition LF : string := String (ascii_of_nat 10) EmptyString.

(** [sep.join(parts)] *)
Definition join (sep : string) (parts : list string) : string :=
  String.concat sep parts.

(** [needle in hay] *)
Fixpoint str_contains (needle hay : string) : bool :=
  String.prefix needle hay ||
  match hay with
  | EmptyString => false
  | String _ rest => str_contains needle rest
  end.

Definition ascii_lower (c : ascii) : ascii :=
  let n := nat_of_ascii c in
  if (Nat.leb 65 n && Nat.leb n 90)%bool then ascii_of_nat (n + 32) else c.

(** [s.lower()], on the ASCII letters. *)
Fixpoint str_lower (s : string) : string :=
  match s with
  | EmptyString => EmptyString
  | String c rest => String (ascii_lower c) (str_lower rest)
  end.

(** [str(n)] *)
Definition str_of_int (n : Z) : string :=
  NilZero.string_of_int (Z.to_int n).

(** *** Insertion-ordered dictionaries with string keys *)

Definition dict (V : Type) : Type := list (string * V).

Fixpoint dict_get {V} (k : string) (d : dict V) : option V :=
  match d with
  | [] => None
  | (k', v) :: rest => if String.eqb k k' then Some v else dict_get k rest
  end.

(** [d[k] = v]: an existing key keeps its position. *)
Fixpoint dict_set {V} (k : string) (v : V) (d : dict V) : dict V :=
  match d with
  | [] => [(k, v)]
  | (k', v') :: rest =>
      if String.eqb k k' then (k', v) :: rest else (k', v') :: dict_set k v rest
  end.

(** [del d[k]]; a dictionary holds a key at most once. *)
Definition dict_del {V} (k : string) (d : dict V) : dict V :=
  filter (fun kv => negb (String.eqb k (fst kv))) d.

(** [d.pop(k, default)] *)
Definition dict_pop {V} (k : string) (default : V) (d : dict V) : V * dict V :=
  (get_or (dict_get k d) default, dict_del k d).

(** [d.update(items)] *)
Definition dict_update {V} (items : list (string * V)) (d : dict V) : dict V :=
  fold_left (fun acc kv => dict_set (fst kv) (snd kv) acc) items d.

(** [dict(items)]: the last value of a repeated key wins, at the place of
    its first occurrence. *)
Definition dict_of_items {V} (items : list (string * V)) : dict V :=
  dict_update items [].

Definition dict_keys {V} (d : dict V) : list string := map fst d.
Definition dict_values {V} (d : dict V) : list V := map snd d.

(** "is non-empty" for a dictionary *)
Definition truthy_dict {V} (d : dict V) : bool :=
  match d with
  | [] => false
  | _ :: _ => true
  end.

(** *** binary64 floats

    A float is a [spec_float]; the arithmetic is that of the standard
    library's specification at precision 53 and maximal exponent 1024. *)

Definition float : Type := spec_float.

(** An integer as an operand of the division below, not yet rounded. *)
Definition exact_int (n : Z) : float :=
  match n with
  | Z0 => S754_zero false
  | Zpos p => S754_finite false p 0
  | Zneg p => S754_finite true p 0
  end.

(** [float(n)] *)
Definition float_of_int (n : Z) : float :=
  binary_normalize 53 1024 n 0 false.

(** [a / b] on integers: the correctly rounded quotient, [OverflowError]
    when it does not fit. *)
Definition int_truediv (a b : Z) : result float :=
  if b =? 0 then raise ZeroDivisionError
  else
    match SFdiv 53 1024 (exact_int a) (exact_int b) with
    | S754_infinity _ =>
        raise (OverflowError "integer division result too large for a float")
    | q => ok q
    end.

Definition signed (s : bool) (m : positive) : Z :=
  if s then Zneg m else Zpos m.

(** [math.floor(x)] *)
Definition math_floor (x : float) : result Z :=
  match x with
  | S754_zero _ => ok 0
  | S754_finite s m e =>
      ok (if 0 <=? e then signed s m * 2 ^ e else Z.shiftr (signed s m) (- e))
  | S754_infinity _ =>
      raise (OverflowError "cannot convert float infinity to integer")
  | S754_nan => raise (ValueError "cannot convert float NaN to integer")
  end.

(** [math.ceil(x)] *)
Definition math_ceil (x : float) : result Z :=
  match x with
  | S754_zero _ => ok 0
  | S754_finite s m e =>
      ok (if 0 <=? e then signed s m * 2 ^ e
          else - Z.shiftr (- signed s m) (- e))
  | S754_infinity _ =>
      raise (OverflowError "cannot convert float infinity to integer")
  | S754_nan => raise (ValueError "cannot convert float NaN to integer")
  end.

(** [max(x :: rest)]: the first of the largest items. *)
Definition float_max (x : float) (rest : list float) : float :=
  fold_left (fun best y => if SFltb best y then y else best) rest x.

(** Nearest integer to [n / d] for [d > 0], ties to even. *)
Definition div_half_even (n d : Z) : Z :=
  let q := n / d in
  let r := n mod d in
  match 2 * r ?= d with
  | Lt => q
  | Gt => q + 1
  | Eq => if Z.even q then q else q + 1
  end.

Definition pad3 (n : Z) : string :=
  let s := str_of_int n in
  if n <? 10 then "00" ++ s else if n <? 100 then "0" ++ s else s.

(** [f"{x:.3f}"] *)
Definition format_3f (x : float) : string :=
  match x with
  | S754_nan => "nan"
  | S754_infinity s => if s then "-inf" else "inf"
  | S754_zero s => if s then "-0.000" else "0.000"
  | S754_finite s m e =>
      let thousandths :=
        if 0 <=? e then Zpos m * 2 ^ e * 1000
        else div_half_even (Zpos m * 1000) (2 ^ (- e)) in
      (if s then "-" else "") ++
      str_of_int (thousandths / 1000) ++ "." ++ pad3 (thousandths mod 1000)
  end.

(** *** Bytes and [io.BytesIO] *)

Definition bytes : Type := list byte.

Record BytesIO : Type := mkBytesIO { getvalue : bytes; tell : nat }.

Definition BytesIO_new : BytesIO := mkBytesIO [] 0.

(** [buf.write(data)]: overwrite at the position, extending the buffer. *)
Definition write (data : bytes) (buf : BytesIO) : BytesIO :=
  let n := tell buf in
  let old := getvalue buf in
  mkBytesIO
    (firstn n old ++ repeat x00 (n - List.length old) ++ data
       ++ skipn (n + List.length data) old)%list%nat
    (n + List.length data)%nat.

End Py.

(** ** Effects: a trace of observable events over the error monad *)

Inductive log_level : Type := INFO | WARNING.

Inductive event : Type :=
| Clock
    (* time.time() *)
| Decrypt (init_content segment_content : Py.bytes) (key_id key : string)
    (* a call of the external decrypt_segment *)
| BufferWrite (data : Py.bytes)
    (* buf.write(data) on the BytesIO buffer *)
| Log (level : log_level) (msg : string).

Definition M (A : Type) : Type := (list event * Py.result A)%type.

Definition mret {A} (a : A) : M A := ([], Py.ok a).

Definition mbind {A B} (m : M A) (k : A -> M B) : M B :=
  match m with
  | (t, inl e) => (t, inl e)
  | (t, inr a) => let (t', r) := k a in ((t ++ t')%list, r)
  end.

Definition emit (e : event) : M unit := ([e], Py.ok tt).

Definition lift {A} (r : Py.result A) : M A := ([], r).

Declare Scope py_scope.
Delimit Scope py_scope with py.

Notation "x <- m ;; k" := (mbind m (fun x => k))
  (at level 61, m at next level, right associativity) : py_scope.
Notation "m ;;; k" := (mbind m (fun _ => k))
  (at level 61, right associativity) : py_scope.
Notation "x <~ r ;; k" := (Py.rbind r (fun x => k))
  (at level 61, r at next level, right associativity) : py_scope.

#[local] Open Scope py_scope.

(** ** The data handed over by the MPD parser

    Dictionaries with a fixed set of keys are records; a key that the code
    reads with [.get], tests with [in], or that a profile may lack is an
    [option] field, [None] standing for the absent key.  Integers are
    unbounded, as in Python; a duration [extinf] is a binary64 float in the
    canonical form of [SpecFloat]. *)

Record Segment : Type := mkSegment {
  extinf : option Py.float;
  media : string;
  number : option Z;
  time : option Z;
  duration_mpd_timescale : option Z
}.

Record Profile : Type := mkProfile {
  id : string;
  mimeType : string;
  bandwidth : option Z;
  width : option Z;
  height : option Z;
  codecs : option string;
  frameRate : option string;
  lang : option string;
  initUrl : string;
  segments : list Segment;
  segment_template_start_number : option Z
}.

Record Mpd : Type := mkMpd {
  isLive : option bool;
  profiles : list Profile
}.

Record ProxyRequestHeaders : Type := mkProxyRequestHeaders {
  response : Py.dict string
}.

Record Response (C : Type) : Type := mkResponse {
  content : C;
  media_type : string;
  headers : Py.dict string
}.

Arguments mkResponse {C} _ _ _.
Arguments content {C} _.
Arguments media_type {C} _.
Arguments headers {C} _.

(** ** The lines of a playlist

    Each constructor is one of the f-strings or literals appended to [hls];
    [render] gives its text. *)

Inductive hls_line : Type :=
| ExtM3U
| Version6
| Media (name is_default autoselect language uri : string)
| StreamInf (bandwidth width height : Z) (codecs frameRate audio_attr : string)
| TargetDuration (target_duration : Z)
| MediaSequence (sequence : Z)
| PlaylistType (kind : string)
| ExtInf (duration : Py.float)
| EndList
| Uri (url : string).

Definition DQ : string := String (ascii_of_nat 34) EmptyString.

Definition render (l : hls_line) : string :=
  match l with
  | ExtM3U => "#EXTM3U"
  | Version6 => "#EXT-X-VERSION:6"
  | Media name is_default autoselect language uri =>
      "#EXT-X-MEDIA:TYPE=AUDIO,GROUP-ID=" ++ DQ ++ "audio" ++ DQ
      ++ ",NAME=" ++ DQ ++ name ++ DQ
      ++ ",DEFAULT=" ++ is_default ++ ",AUTOSELECT=" ++ autoselect
      ++ ",LANGUAGE=" ++ DQ ++ language ++ DQ
      ++ ",URI=" ++ DQ ++ uri ++ DQ
  | StreamInf b w h c f audio_attr =>
      "#EXT-X-STREAM-INF:BANDWIDTH=" ++ Py.str_of_int b
      ++ ",RESOLUTION=" ++ Py.str_of_int w ++ "x" ++ Py.str_of_int h
      ++ ",CODECS=" ++ DQ ++ c ++ DQ
      ++ ",FRAME-RATE=" ++ f ++ audio_attr
  | TargetDuration n => "#EXT-X-TARGETDURATION:" ++ Py.str_of_int n
  | MediaSequence n => "#EXT-X-MEDIA-SEQUENCE:" ++ Py.str_of_int n
  | PlaylistType kind => "#EXT-X-PLAYLIST-TYPE:" ++ kind
  | ExtInf d => "#EXTINF:" ++ Py.format_3f d ++ ","
  | EndList => "#EXT-X-ENDLIST"
  | Uri url => url
  end.

(** ["\n".join(hls)] *)
Definition playlist_text (hls : list hls_line) : string :=
  Py.join Py.LF (map render hls).

(** [enumerate(items)], from a given first index *)
Fixpoint enumerate_from {A} (i : nat) (items : list A) : list (nat * A) :=
  match items with
  | [] => []
  | x :: rest => (i, x) :: enumerate_from (S i) rest
  end.

Definition enumerate {A} (items : list A) : list (nat * A) :=
  enumerate_from 0 items.

(** ** The external collaborators *)

Class Collaborators : Type := {
  (** The HTTP layer: the request, its query parameters as the list of
      [(key, value)] items, and URL resolution. *)
  Request : Type;
  URL : Type;
  query_params : Request -> list (string * string);
  url_for : Request -> string -> URL;
  get_original_scheme : Request -> string;
  replace_scheme : URL -> string -> URL;
  str_of_url : URL -> string;
  (** [utils.crypto_utils.encryption_handler] and
      [utils.http_utils.encode_mediaflow_proxy_url] *)
  EncryptionHandler : Type;
  encryption_handler : EncryptionHandler;
  encode_mediaflow_proxy_url :
    string -> Py.dict string -> option EncryptionHandler -> string;
  (** [drm.decrypter.decrypt_segment] *)
  decrypt_segment :
    Py.bytes -> Py.bytes -> string -> string -> Py.result Py.bytes;
  (** The text of [time.time() - now] under [:.4f]; wall-clock time is not
      modelled, only that the clock is read. *)
  elapsed : string
}.

(** ** The module *)

Section MpdProcessor.

Context {collaborators : Collaborators}.

(** *** process_segment *)

Definition process_segment
  (init_content segment_content : Py.bytes) (mimetype : string)
  (proxy_headers : ProxyRequestHeaders) (key_id key : option string)
  : M (Response Py.bytes) :=
  decrypted_content <-
    (if Py.truthy_str key_id && Py.truthy_str key then
       emit Clock ;;;
       emit (Decrypt init_content segment_content
               (Py.get_or key_id "") (Py.get_or key "")) ;;;
       decrypted_content <-
         lift (decrypt_segment init_content segment_content
                 (Py.get_or key_id "") (Py.get_or key "")) ;;
       emit Clock ;;;
       emit (Log INFO ("Decryption of " ++ mimetype ++ " segment took "
                       ++ elapsed ++ " seconds")) ;;;
       mret decrypted_content
     else
       let buf := Py.BytesIO_new in
       emit (BufferWrite init_content) ;;;
       let buf := Py.write init_content buf in
       emit (BufferWrite segment_content) ;;;
       let buf := Py.write segment_content buf in
       mret (Py.getvalue buf)) ;;
  mret (mkResponse decrypted_content mimetype (response proxy_headers)).

(** *** build_hls *)

(** [query_params.pop("has_encrypted", "false").lower() == "true"] *)
Definition pop_has_encrypted (params : Py.dict string)
  : bool * Py.dict string :=
  let (v, params) := Py.dict_pop "has_encrypted" "false" params in
  (String.eqb (Py.str_lower v) "true", params).

Definition resolve_endpoint (request : Request) (name : string) : string :=
  str_of_url (replace_scheme (url_for request name) (get_original_scheme request)).

Definition handler_if (has_encrypted : bool) : option EncryptionHandler :=
  if has_encrypted then Some encryption_handler else None.

(** The variables the first loop of [build_hls] updates. *)
Record Grouping : Type := mkGrouping {
  params : Py.dict string;
  video_profiles : Py.dict (Profile * string);
  audio_profiles : Py.dict (Profile * string)
}.

(** Body of [for profile in mpd_dict["profiles"]]. *)
Definition group_profile
  (proxy_url : string) (has_encrypted : bool) (key_id key : option string)
  (st : Grouping) (profile : Profile) : Grouping :=
  let params :=
    Py.dict_update [("profile_id", id profile);
                    ("key_id", Py.str_or_empty key_id);
                    ("key", Py.str_or_empty key)] (params st) in
  let playlist_url :=
    encode_mediaflow_proxy_url proxy_url params (handler_if has_encrypted) in
  if Py.str_contains "video" (mimeType profile) then
    mkGrouping params
      (Py.dict_set (id profile) (profile, playlist_url) (video_profiles st))
      (audio_profiles st)
  else if Py.str_contains "audio" (mimeType profile) then
    mkGrouping params
      (video_profiles st)
      (Py.dict_set (id profile) (profile, playlist_url) (audio_profiles st))
  else
    mkGrouping params (video_profiles st) (audio_profiles st).

Definition group_profiles
  (mpd_dict : Mpd) (request : Request) (key_id key : option string)
  : Grouping :=
  let params := Py.dict_of_items (query_params request) in
  let (has_encrypted, params) := pop_has_encrypted params in
  let proxy_url := resolve_endpoint request "playlist_endpoint" in
  fold_left (group_profile proxy_url has_encrypted key_id key)
    (profiles mpd_dict) (mkGrouping params [] []).

(** Body of the loop over [enumerate(audio_profiles.values())]. *)
Definition add_audio_stream
  (hls : list hls_line) (item : nat * (Profile * string)) : list hls_line :=
  let '(i, (profile, playlist_url)) := item in
  let is_default := if Nat.eqb i 0 then "YES" else "NO" in
  (hls ++ [Media (id profile) is_default is_default
             (Py.get_or (lang profile) "und") playlist_url])%list.

(** Body of the loop over [video_profiles.values()]. *)
Definition add_video_stream
  (audio : Py.dict (Profile * string))
  (hls : list hls_line) (item : Profile * string)
  : Py.result (list hls_line) :=
  let (profile, playlist_url) := item in
  let audio_attr :=
    if Py.truthy_dict audio then "," ++ "AUDIO=" ++ DQ ++ "audio" ++ DQ
    else "" in
  b <~ Py.getitem "bandwidth" (bandwidth profile) ;;
  w <~ Py.getitem "width" (width profile) ;;
  h <~ Py.getitem "height" (height profile) ;;
  c <~ Py.getitem "codecs" (codecs profile) ;;
  f <~ Py.getitem "frameRate" (frameRate profile) ;;
  Py.ok (hls ++ [StreamInf b w h c f audio_attr; Uri playlist_url])%list.

(** A [for] loop whose body can raise. *)
Fixpoint for_each {A S} (body : S -> A -> Py.result S) (items : list A) (st : S)
  : Py.result S :=
  match items with
  | [] => Py.ok st
  | x :: rest => st' <~ body st x ;; for_each body rest st'
  end.

Definition build_hls_lines
  (mpd_dict : Mpd) (request : Request) (key_id key : option string)
  : Py.result (list hls_line) :=
  let hls := [ExtM3U; Version6] in
  let g := group_profiles mpd_dict request key_id key in
  let hls :=
    fold_left add_audio_stream
      (enumerate (Py.dict_values (audio_profiles g))) hls in
  for_each (add_video_stream (audio_profiles g))
    (Py.dict_values (video_profiles g)) hls.

Definition build_hls
  (mpd_dict : Mpd) (request : Request) (key_id key : option string)
  : Py.result string :=
  hls <~ build_hls_lines mpd_dict request key_id key ;;
  Py.ok (playlist_text hls).

(** *** build_hls_playlist *)

(** The variables the loop over the profiles updates. *)
Record Playlist : Type := mkPlaylist {
  hls : list hls_line;
  added_segments : nat
}.

(** [math.ceil(max(extinf_values)) if extinf_values else 3] *)
Definition target_duration_of (segments : list Segment) : Py.result Z :=
  let extinf_values :=
    flat_map (fun f => match extinf f with Some x => [x] | None => [] end)
      segments in
  match extinf_values with
  | [] => Py.ok 3
  | x :: rest => Py.math_ceil (Py.float_max x rest)
  end.

(** The value of [sequence], lines 150 to 163. *)
Definition media_sequence
  (mpd_dict : Mpd) (profile : Profile) (first_segment : Segment)
  : Py.result Z :=
  let mpd_start_number := segment_template_start_number profile in
  if Py.truthy_int mpd_start_number
     && (1000 <=? Py.get_or mpd_start_number 0) then
    Py.ok (Py.get_or (number first_segment) (Py.get_or mpd_start_number 0))
  else
    let time_val := time first_segment in
    let duration_val := duration_mpd_timescale first_segment in
    match time_val with
    | Some t =>
        if Py.truthy_int duration_val && (0 <? Py.get_or duration_val 0) then
          q <~ Py.int_truediv t (Py.get_or duration_val 0) ;;
          calculated_sequence <~ Py.math_floor q ;;
          if Py.get_or (isLive mpd_dict) false
             && (100000 <? calculated_sequence) then
            Py.ok (calculated_sequence mod 100000)
          else
            Py.ok calculated_sequence
        else
          Py.ok (Py.get_or (number first_segment) 1)
    | None => Py.ok (Py.get_or (number first_segment) 1)
    end.

(** The block under [if index == 0]. *)
Definition add_header
  (mpd_dict : Mpd) (profile : Profile) (first_segment : Segment)
  (hls : list hls_line) : Py.result (list hls_line) :=
  target_duration <~ target_duration_of (segments profile) ;;
  sequence <~ media_sequence mpd_dict profile first_segment ;;
  let hls :=
    (hls ++ [TargetDuration target_duration; MediaSequence sequence])%list in
  live <~ Py.getitem "isLive" (isLive mpd_dict) ;;
  Py.ok (hls ++ [PlaylistType (if live : bool then "LIVE" else "VOD")])%list.

(** Body of [for segment in segments]; the dictionary [query_params] of the
    enclosing iteration is updated in place. *)
Definition add_segment
  (proxy_url : string) (has_encrypted : bool) (profile : Profile)
  (st : Playlist * Py.dict string) (segment : Segment)
  : Py.result (Playlist * Py.dict string) :=
  let (pl, params) := st in
  x <~ Py.getitem "extinf" (extinf segment) ;;
  let hls := (hls pl ++ [ExtInf x])%list in
  let params :=
    Py.dict_update [("init_url", initUrl profile);
                    ("segment_url", media segment);
                    ("mime_type", mimeType profile)] params in
  let hls :=
    (hls ++ [Uri (encode_mediaflow_proxy_url proxy_url params
                    (handler_if has_encrypted))])%list in
  Py.ok (mkPlaylist hls (S (added_segments pl)), params).

Definition no_segments_warning (profile : Profile) : event :=
  Log WARNING ("No segments found for profile " ++ id profile).

(** Body of [for index, profile in enumerate(profiles)]. *)
Definition add_profile
  (mpd_dict : Mpd) (request : Request) (proxy_url : string)
  (st : Playlist) (item : nat * Profile) : M Playlist :=
  let (index, profile) := item in
  match segments profile with
  | [] => emit (no_segments_warning profile) ;;; mret st
  | first_segment :: _ =>
      hls <- lift (if Nat.eqb index 0
                   then add_header mpd_dict profile first_segment (hls st)
                   else Py.ok (hls st)) ;;
      let params := Py.dict_of_items (query_params request) in
      let params := Py.dict_del "profile_id" params in
      let params := Py.dict_del "d" params in
      let (has_encrypted, params) := pop_has_encrypted params in
      r <- lift (for_each (add_segment proxy_url has_encrypted profile)
                   (segments profile)
                   (mkPlaylist hls (added_segments st), params)) ;;
      mret (fst r)
  end.

(** A [for] loop whose body logs and can raise. *)
Fixpoint for_each_M {A S} (body : S -> A -> M S) (items : list A) (st : S)
  : M S :=
  match items with
  | [] => mret st
  | x :: rest => st' <- body st x ;; for_each_M body rest st'
  end.

Definition build_hls_playlist_lines
  (mpd_dict : Mpd) (profiles : list Profile) (request : Request)
  : M (list hls_line) :=
  let st := mkPlaylist [ExtM3U; Version6] 0 in
  let proxy_url := resolve_endpoint request "segment_endpoint" in
  st <- for_each_M (add_profile mpd_dict request proxy_url)
          (enumerate profiles) st ;;
  live <- lift (Py.getitem "isLive" (isLive mpd_dict)) ;;
  let hls := if negb live then (hls st ++ [EndList])%list else hls st in
  emit (Log INFO ("Added " ++ Py.str_of_int (Z.of_nat (added_segments st))
                  ++ " segments to HLS playlist")) ;;;
  mret hls.

Definition build_hls_playlist
  (mpd_dict : Mpd) (profiles : list Profile) (request : Request)
  : M string :=
  hls <- build_hls_playlist_lines mpd_dict profiles request ;;
  mret (playlist_text hls).

(** *** process_playlist *)

Definition process_playlist
  (request : Request) (mpd_dict : Mpd) (profile_id : string)
  (proxy_headers : ProxyRequestHeaders) : M (Response string) :=
  let matching_profiles :=
    filter (fun p => String.eqb (id p) profile_id) (profiles mpd_dict) in
  match matching_profiles with
  | [] => lift (Py.raise (Py.HTTPException 404 "Profile not found"))
  | _ :: _ =>
      hls_content <- build_hls_playlist mpd_dict matching_profiles request ;;
      mret (mkResponse hls_content "application/vnd.apple.mpegurl"
              (response proxy_headers))
  end.

End MpdProcessor.

(** ** Request orchestration: process_manifest

    The manifest handler builds the master playlist and, when
    [settings.enable_dash_prebuffer] is set, hands the manifest URL and the
    forwarded headers to [dash_prebuffer.prebuffer_dash_manifest] as a
    detached task.  The task is recorded as created; its run and its
    completion callback are outside the model. *)

Inductive task : Type :=
| PrebufferDashManifest (mpd_url : string) (headers : Py.dict string).

(** [s[n:]] *)
Fixpoint str_from (n : nat) (s : string) : string :=
  match n, s with
  | O, _ => s
  | S n', String _ rest => str_from n' rest
  | S _, EmptyString => EmptyString
  end.

(** [{k[2:]: v for k, v in items if k.startswith("h_")}] *)
Definition forwarded_headers (items : Py.dict string) : Py.dict string :=
  Py.dict_of_items
    (map (fun kv => (str_from 2 (fst kv), snd kv))
       (filter (fun kv => String.prefix "h_" (fst kv)) items)).

Section Orchestration.

Context {collaborators : Collaborators}.

(** [enable_dash_prebuffer] is [settings.enable_dash_prebuffer];
    [request.query_params.items()] and [.get] read the dictionary of the
    query parameters. *)
Definition process_manifest
  (enable_dash_prebuffer : bool)
  (request : Request) (mpd_dict : Mpd) (proxy_headers : ProxyRequestHeaders)
  (key_id key : option string) : list task * Py.result (Response string) :=
  match build_hls mpd_dict request key_id key with
  | inl e => ([], inl e)
  | inr hls_content =>
      let tasks :=
        if enable_dash_prebuffer then
          let items := Py.dict_of_items (query_params request) in
          let headers := forwarded_headers items in
          let mpd_url := Py.get_or (Py.dict_get "d" items) "" in
          if Py.truthy_str (Some mpd_url)
          then [PrebufferDashManifest mpd_url headers]
          else []
        else [] in
      (tasks,
       Py.ok (mkResponse hls_content "application/vnd.apple.mpegurl"
                (response proxy_headers)))
  end.

End Orchestration.

(** ** Observations on traces *)

Fixpoint decrypt_calls (t : list event)
  : list (Py.bytes * Py.bytes * string * string) :=
  match t with
  | [] => []
  | Decrypt i s kid k :: rest => (i, s, kid, k) :: decrypt_calls rest
  | _ :: rest => decrypt_calls rest
  end.

Fixpoint buffer_writes (t : list event) : list Py.bytes :=
  match t with
  | [] => []
  | BufferWrite data :: rest => data :: buffer_writes rest
  | _ :: rest => buffer_writes rest
  end.

(** ** Sample collaborators and data, for closed instances *)

Module Sample.

(** A codec that writes the parameters in dictionary order. *)
Definition encode_in_order
  (url : string) (params : Py.dict string) (handler : option unit) : string :=
  url ++ "?" ++ Py.join "&" (map (fun kv => fst kv ++ "=" ++ snd kv) params)
  ++ match handler with Some _ => "&enc" | None => "" end.

(** A codec that reads its parameters by key. *)
Definition encode_by_key
  (url : string) (params : Py.dict string) (handler : option unit) : string :=
  url ++ "?profile_id=" ++ Py.get_or (Py.dict_get "profile_id" params) ""
  ++ "&key_id=" ++ Py.get_or (Py.dict_get "key_id" params) ""
  ++ "&key=" ++ Py.get_or (Py.dict_get "key" params) ""
  ++ "&d=" ++ Py.get_or (Py.dict_get "d" params) ""
  ++ match handler with Some _ => "&enc" | None => "" end.

(** A decryptor that rejects the key ["bad"] and otherwise returns the
    segment reversed. *)
Definition reversing_decryptor
  (init_content segment_content : Py.bytes) (key_id key : string)
  : Py.result Py.bytes :=
  if String.eqb key "bad" then Py.raise (Py.Raised "decryption failed")
  else Py.ok (rev segment_content).

Definition with_codec
  (encode : string -> Py.dict string -> option unit -> string)
  : Collaborators := {|
  Request := list (string * string);
  URL := string * string;
  query_params := fun request => request;
  url_for := fun _ name => ("http", "proxy.test/" ++ name);
  get_original_scheme := fun _ => "https";
  replace_scheme := fun u scheme => (scheme, snd u);
  str_of_url := fun u => fst u ++ "://" ++ snd u;
  EncryptionHandler := unit;
  encryption_handler := tt;
  encode_mediaflow_proxy_url := encode;
  decrypt_segment := reversing_decryptor;
  elapsed := "0.0001"
|}.

Definition in_order : Collaborators := with_codec encode_in_order.
Definition by_key : Collaborators := with_codec encode_by_key.

Definition segment (n : Z) : Segment :=
  mkSegment (Some (Py.float_of_int 4))
    ("seg" ++ Py.str_of_int n ++ ".m4s") (Some n) None None.

(** The video profile of the scenario: two segments of four seconds. *)
Definition v1 : Profile :=
  mkProfile "v1" "video/mp4" (Some 500000) (Some 640) (Some 360)
    (Some "avc1") (Some "30") None "init.mp4" [segment 1; segment 2] None.

(** A profile with the same id and no segment, as an earlier period of
    the same representation. *)
Definition v1_empty : Profile :=
  mkProfile "v1" "video/mp4" (Some 500000) (Some 640) (Some 360)
    (Some "avc1") (Some "30") None "init.mp4" [] None.

(** A video profile without [bandwidth]. *)
Definition v2_no_bandwidth : Profile :=
  mkProfile "v2" "video/mp4" None (Some 1280) (Some 720)
    (Some "avc1") (Some "30") None "init2.mp4" [segment 1] None.

Definition a1 : Profile :=
  mkProfile "a1" "audio/mp4" (Some 128000) None None
    (Some "mp4a") None (Some "en") "inita.mp4" [segment 1] None.

Definition a2 : Profile :=
  mkProfile "a2" "audio/mp4" (Some 128000) None None
    (Some "mp4a") None None "inita2.mp4" [segment 1] None.

(** A segment addressed by time, as a [SegmentTimeline] gives it. *)
Definition timed_segment (t d : Z) : Segment :=
  mkSegment (Some (Py.float_of_int 2)) "seg.m4s" None (Some t) (Some d).

(** A profile of a number-addressed template starting at 5000. *)
Definition numbered : Profile :=
  mkProfile "n1" "video/mp4" (Some 500000) (Some 640) (Some 360)
    (Some "avc1") (Some "30") None "init.mp4" [segment 5003] (Some 5000).

Definition vod (profiles : list Profile) : Mpd := mkMpd (Some false) profiles.
Definition live (profiles : list Profile) : Mpd := mkMpd (Some true) profiles.

Definition request : @Request in_order :=
  [("d", "http://origin.test/manifest.mpd"); ("profile_id", "v1")].


(** Three requests whose query parameters make the same mapping: the second
    repeats a key, the third gives the keys in another order. *)
Definition request_repeated : @Request in_order :=
  [("d", "http://origin.test/old.mpd"); ("profile_id", "v1");
   ("d", "http://origin.test/manifest.mpd")].

Definition request_reordered : @Request in_order :=
  [("profile_id", "v1"); ("d", "http://origin.test/manifest.mpd")].

Definition no_headers : ProxyRequestHeaders := mkProxyRequestHeaders [].

(** Two periods of the representation [v1], the first without segments. *)
Definition two_periods : Mpd := vod [v1_empty; v1].

Definition segment_url (name : string) : string :=
  "https://proxy.test/segment_endpoint?init_url=init.mp4&segment_url="
  ++ name ++ "&mime_type=video/mp4".

End Sample.

(** ** Further data, for the closed instances of the later results *)

Module Cases.

(** An audio profile that repeats the id of [Sample.a1], in French. *)
Definition a1_fr : Profile :=
  mkProfile "a1" "audio/mp4" (Some 128000) None None
    (Some "mp4a") None (Some "fr") "inita_fr.mp4" [Sample.segment 1] None.

(** A video profile whose second segment has no [extinf]. *)
Definition broken : Profile :=
  mkProfile "b1" "video/mp4" (Some 500000) (Some 640) (Some 360)
    (Some "avc1") (Some "30") None "init.mp4"
    [Sample.segment 1; mkSegment None "seg2.m4s" (Some 2) None None] None.

(** A live profile addressed by time: the first segment starts at
    700000 ticks, a segment lasts 7 ticks. *)
Definition timed : Profile :=
  mkProfile "v1" "video/mp4" (Some 500000) (Some 640) (Some 360)
    (Some "avc1") (Some "30") None "init.mp4"
    [Sample.timed_segment 700000 7] None.

(** A profile with a segment of two seconds and one of four. *)
Definition uneven : Profile :=
  mkProfile "v1" "video/mp4" (Some 500000) (Some 640) (Some 360)
    (Some "avc1") (Some "30") None "init.mp4"
    [Sample.timed_segment 0 2; Sample.segment 2] None.

(** A request that asks for encrypted URLs, in capitals, and forwards a
    header. *)
Definition request_encrypted : @Request Sample.in_order :=
  [("d", "http://origin.test/manifest.mpd"); ("has_encrypted", "True");
   ("h_referer", "http://origin.test/")].

End Cases.

(** ** Manifests with strings that end a line or a quoted value *)

Module Forged.

(** The text of an [#EXT-X-MEDIA] line of its own, up to the value of its
    last attribute. *)
Definition media_line_start (name last_key last_value : string) : string :=
  "#EXT-X-MEDIA:TYPE=AUDIO,GROUP-ID=" ++ DQ ++ "audio" ++ DQ
  ++ ",NAME=" ++ DQ ++ name ++ DQ
  ++ ",DEFAULT=YES,AUTOSELECT=YES," ++ last_key ++ "=" ++ DQ ++ last_value.

(** An audio profile whose language closes its value and its line and
    opens a second line. *)
Definition audio_language : Profile :=
  mkProfile "a1" "audio/mp4" (Some 128000) None None (Some "mp4a") None
    (Some ("en" ++ DQ ++ Py.LF ++ media_line_start "a1" "LANGUAGE" "en"))
    "inita.mp4" [Sample.segment 1] None.

(** A video profile whose codecs do the same. *)
Definition video_codecs : Profile :=
  mkProfile "v1" "video/mp4" (Some 500000) (Some 640) (Some 360)
    (Some ("avc1" ++ DQ ++ Py.LF
           ++ media_line_start "x" "URI" "http://origin.test/x.m3u8"))
    (Some "30") None "init.mp4" [Sample.segment 1] None.

(** An audio profile whose id closes its value and goes on with
    attributes. *)
Definition audio_id : Profile :=
  mkProfile ("a2" ++ DQ ++ ",DEFAULT=YES,AUTOSELECT=YES,X=" ++ DQ ++ "y")
    "audio/mp4" (Some 128000) None None (Some "mp4a") None None
    "inita2.mp4" [Sample.segment 1] None.




End Forged.

(** ** Vocabulary of the statements *)

(** The tags that only the block under [if index == 0] appends. *)
Definition is_header_tag (l : hls_line) : bool :=
  match l with
  | TargetDuration _ | MediaSequence _ | PlaylistType _ => true
  | _ => false
  end.

Definition is_media (l : hls_line) : bool :=
  match l with
  | Media _ _ _ _ _ => true
  | _ => false
  end.

(** A profile that the first loop of [build_hls] puts in [audio_profiles]. *)
Definition is_audio_profile (p : Profile) : bool :=
  negb (Py.str_contains "video" (mimeType p))
  && Py.str_contains "audio" (mimeType p).

(** The keys that the [#EXT-X-STREAM-INF] f-string subscripts. *)
Definition stream_inf_keys : list string :=
  ["bandwidth"; "width"; "height"; "codecs"; "frameRate"].

Definition is_some {A} (o : option A) : bool :=
  match o with Some _ => true | None => false end.

Definition stream_inf_complete (p : Profile) : bool :=
  is_some (bandwidth p) && is_some (width p) && is_some (height p)
  && is_some (codecs p) && is_some (frameRate p).

(** Two dictionaries holding the same value under every key, in whatever
    order. *)
Definition dict_equiv {V} (d1 d2 : Py.dict V) : Prop :=
  forall k, Py.dict_get k d1 = Py.dict_get k d2.

(** The URL that the first loop of [build_hls] computes for a profile. *)
Definition playlist_url_at {collaborators : Collaborators}
  (proxy_url : string) (has_encrypted : bool) (key_id key : option string)
  (st : Grouping) (profile : Profile) : string :=
  encode_mediaflow_proxy_url proxy_url
    (params (group_profile proxy_url has_encrypted key_id key st profile))
    (handler_if has_encrypted).

(** Every entry of [audio_profiles] is stored under its profile's id and
    holds one of the manifest's profiles, whose mime type mentions audio and
    not video. *)
Definition audio_entries_ok
  (known : list Profile) (d : Py.dict (Profile * string)) : Prop :=
  forall k e, In (k, e) d ->
    id (fst e) = k /\ is_audio_profile (fst e) = true /\ In (fst e) known.

(** The line that the audio loop appends for an enumerated entry. *)
Definition media_line (item : nat * (Profile * string)) : hls_line :=
  let '(i, (profile, playlist_url)) := item in
  let is_default := if Nat.eqb i 0 then "YES" else "NO" in
  Media (id profile) is_default is_default
    (Py.get_or (lang profile) "und") playlist_url.

Definition audio_attr_of (audio : Py.dict (Profile * string)) : string :=
  if Py.truthy_dict audio then "," ++ "AUDIO=" ++ DQ ++ "audio" ++ DQ else "".

(** The codec reads its parameters as a mapping. *)
Definition codec_reads_mapping {collaborators : Collaborators} : Prop :=
  forall url d1 d2 handler,
    dict_equiv d1 d2 ->
    encode_mediaflow_proxy_url url d1 handler
    = encode_mediaflow_proxy_url url d2 handler.

(** Two states of the first loop of [build_hls] that differ at most in the
    order of the query parameters. *)
Definition same_groups (s1 s2 : Grouping) : Prop :=
  dict_equiv (params s1) (params s2)
  /\ video_profiles s1 = video_profiles s2
  /\ audio_profiles s1 = audio_profiles s2.

(** The integer part of [m * 2 ^ e], as [math.floor] computes it. *)
Definition floor_of (m e : Z) : Z :=
  if 0 <=? e then m * 2 ^ e else Z.shiftr m (- e).

(** The two functions of the comprehension of [process_manifest]. *)
Definition strip (kv : string * string) : string * string :=
  (str_from 2 (fst kv), snd kv).

Definition forwarded (kv : string * string) : bool :=
  String.prefix "h_" (fst kv).

(** *** Closed forms of the two builders *)

Definition is_video_profile (p : Profile) : bool :=
  Py.str_contains "video" (mimeType p).

Definition is_endlist (l : hls_line) : bool :=
  match l with EndList => true | _ => false end.

Definition is_extinf (l : hls_line) : bool :=
  match l with ExtInf _ => true | _ => false end.

Definition is_stream_inf (l : hls_line) : bool :=
  match l with StreamInf _ _ _ _ _ _ => true | _ => false end.

Definition media_name (l : hls_line) : string :=
  match l with Media name _ _ _ _ => name | _ => "" end.

(** The three keys that the first loop of [build_hls] sets for a profile. *)
Definition playlist_params
  (base : Py.dict string) (key_id key : option string) (p : Profile)
  : Py.dict string :=
  Py.dict_update [("profile_id", id p);
                  ("key_id", Py.str_or_empty key_id);
                  ("key", Py.str_or_empty key)] base.

(** The entry that the first loop of [build_hls] stores for a profile, from
    the parameters [base] the loop starts with. *)
Definition group_entry {collaborators : Collaborators}
  (proxy_url : string) (has_encrypted : bool) (base : Py.dict string)
  (key_id key : option string) (p : Profile) : string * (Profile * string) :=
  (id p,
   (p, encode_mediaflow_proxy_url proxy_url (playlist_params base key_id key p)
         (handler_if has_encrypted))).

(** The same entry, from the request. *)
Definition master_entry {collaborators : Collaborators}
  (request : Request) (key_id key : option string) (p : Profile)
  : string * (Profile * string) :=
  let flag_base := pop_has_encrypted (Py.dict_of_items (query_params request)) in
  group_entry (resolve_endpoint request "playlist_endpoint")
    (fst flag_base) (snd flag_base) key_id key p.

(** The parameters of a state of the loop are [base], or [base] with the
    three keys of an earlier profile. *)
Definition params_from_base
  (base : Py.dict string) (key_id key : option string) (st : Grouping) : Prop :=
  params st = base \/ exists q, params st = playlist_params base key_id key q.

(** The two lines of a video entry, when it has the five keys. *)
Definition stream_lines
  (audio : Py.dict (Profile * string)) (entry : Profile * string)
  : list hls_line :=
  match bandwidth (fst entry), width (fst entry), height (fst entry),
        codecs (fst entry), frameRate (fst entry) with
  | Some b, Some w, Some h, Some c, Some f =>
      [StreamInf b w h c f (audio_attr_of audio); Uri (snd entry)]
  | _, _, _, _, _ => []
  end.

(** The group of the profiles that [keep] selects, as a dictionary by id. *)
Definition master_group {collaborators : Collaborators}
  (keep : Profile -> bool) (mpd_dict : Mpd) (request : Request)
  (key_id key : option string) : Py.dict (Profile * string) :=
  Py.dict_of_items
    (map (master_entry request key_id key) (filter keep (profiles mpd_dict))).

(** The first of the five keys that a profile lacks. *)
Definition missing_key (p : Profile) : option string :=
  match bandwidth p, width p, height p, codecs p, frameRate p with
  | None, _, _, _, _ => Some "bandwidth"
  | _, None, _, _, _ => Some "width"
  | _, _, None, _, _ => Some "height"
  | _, _, _, None, _ => Some "codecs"
  | _, _, _, _, None => Some "frameRate"
  | Some _, Some _, Some _, Some _, Some _ => None
  end.

Fixpoint first_missing_key (entries : list (Profile * string)) : option string :=
  match entries with
  | [] => None
  | e :: rest =>
      match missing_key (fst e) with
      | Some k => Some k
      | None => first_missing_key rest
      end
  end.

(** The three keys that the segment loop of [build_hls_playlist] sets. *)
Definition segment_params
  (base : Py.dict string) (p : Profile) (s : Segment) : Py.dict string :=
  Py.dict_update [("init_url", initUrl p);
                  ("segment_url", media s);
                  ("mime_type", mimeType p)] base.

(** The query parameters that every segment URL of a request starts from. *)
Definition segment_base {collaborators : Collaborators} (request : Request)
  : bool * Py.dict string :=
  pop_has_encrypted
    (Py.dict_del "d"
       (Py.dict_del "profile_id" (Py.dict_of_items (query_params request)))).

(** The parameters of a state of the segment loop are [base], or [base]
    with the three keys of an earlier segment. *)
Definition segment_params_from_base
  (base : Py.dict string) (p : Profile) (params : Py.dict string) : Prop :=
  params = base \/ exists s0, params = segment_params base p s0.

Definition has_extinf (s : Segment) : bool := is_some (extinf s).

(** The exceptions of the numeric steps: [math.ceil], [math.floor] and the
    true division. *)
Definition is_numeric_error (e : Py.exn) : Prop :=
  match e with
  | Py.OverflowError _ | Py.ValueError _ => True
  | _ => False
  end.

(** The two lines of a segment, when it has [extinf]. *)
Definition segment_lines {collaborators : Collaborators}
  (proxy_url : string) (flag_base : bool * Py.dict string)
  (p : Profile) (s : Segment) : list hls_line :=
  match extinf s with
  | Some x =>
      [ExtInf x;
       Uri (encode_mediaflow_proxy_url proxy_url
              (segment_params (snd flag_base) p s)
              (handler_if (fst flag_base)))]
  | None => []
  end.

Definition profile_lines {collaborators : Collaborators}
  (proxy_url : string) (flag_base : bool * Py.dict string) (p : Profile)
  : list hls_line :=
  flat_map (segment_lines proxy_url flag_base p) (segments p).

(** The header tags of a playlist: those of the first profile of the list
    when it has segments, none otherwise. *)
Definition playlist_header (mpd_dict : Mpd) (profiles : list Profile)
  : Py.result (list hls_line) :=
  match profiles with
  | p :: _ =>
      match segments p with
      | first_segment :: _ => add_header mpd_dict p first_segment []
      | [] => Py.ok []
      end
  | [] => Py.ok []
  end.

(** The header that the loop adds when it starts at index [i]. *)
Definition header_at (mpd_dict : Mpd) (i : nat) (profiles : list Profile)
  : Py.result (list hls_line) :=
  if Nat.eqb i 0 then playlist_header mpd_dict profiles else Py.ok [].

Definition all_have_extinf (profiles : list Profile) : bool :=
  forallb (fun p => forallb has_extinf (segments p)) profiles.

Definition has_no_segments (p : Profile) : bool :=
  match segments p with [] => true | _ :: _ => false end.

Definition total_segments (profiles : list Profile) : nat :=
  list_sum (map (fun p => List.length (segments p)) profiles).

Definition added_segments_info (n : nat) : event :=
  Log INFO ("Added " ++ Py.str_of_int (Z.of_nat n)
            ++ " segments to HLS playlist").

(** *** Order of the binary64 values *)

Definition unit_exponent : Z := 1074.

(** The value of a finite float in units of [2 ^ -1074], the smallest
    positive binary64 number; [0] for the values that are no numbers. *)
Definition float_units (x : Py.float) : Z :=
  match x with
  | S754_finite s m e => Py.signed s m * 2 ^ (e + unit_exponent)
  | _ => 0
  end.

Definition is_finite_float (x : Py.float) : bool :=
  match x with
  | S754_zero _ | S754_finite _ _ _ => true
  | _ => false
  end.

(** The [extinf] values of a profile's segments are binary64 floats in
    canonical form, as the Python runtime holds them. *)
Definition extinf_canonical (p : Profile) : Prop :=
  forall s x, In s (segments p) -> extinf s = Some x ->
              valid_binary 53 1024 x = true.

(** *** The playlist as a player reads it

    A playlist is read back line by line, and a tag line attribute by
    attribute.  The builders write strings of the manifest into the text
    as they are, so what is read back depends on the characters of these
    strings. *)

Definition lf_char : ascii := ascii_of_nat 10.
Definition dq_char : ascii := ascii_of_nat 34.
Definition comma_char : ascii := ascii_of_nat 44.

(** A character in front of the first item of a list of pieces. *)
Definition push_char (c : ascii) (pieces : list string) : list string :=
  match pieces with
  | first :: more => String c first :: more
  | [] => [String c EmptyString]
  end.

(** The lines of a text, as [text.split] on the line feed gives them. *)
Fixpoint text_lines (text : string) : list string :=
  match text with
  | EmptyString => [EmptyString]
  | String c rest =>
      if Ascii.eqb c lf_char then EmptyString :: text_lines rest
      else push_char c (text_lines rest)
  end.

(** The attributes of a tag line: the line cut at the commas that are
    outside double quotes.  The first piece holds the tag itself. *)
Fixpoint attributes_from (quoted : bool) (line : string) : list string :=
  match line with
  | EmptyString => [EmptyString]
  | String c rest =>
      if Ascii.eqb c comma_char && negb quoted
      then EmptyString :: attributes_from false rest
      else push_char c
             (attributes_from
                (if Ascii.eqb c dq_char then negb quoted else quoted) rest)
  end.

Definition attributes (line : string) : list string :=
  attributes_from false line.

(** The attributes of a line under a key, as [KEY=value] pieces. *)
Definition attributes_named (key line : string) : list string :=
  filter (String.prefix (key ++ "=")) (attributes line).

Definition is_media_text (line : string) : bool :=
  String.prefix "#EXT-X-MEDIA:" line.

Definition is_stream_inf_text (line : string) : bool :=
  String.prefix "#EXT-X-STREAM-INF:" line.

(** The text of line 114 and of line 121 of the source, for given values. *)
Definition media_tag (name is_default language uri : string) : string :=
  "#EXT-X-MEDIA:TYPE=AUDIO,GROUP-ID=" ++ DQ ++ "audio" ++ DQ
  ++ ",NAME=" ++ DQ ++ name ++ DQ
  ++ ",DEFAULT=" ++ is_default ++ ",AUTOSELECT=" ++ is_default
  ++ ",LANGUAGE=" ++ DQ ++ language ++ DQ
  ++ ",URI=" ++ DQ ++ uri ++ DQ.

Definition stream_inf_tag
  (bandwidth width height : Z) (codecs frameRate : string) (with_audio : bool)
  : string :=
  "#EXT-X-STREAM-INF:BANDWIDTH=" ++ Py.str_of_int bandwidth
  ++ ",RESOLUTION=" ++ Py.str_of_int width ++ "x" ++ Py.str_of_int height
  ++ ",CODECS=" ++ DQ ++ codecs ++ DQ
  ++ ",FRAME-RATE=" ++ frameRate
  ++ (if with_audio then "," ++ "AUDIO=" ++ DQ ++ "audio" ++ DQ else "").

(** The text of the line of an enumerated audio entry, and of the two
    lines of a video entry. *)
Definition media_text (item : nat * (Profile * string)) : string :=
  let '(i, (profile, playlist_url)) := item in
  media_tag (id profile) (if Nat.eqb i 0 then "YES" else "NO")
    (Py.get_or (lang profile) "und") playlist_url.

Definition stream_texts (with_audio : bool) (entry : Profile * string)
  : list string :=
  match bandwidth (fst entry), width (fst entry), height (fst entry),
        codecs (fst entry), frameRate (fst entry) with
  | Some b, Some w, Some h, Some c, Some f =>
      [stream_inf_tag b w h c f with_audio; snd entry]
  | _, _, _, _, _ => []
  end.

(** Pieces put together: what follows the last separator of the first
    list continues with the first piece of the second. *)
Definition glue (xs ys : list string) : list string :=
  (removelast xs ++ (last xs "" ++ hd "" ys)%string :: tl ys)%list.

(** Whether the end of [s] is inside double quotes. *)
Fixpoint quoted_after (quoted : bool) (s : string) : bool :=
  match s with
  | EmptyString => quoted
  | String c rest =>
      quoted_after
        (if Ascii.eqb c comma_char && negb quoted then false
         else if Ascii.eqb c dq_char then negb quoted else quoted) rest
  end.

(** A string without a given character. *)
Fixpoint no_char (c : ascii) (s : string) : bool :=
  match s with
  | EmptyString => true
  | String c' rest => negb (Ascii.eqb c' c) && no_char c rest
  end.

(** A value that can stand between double quotes on one line, and one that
    can stand without quotes. *)
Definition plain (s : string) : bool :=
  no_char lf_char s && no_char dq_char s.

Definition bare (s : string) : bool :=
  plain s && no_char comma_char s.

(** The URL that [build_hls] computes for the playlist of a profile. *)
Definition playlist_url {collaborators : Collaborators}
  (request : Request) (key_id key : option string) (p : Profile) : string :=
  snd (snd (master_entry request key_id key p)).

(** The strings that [build_hls] writes for a profile hold no line feed
    and no double quote, the frame rate no comma either, and the URL of its
    playlist does not start like a tag. *)
Definition profile_strings_plain {collaborators : Collaborators}
  (request : Request) (key_id key : option string) (p : Profile) : bool :=
  plain (id p) && plain (Py.get_or (lang p) "und")
  && plain (Py.get_or (codecs p) "") && bare (Py.get_or (frameRate p) "")
  && plain (playlist_url request key_id key p)
  && negb (String.prefix "#" (playlist_url request key_id key p)).

Definition strings_plain {collaborators : Collaborators}
  (mpd_dict : Mpd) (request : Request) (key_id key : option string) : bool :=
  forallb (profile_strings_plain request key_id key) (profiles mpd_dict).

(** *** [build_hls] with its dictionaries as objects

    A Python dictionary is an object: [query_params.pop] and
    [query_params.update] change it in place, for every holder of a
    reference to it.  The heap holds the dictionaries alive during a call,
    by address.  [build_hls] is given the address of the query parameters
    of the request; [dict(request.query_params)] allocates a copy, and the
    loop pops from and updates this copy.  The codec is given the content
    of the dictionary and returns a string: it is taken as a function of
    what it is given. *)

Module Heap.

Definition ref : Type := nat.

Definition heap : Type := list (Py.dict string).

Definition read (r : ref) (h : heap) : option (Py.dict string) :=
  nth_error h r.

Definition alloc (d : Py.dict string) (h : heap) : ref * heap :=
  (List.length h, (h ++ [d])%list).

Fixpoint write (r : ref) (d : Py.dict string) (h : heap) : heap :=
  match h, r with
  | [], _ => []
  | _ :: rest, O => d :: rest
  | x :: rest, S r' => x :: write r' d rest
  end.

(** The content of the dictionary at [r], for the calls that read it. *)
Definition content (r : ref) (h : heap) : Py.dict string :=
  Py.get_or (read r h) [].

End Heap.

Section InPlace.

Context {collaborators : Collaborators}.

(** Body of [for profile in mpd_dict["profiles"]], [query_params] being an
    address. *)
Definition group_profile_at
  (proxy_url : string) (has_encrypted : bool) (key_id key : option string)
  (query_params : Heap.ref)
  (st : Heap.heap * (Py.dict (Profile * string) * Py.dict (Profile * string)))
  (profile : Profile)
  : Heap.heap * (Py.dict (Profile * string) * Py.dict (Profile * string)) :=
  let '(h, (video_profiles, audio_profiles)) := st in
  let h :=
    Heap.write query_params
      (Py.dict_update [("profile_id", id profile);
                       ("key_id", Py.str_or_empty key_id);
                       ("key", Py.str_or_empty key)]
         (Heap.content query_params h)) h in
  let playlist_url :=
    encode_mediaflow_proxy_url proxy_url (Heap.content query_params h)
      (handler_if has_encrypted) in
  if Py.str_contains "video" (mimeType profile) then
    (h, (Py.dict_set (id profile) (profile, playlist_url) video_profiles,
         audio_profiles))
  else if Py.str_contains "audio" (mimeType profile) then
    (h, (video_profiles,
         Py.dict_set (id profile) (profile, playlist_url) audio_profiles))
  else
    (h, (video_profiles, audio_profiles)).

(** [build_hls], [request_params] being the address of
    [request.query_params]: the heap after the call, and its outcome. *)
Definition build_hls_at
  (mpd_dict : Mpd) (request : Request) (request_params : Heap.ref)
  (key_id key : option string) (h : Heap.heap)
  : Heap.heap * Py.result string :=
  let hls := [ExtM3U; Version6] in
  let (query_params, h) := Heap.alloc (Heap.content request_params h) h in
  let (has_encrypted, popped) :=
    pop_has_encrypted (Heap.content query_params h) in
  let h := Heap.write query_params popped h in
  let proxy_url := resolve_endpoint request "playlist_endpoint" in
  let '(h, (video_profiles, audio_profiles)) :=
    fold_left
      (group_profile_at proxy_url has_encrypted key_id key query_params)
      (profiles mpd_dict) (h, ([], [])) in
  let hls :=
    fold_left add_audio_stream
      (enumerate (Py.dict_values audio_profiles)) hls in
  (h,
   hls <~ for_each (add_video_stream audio_profiles)
            (Py.dict_values video_profiles) hls ;;
   Py.ok (playlist_text hls)).

End InPlace.

(** ** Segment delivery *)

Section SegmentDelivery.

Context {collaborators : Collaborators}.

Lemma write_on_fresh_buffer (a b : Py.bytes) :
  Py.getvalue (Py.write b (Py.write a Py.BytesIO_new)) = (a ++ b)%list.
Proof.
  unfold Py.write, Py.BytesIO_new; cbn [Py.getvalue Py.tell].
  cbn [firstn List.length Nat.sub Nat.add repeat skipn app].
  rewrite skipn_nil, !app_nil_r.
  rewrite firstn_all, Nat.sub_diag.
  rewrite skipn_all2 by lia.
  cbn [repeat app]. now rewrite app_nil_r.
Qed.

Lemma truthy_str_some (s : string) : s <> "" -> Py.truthy_str (Some s) = true.
Proof. destruct s; [congruence | reflexivity]. Qed.

(** C2. With a non-empty key id and key, [process_segment] calls the
    decryptor exactly once, on [(init_content, segment_content, key_id,
    key)], writes nothing to a buffer, and its outcome is the decryptor's:
    the decrypted bytes as the response content, or the decryptor's
    exception. *)
Theorem process_segment_drm_path :
  forall (init_content segment_content : Py.bytes) (mimetype : string)
         (proxy_headers : ProxyRequestHeaders) (key_id key : string),
    key_id <> "" -> key <> "" ->
    let (trace, outcome) :=
      process_segment init_content segment_content
        mimetype proxy_headers (Some key_id) (Some key) in
    decrypt_calls trace = [(init_content, segment_content, key_id, key)]
    /\ buffer_writes trace = []
    /\ outcome =
         (decrypted <~ decrypt_segment init_content segment_content key_id key ;;
          Py.ok (mkResponse decrypted mimetype (response proxy_headers))).
Proof.
  intros i s mt hd kid k Hkid Hk.
  unfold process_segment.
  rewrite (truthy_str_some _ Hkid), (truthy_str_some _ Hk).
  cbn [andb Py.get_or].
  unfold lift, emit, mbind, mret, Py.rbind, Py.ok.
  destruct (decrypt_segment i s kid k) as [e | d]; cbn; auto.
Qed.

(** C5. When the key id or the key is absent or empty, [process_segment]
    answers with exactly [init_content] followed by [segment_content], and
    the decryptor is not called. *)
Theorem process_segment_plain_path :
  forall (init_content segment_content : Py.bytes) (mimetype : string)
         (proxy_headers : ProxyRequestHeaders) (key_id key : option string),
    key_id = None \/ key_id = Some "" \/ key = None \/ key = Some "" ->
    let (trace, outcome) :=
      process_segment init_content segment_content
        mimetype proxy_headers key_id key in
    outcome = Py.ok (mkResponse (init_content ++ segment_content)%list
                       mimetype (response proxy_headers))
    /\ decrypt_calls trace = []
    /\ buffer_writes trace = [init_content; segment_content].
Proof.
  intros i s mt hd kid k H.
  unfold process_segment.
  assert (E : Py.truthy_str kid && Py.truthy_str k = false).
  { destruct H as [-> | [-> | [-> | ->]]]; cbn;
      try reflexivity; apply andb_false_r. }
  rewrite E.
  unfold emit, mbind, mret. cbn [app].
  rewrite write_on_fresh_buffer. cbn. auto.
Qed.

End SegmentDelivery.

(** ** The media playlist builder *)

Section MonadFacts.

Context {A B : Type}.

Lemma emit_then (e : event) (m : M A) :
  (emit e ;;; m) = (e :: fst m, snd m).
Proof. destruct m as [t r]. reflexivity. Qed.

Lemma lift_ok_then (a : A) (k : A -> M B) : (x <- lift (Py.ok a) ;; k x) = k a.
Proof. unfold lift, mbind, Py.ok. destruct (k a). reflexivity. Qed.

Lemma snd_mbind (m : M A) (k : A -> M B) :
  snd (x <- m ;; k x) = Py.rbind (snd m) (fun a => snd (k a)).
Proof.
  destruct m as [t [e | a]]; cbn; [reflexivity |].
  destruct (k a); reflexivity.
Qed.

Lemma rbind_ext (r : Py.result A) (f g : A -> Py.result B) :
  (forall a, f a = g a) -> Py.rbind r f = Py.rbind r g.
Proof. intros H. destruct r; cbn; [reflexivity | apply H]. Qed.

Lemma mbind_inv (m : M A) (k : A -> M B) (t : list event) (b : B) :
  (x <- m ;; k x) = (t, inr b) ->
  exists t1 a t2, m = (t1, inr a) /\ k a = (t2, inr b) /\ t = (t1 ++ t2)%list.
Proof.
  destruct m as [t1 [e | a]]; cbn; [discriminate |].
  destruct (k a) as [t2 r] eqn:E. intros [= <- ->].
  now exists t1, a, t2.
Qed.

End MonadFacts.

Section LoopFacts.

Context {A S : Type}.

Lemma for_each_M_app (body : S -> A -> M S) (xs ys : list A) (st : S) :
  for_each_M body (xs ++ ys) st =
  (st' <- for_each_M body xs st ;; for_each_M body ys st').
Proof.
  revert st. induction xs as [| x xs IH]; intros st; cbn [app for_each_M].
  - unfold mret. change ([], Py.ok st) with (lift (A := S) (Py.ok st)).
    now rewrite lift_ok_then.
  - destruct (body st x) as [t [e | st1]]; cbn; [reflexivity |].
    rewrite IH.
    destruct (for_each_M body xs st1) as [t1 [e1 | st2]]; cbn.
    + reflexivity.
    + destruct (for_each_M body ys st2). now rewrite app_assoc.
Qed.

Lemma enumerate_from_app (i : nat) (xs ys : list A) :
  enumerate_from i (xs ++ ys) =
  (enumerate_from i xs ++ enumerate_from (i + List.length xs) ys)%list.
Proof.
  revert i. induction xs as [| x xs IH]; intros i; cbn.
  - now rewrite Nat.add_0_r.
  - rewrite IH. now rewrite Nat.add_succ_r.
Qed.

End LoopFacts.

Section MediaPlaylist.

Context {collaborators : Collaborators}.

Variables (mpd_dict : Mpd) (request : Request) (proxy_url : string).

Lemma add_profile_later_index (i j : nat) (profile : Profile) (st : Playlist) :
  i <> 0%nat -> j <> 0%nat ->
  add_profile mpd_dict request proxy_url st (i, profile) =
  add_profile mpd_dict request proxy_url st (j, profile).
Proof.
  intros Hi Hj. unfold add_profile.
  destruct (Nat.eqb_spec i 0), (Nat.eqb_spec j 0); congruence.
Qed.

Lemma later_profiles_index_shift (i j : nat) (rest : list Profile) (st : Playlist) :
  i <> 0%nat -> j <> 0%nat ->
  for_each_M (add_profile mpd_dict request proxy_url) (enumerate_from i rest) st =
  for_each_M (add_profile mpd_dict request proxy_url) (enumerate_from j rest) st.
Proof.
  revert i j st.
  induction rest as [| p rest IH]; intros i j st Hi Hj;
    cbn [enumerate_from for_each_M].
  - reflexivity.
  - rewrite (add_profile_later_index i j) by assumption.
    destruct (add_profile _ _ _ st (j, p)) as [t [e | st1]]; cbn; [reflexivity |].
    now rewrite (IH (S i) (S j)).
Qed.

Lemma add_profile_no_segments (index : nat) (profile : Profile) (st : Playlist) :
  segments profile = [] ->
  add_profile mpd_dict request proxy_url st (index, profile)
  = ([no_segments_warning profile], Py.ok st).
Proof. intros Hempty. unfold add_profile. rewrite Hempty. reflexivity. Qed.

Lemma loop_no_segments
  (index : nat) (profile : Profile) (rest : list Profile) (st : Playlist) :
  segments profile = [] ->
  for_each_M (add_profile mpd_dict request proxy_url)
    (enumerate_from index (profile :: rest)) st
  = (emit (no_segments_warning profile) ;;;
     for_each_M (add_profile mpd_dict request proxy_url)
       (enumerate_from (S index) rest) st).
Proof.
  intros Hempty. cbn [enumerate_from for_each_M].
  rewrite (add_profile_no_segments index profile st Hempty). reflexivity.
Qed.


End MediaPlaylist.

Section HeaderTags.

Context {collaborators : Collaborators}.

Variables (mpd_dict : Mpd) (request : Request) (proxy_url : string).

Lemma add_segment_header_tags
  (has_encrypted : bool) (profile : Profile) (segment : Segment)
  (st st' : Playlist * Py.dict string) :
  add_segment proxy_url has_encrypted profile st segment = inr st' ->
  existsb is_header_tag (hls (fst st')) = existsb is_header_tag (hls (fst st)).
Proof.
  destruct st as [pl params]. unfold add_segment.
  destruct (extinf segment) as [x |]; cbn; [| discriminate].
  intros [= <-]. cbn.
  rewrite !existsb_app. cbn. now rewrite !orb_false_r.
Qed.

Lemma segments_header_tags
  (has_encrypted : bool) (profile : Profile) (segs : list Segment)
  (st st' : Playlist * Py.dict string) :
  for_each (add_segment proxy_url has_encrypted profile) segs st = inr st' ->
  existsb is_header_tag (hls (fst st')) = existsb is_header_tag (hls (fst st)).
Proof.
  revert st. induction segs as [| s segs IH]; intros st; cbn.
  - now intros [= <-].
  - destruct (add_segment _ _ _ st s) as [e | st1] eqn:E; cbn; [discriminate |].
    intros H. rewrite (IH _ H). eapply add_segment_header_tags; eassumption.
Qed.

Lemma later_profile_header_tags
  (i : nat) (profile : Profile) (st st' : Playlist) (t : list event) :
  i <> 0%nat ->
  add_profile mpd_dict request proxy_url st (i, profile) = (t, inr st') ->
  existsb is_header_tag (hls st') = existsb is_header_tag (hls st).
Proof.
  intros Hi. unfold add_profile.
  destruct (segments profile) as [| first_segment more] eqn:Hsegs.
  - rewrite emit_then. cbn. now intros [= _ <-].
  - destruct (Nat.eqb_spec i 0) as [-> | _]; [congruence |].
    rewrite lift_ok_then.
    destruct (pop_has_encrypted _) as [has_encrypted params].
    match goal with
    | |- context [lift (for_each ?f ?l ?s)] =>
        destruct (for_each f l s) as [e | r] eqn:Hloop
    end; [discriminate |].
    rewrite lift_ok_then. intros [= _ <-].
    now apply segments_header_tags in Hloop.
Qed.

Lemma later_profiles_header_tags
  (i : nat) (rest : list Profile) (st st' : Playlist) (t : list event) :
  i <> 0%nat ->
  for_each_M (add_profile mpd_dict request proxy_url)
    (enumerate_from i rest) st = (t, inr st') ->
  existsb is_header_tag (hls st') = existsb is_header_tag (hls st).
Proof.
  revert i st t.
  induction rest as [| p rest IH]; intros i st t Hi;
    cbn [enumerate_from for_each_M].
  - now intros [= _ <-].
  - intros H. apply mbind_inv in H as (t1 & st1 & t2 & H1 & H2 & _).
    apply IH in H2; [| lia].
    apply later_profile_header_tags in H1; [| assumption].
    congruence.
Qed.

End HeaderTags.

Section FirstProfile.

Context {collaborators : Collaborators}.

(** When the first profile of the list has no segments, no profile is ever
    seen at index 0, and the playlist comes out without any of the three
    header tags. *)
Lemma empty_first_profile_drops_header
  (mpd_dict : Mpd) (request : Request) (first : Profile) (rest : list Profile)
  (t : list event) (lines : list hls_line) :
  segments first = [] ->
  build_hls_playlist_lines mpd_dict (first :: rest) request = (t, inr lines) ->
  existsb is_header_tag lines = false.
Proof.
  intros Hempty. unfold build_hls_playlist_lines, enumerate.
  set (url := resolve_endpoint request "segment_endpoint").
  rewrite (loop_no_segments mpd_dict request url 0%nat first rest
             (mkPlaylist [ExtM3U; Version6] 0) Hempty).
  intros H. apply mbind_inv in H as (t1 & st1 & t2 & H1 & H2 & _).
  rewrite emit_then in H1. injection H1 as _ H1.
  destruct (for_each_M _ _ _) as [t3 r3] eqn:Hloop in H1.
  cbn in H1. subst r3.
  apply later_profiles_header_tags in Hloop; [| lia]. cbn in Hloop.
  destruct (isLive mpd_dict) as [live |]; cbn in H2; [| discriminate].
  injection H2 as _ <-.
  destruct live; cbn [negb]; [assumption |].
  rewrite existsb_app, Hloop. reflexivity.
Qed.

(** X14. A profile without segments anywhere but in the first place: the
    playlist is the one built without it. *)
Lemma skipped_profile_leaves_playlist
  (mpd_dict : Mpd) (request : Request)
  (before : list Profile) (profile : Profile) (after : list Profile) :
  before <> [] -> segments profile = [] ->
  snd (build_hls_playlist_lines mpd_dict (before ++ profile :: after) request)
  = snd (build_hls_playlist_lines mpd_dict (before ++ after) request).
Proof.
  intros Hbefore Hempty. unfold build_hls_playlist_lines, enumerate.
  set (url := resolve_endpoint request "segment_endpoint").
  rewrite !snd_mbind. f_equal.
  rewrite !enumerate_from_app, !for_each_M_app, !snd_mbind.
  apply rbind_ext. intros st.
  rewrite (loop_no_segments mpd_dict request url
             (0 + List.length before) profile after st Hempty).
  rewrite emit_then. cbn [snd]. f_equal.
  apply later_profiles_index_shift; destruct before; cbn in *; congruence || lia.
Qed.

End FirstProfile.

Section Header.

Context {collaborators : Collaborators}.

Variables (mpd_dict : Mpd) (request : Request) (proxy_url : string).

Lemma segments_append
  (has_encrypted : bool) (profile : Profile) (segs : list Segment)
  (st st' : Playlist * Py.dict string) :
  for_each (add_segment proxy_url has_encrypted profile) segs st = inr st' ->
  exists extra, hls (fst st') = (hls (fst st) ++ extra)%list.
Proof.
  revert st. induction segs as [| s segs IH]; intros st; cbn [for_each].
  - intros [= <-]. exists []. now rewrite app_nil_r.
  - destruct (add_segment _ _ _ st s) as [e | st1] eqn:E; cbn; [discriminate |].
    intros H. destruct (IH _ H) as (extra & ->).
    destruct st as [pl params]. unfold add_segment in E.
    destruct (extinf s) as [x |]; cbn in E; [| discriminate].
    injection E as <-. cbn. eexists. now rewrite <- !app_assoc.
Qed.

Lemma add_profile_appends
  (item : nat * Profile) (st st' : Playlist) (t : list event) :
  add_profile mpd_dict request proxy_url st item = (t, inr st') ->
  exists extra, hls st' = (hls st ++ extra)%list.
Proof.
  destruct item as [i profile]. unfold add_profile.
  destruct (segments profile) as [| first_segment more].
  - rewrite emit_then. intros [= _ <-]. exists []. now rewrite app_nil_r.
  - match goal with
    | |- context [lift (if ?c then ?h else ?k)] =>
        destruct (if c then h else k) as [e | lines] eqn:Hhead
    end; [discriminate |].
    rewrite lift_ok_then.
    destruct (pop_has_encrypted _) as [has_encrypted params].
    match goal with
    | |- context [lift (for_each ?f ?l ?s)] =>
        destruct (for_each f l s) as [e | r] eqn:Hloop
    end; [discriminate |].
    rewrite lift_ok_then. intros [= _ <-].
    apply segments_append in Hloop as (extra & ->). cbn [fst hls].
    destruct (Nat.eqb i 0).
    + unfold add_header in Hhead.
      destruct (target_duration_of _); cbn in Hhead; [discriminate |].
      destruct (media_sequence _ _ _); cbn in Hhead; [discriminate |].
      destruct (isLive mpd_dict); cbn in Hhead; [| discriminate].
      injection Hhead as <-. eexists. now rewrite <- !app_assoc.
    + injection Hhead as <-. now exists extra.
Qed.

Lemma profiles_append
  (items : list (nat * Profile)) (st st' : Playlist) (t : list event) :
  for_each_M (add_profile mpd_dict request proxy_url) items st = (t, inr st') ->
  exists extra, hls st' = (hls st ++ extra)%list.
Proof.
  revert st t. induction items as [| item items IH]; intros st t; cbn [for_each_M].
  - intros [= _ <-]. exists []. now rewrite app_nil_r.
  - intros H. apply mbind_inv in H as (t1 & st1 & t2 & H1 & H2 & _).
    apply IH in H2 as (extra2 & ->).
    apply add_profile_appends in H1 as (extra1 & ->).
    eexists. now rewrite <- app_assoc.
Qed.

End Header.

(** When the first profile of the list has segments, the playlist opens
    with the three tags derived from that profile. *)
Lemma first_profile_header
  {collaborators : Collaborators}
  (mpd_dict : Mpd) (request : Request)
  (profile : Profile) (rest : list Profile)
  (first_segment : Segment) (more : list Segment)
  (target_duration sequence : Z) (is_live : bool)
  (t : list event) (lines : list hls_line) :
  segments profile = first_segment :: more ->
  target_duration_of (segments profile) = Py.ok target_duration ->
  media_sequence mpd_dict profile first_segment = Py.ok sequence ->
  isLive mpd_dict = Some is_live ->
  build_hls_playlist_lines mpd_dict (profile :: rest) request = (t, inr lines) ->
  exists body,
    lines = ([ExtM3U; Version6; TargetDuration target_duration;
              MediaSequence sequence;
              PlaylistType (if is_live then "LIVE" else "VOD")] ++ body)%list.
Proof.
  intros Hsegs Htd Hsq Hlive. unfold build_hls_playlist_lines, enumerate.
  cbn [enumerate_from for_each_M].
  intros H. apply mbind_inv in H as (t1 & st2 & t2 & H1 & H2 & _).
  apply mbind_inv in H1 as (t3 & st1 & t4 & Hfirst & Hrest & _).
  apply profiles_append in Hrest as (extra2 & Hrest).
  rewrite Hlive in H2. cbn in H2. injection H2 as _ <-.
  assert (Hhead : exists extra1,
             hls st1 = ([ExtM3U; Version6; TargetDuration target_duration;
                         MediaSequence sequence;
                         PlaylistType (if is_live then "LIVE" else "VOD")]
                        ++ extra1)%list).
  { unfold add_profile in Hfirst. rewrite Hsegs in Hfirst.
    cbn [Nat.eqb] in Hfirst. unfold add_header in Hfirst.
    rewrite Htd, Hsq, Hlive in Hfirst. cbn [Py.rbind Py.ok Py.getitem] in Hfirst.
    rewrite lift_ok_then in Hfirst.
    destruct (pop_has_encrypted _) as [has_encrypted params].
    match type of Hfirst with
    | context [lift (for_each ?f ?l ?s)] =>
        destruct (for_each f l s) as [e | r] eqn:Hloop
    end; [discriminate |].
    rewrite lift_ok_then in Hfirst. injection Hfirst as _ <-.
    apply segments_append in Hloop as (extra & ->). cbn [fst hls].
    now exists extra. }
  destruct Hhead as (extra1 & Hhead). rewrite Hrest, Hhead.
  destruct is_live; cbn [negb]; eexists; rewrite <- ?app_assoc; reflexivity.
Qed.

(** C1. A list whose first profile has no segments and whose second has
    two: the playlist served for it carries the segments and the end marker
    but none of [#EXT-X-TARGETDURATION], [#EXT-X-MEDIA-SEQUENCE] and
    [#EXT-X-PLAYLIST-TYPE]; the second profile alone gets all three. *)
Theorem empty_first_profile_playlist :
  snd (process_playlist (collaborators := Sample.in_order)
         Sample.request Sample.two_periods "v1" (mkProxyRequestHeaders []))
  = Py.ok (mkResponse
             (playlist_text
                [ExtM3U; Version6;
                 ExtInf (Py.float_of_int 4); Uri (Sample.segment_url "seg1.m4s");
                 ExtInf (Py.float_of_int 4); Uri (Sample.segment_url "seg2.m4s");
                 EndList])
             "application/vnd.apple.mpegurl" [])
  /\ snd (build_hls_playlist_lines (collaborators := Sample.in_order)
            Sample.two_periods [Sample.v1] Sample.request)
     = Py.ok [ExtM3U; Version6;
              TargetDuration 4; MediaSequence 1; PlaylistType "VOD";
              ExtInf (Py.float_of_int 4); Uri (Sample.segment_url "seg1.m4s");
              ExtInf (Py.float_of_int 4); Uri (Sample.segment_url "seg2.m4s");
              EndList].
Proof. vm_compute. split; reflexivity. Qed.

(** ** True division of integers below [2 ^ 53]

    The quotient of two such integers is rounded to a float that has the
    same integer part. *)

Section TrueDivision.

Lemma digits2_pos_bounds (p : positive) :
  2 ^ (Zpos (digits2_pos p) - 1) <= Zpos p < 2 ^ Zpos (digits2_pos p).
Proof.
  induction p as [p IH | p IH |]; cbn [digits2_pos].
  - rewrite Pos2Z.inj_succ.
    replace (Z.succ (Zpos (digits2_pos p)) - 1) with (Z.succ (Zpos (digits2_pos p) - 1)) by lia.
    rewrite !Z.pow_succ_r by lia. lia.
  - rewrite Pos2Z.inj_succ.
    replace (Z.succ (Zpos (digits2_pos p)) - 1) with (Z.succ (Zpos (digits2_pos p) - 1)) by lia.
    rewrite !Z.pow_succ_r by lia. lia.
  - cbn. lia.
Qed.

Lemma digits2_pos_unique (p : positive) (n : Z) :
  2 ^ (n - 1) <= Zpos p < 2 ^ n -> Zpos (digits2_pos p) = n.
Proof.
  intros [Hlo Hhi]. pose proof (digits2_pos_bounds p) as [Blo Bhi].
  assert (0 < n).
  { destruct (Z.ltb_spec 0 n); [assumption |].
    destruct (Z.eqb_spec n 0) as [-> | ]; [cbn in Hhi; lia |].
    rewrite (Z.pow_neg_r 2 n) in Hhi by lia. lia. }
  assert (Zpos (digits2_pos p) - 1 < n).
  { apply (Z.pow_lt_mono_r_iff 2); lia. }
  assert (n - 1 < Zpos (digits2_pos p)).
  { apply (Z.pow_lt_mono_r_iff 2); lia. }
  lia.
Qed.

Lemma loc_roundtrip m l : loc_of_shr_record (shr_record_of_loc m l) = l.
Proof. destruct l as [| []]; reflexivity. Qed.

Lemma shr_m_of_loc m l : shr_m (shr_record_of_loc m l) = m.
Proof. destruct l as [| []]; reflexivity. Qed.

Lemma fexp_small e : -1021 <= e -> fexp 53 1024 e = e - 53.
Proof. unfold fexp, emin. lia. Qed.

Lemma floor_of_double (m ex : Z) :
  ex < 0 -> floor_of m (ex + 1) = Z.shiftr (2 * m) (- ex).
Proof.
  intros Hex. unfold floor_of.
  rewrite !Z.shiftr_div_pow2 by lia.
  replace (- ex) with (Z.succ (- (ex + 1))) by lia.
  rewrite Z.pow_succ_r by lia.
  rewrite Z.div_mul_cancel_l by lia.
  destruct (Z.leb_spec 0 (ex + 1)); [| reflexivity].
  replace (ex + 1) with 0 by lia. cbn. now rewrite Z.div_1_r, Z.mul_1_r.
Qed.

(** The second normalisation of [binary_round_aux] keeps the value. *)
Lemma renormalize (m1 e : Z) :
  2 ^ 52 <= m1 <= 2 ^ 53 -> -1000 <= e <= 0 ->
  exists p' e',
    (let '(mrs'', e'') :=
       shr (shr_record_of_loc m1 loc_Exact) e
         (fexp 53 1024 (Zdigits2 m1 + e) - e) in
     match shr_m mrs'' with
     | 0 => S754_zero false
     | Z.pos m =>
         if e'' <=? 1024 - 53 then S754_finite false m e''
         else S754_infinity false
     | Z.neg _ => S754_nan
     end) = S754_finite false p' e'
    /\ floor_of (Zpos p') e' = floor_of m1 e.
Proof.
  intros Hm He. destruct (Z.eq_dec m1 (2 ^ 53)) as [-> | Hne].
  - change (Zdigits2 (2 ^ 53)) with 54.
    rewrite fexp_small by lia.
    replace (54 + e - 53 - e) with 1 by lia.
    cbn [shr iter_pos shr_record_of_loc]. 
    change (shr_1 {| shr_m := 2 ^ 53; shr_r := false; shr_s := false |})
      with {| shr_m := 2 ^ 52; shr_r := false; shr_s := false |}.
    cbn [shr_m]. change (2 ^ 52) with (Zpos 4503599627370496).
    destruct (Z.leb_spec (e + 1) (1024 - 53)); [| lia].
    eexists _, _. split; [reflexivity |].
    destruct (Z.eq_dec e 0) as [-> | He0]; [reflexivity |].
    rewrite floor_of_double by lia.
    unfold floor_of. destruct (Z.leb_spec 0 e); [lia | reflexivity].
  - destruct m1 as [| p1 | p1]; try (cbn in Hm; lia).
    cbn [Zdigits2]. rewrite (digits2_pos_unique p1 53) by (cbn in *; lia).
    rewrite fexp_small by lia.
    replace (53 + e - 53 - e) with 0 by lia.
    cbn [shr shr_record_of_loc shr_m].
    destruct (Z.leb_spec e (1024 - 53)); [| lia].
    eexists _, _. split; reflexivity.
Qed.

Lemma round_aux_53 (p : positive) (ex : Z) (loc : location) :
  2 ^ 52 <= Zpos p < 2 ^ 53 -> -1000 <= ex <= -1 ->
  exists p' e' t,
    binary_round_aux 53 1024 false (Zpos p) ex loc = S754_finite false p' e'
    /\ floor_of (Zpos p') e' = Z.shiftr t (- ex)
    /\ (t = Zpos p \/ t = Zpos p + 1).
Proof.
  intros Hq Hex.
  unfold binary_round_aux, shr_fexp. cbn [Zdigits2].
  rewrite (digits2_pos_unique p 53) by (cbn; lia).
  rewrite fexp_small by lia.
  replace (53 + ex - 53 - ex) with 0 by lia. cbn [shr].
  rewrite loc_roundtrip, shr_m_of_loc.
  set (m1 := round_nearest_even (Zpos p) loc).
  assert (Hm1 : m1 = Zpos p \/ m1 = Zpos p + 1).
  { unfold m1, round_nearest_even.
    destruct loc as [| []]; try destruct (Z.even _); auto. }
  destruct (renormalize m1 ex) as (p' & e' & -> & Hfloor); [lia | lia |].
  exists p', e', m1. split; [reflexivity |]. split; [| exact Hm1].
  rewrite Hfloor. unfold floor_of.
  destruct (Z.leb_spec 0 ex); [lia | reflexivity].
Qed.

Lemma round_aux_54 (p : positive) (ex : Z) (loc : location) :
  2 ^ 53 <= Zpos p < 2 ^ 54 -> -1000 <= ex <= -1 ->
  exists p' e' t,
    binary_round_aux 53 1024 false (Zpos p) ex loc = S754_finite false p' e'
    /\ floor_of (Zpos p') e' = Z.shiftr t (- ex)
    /\ (t = Zpos p \/ t = Zpos p + 1 \/ (t = Zpos p - 1 /\ Z.odd (Zpos p) = true)).
Proof.
  intros Hq Hex.
  unfold binary_round_aux, shr_fexp. cbn [Zdigits2].
  rewrite (digits2_pos_unique p 54) by (cbn; lia).
  rewrite fexp_small by lia.
  replace (54 + ex - 53 - ex) with 1 by lia. cbn [shr iter_pos].
  destruct p as [h | h |]; [| | lia].
  - (* odd *)
    assert (Hh : 2 ^ 52 <= Zpos h < 2 ^ 53) by lia.
    set (rec := shr_1 (shr_record_of_loc (Zpos h~1) loc)).
    assert (Hrec : shr_m rec = Zpos h) by (destruct loc as [| []]; reflexivity).
    set (m1 := round_nearest_even (shr_m rec) (loc_of_shr_record rec)).
    assert (Hm1 : m1 = Zpos h \/ m1 = Zpos h + 1).
    { unfold m1. rewrite Hrec. unfold round_nearest_even.
      destruct (loc_of_shr_record rec) as [| []]; try destruct (Z.even _); auto. }
    destruct (renormalize m1 (ex + 1)) as (p' & e' & -> & Hfloor); [lia | lia |].
    exists p', e', (2 * m1). split; [reflexivity |]. split.
    + rewrite Hfloor. apply floor_of_double. lia.
    + clearbody m1. destruct Hm1 as [-> | ->];
        [right; right; split; [lia | reflexivity] | right; left; lia].
  - (* even: the round bit is clear, nothing is added *)
    assert (Hh : 2 ^ 52 <= Zpos h < 2 ^ 53) by lia.
    set (rec := shr_1 (shr_record_of_loc (Zpos h~0) loc)).
    assert (Hrec : shr_m rec = Zpos h) by (destruct loc as [| []]; reflexivity).
    set (m1 := round_nearest_even (shr_m rec) (loc_of_shr_record rec)).
    assert (Hm1 : m1 = Zpos h).
    { unfold m1, rec. destruct loc as [| []]; reflexivity. }
    destruct (renormalize m1 (ex + 1)) as (p' & e' & -> & Hfloor); [lia | lia |].
    exists p', e', (2 * m1). split; [reflexivity |]. split.
    + rewrite Hfloor. apply floor_of_double. lia.
    + clearbody m1. left. lia.
Qed.

Lemma quotient_stable (a b S S' q r t : Z) :
  0 <= a -> 0 < b < S -> S = 2 * S' ->
  a * S = b * q + r -> 0 <= r < b ->
  (t = q \/ t = q + 1 \/ (t = q - 1 /\ Z.odd q = true)) ->
  t / S = a / b.
Proof.
  intros Ha Hb HS Heq Hr Ht.
  pose proof (Z_div_mod_eq_full a b) as Hdiv.
  pose proof (Z.mod_pos_bound a b ltac:(lia)) as Hmod.
  set (k := a / b) in *. set (w := a mod b) in *.
  assert (Hu : 0 <= q - k * S <= S - 2) by nia.
  symmetry. apply (Z.div_unique t S k (t - k * S)); [left | lia].
  destruct Ht as [-> | [-> | [-> Hodd]]]; [lia | lia |].
  apply Z.odd_spec in Hodd. destruct Hodd as [m Hm].
  assert (q - k * S <> 0) by (subst S; intros E; lia).
  lia.
Qed.

Lemma math_floor_finite (p : positive) (e : Z) :
  Py.math_floor (S754_finite false p e) = Py.ok (floor_of (Zpos p) e).
Proof. reflexivity. Qed.

Lemma round_aux_floor (q ex : Z) (loc : location) :
  2 ^ 52 <= q < 2 ^ 54 -> -1000 <= ex <= -1 ->
  exists p' e' t,
    binary_round_aux 53 1024 false q ex loc = S754_finite false p' e'
    /\ floor_of (Zpos p') e' = Z.shiftr t (- ex)
    /\ (t = q \/ t = q + 1 \/ (t = q - 1 /\ Z.odd q = true)).
Proof.
  intros Hq Hex. destruct q as [| p | p]; try lia.
  destruct (Z.ltb_spec (Zpos p) (2 ^ 53)).
  - destruct (round_aux_53 p ex loc) as (p' & e' & t & H1 & H2 & H3);
      [lia | lia |].
    exists p', e', t. intuition.
  - apply round_aux_54; lia.
Qed.

Theorem int_truediv_floor (a b : Z) :
  0 <= a < 2 ^ 53 -> 0 < b < 2 ^ 53 ->
  exists f, Py.int_truediv a b = Py.ok f /\ Py.math_floor f = Py.ok (a / b).
Proof.
  intros Ha Hb. unfold Py.int_truediv.
  destruct (Z.eqb_spec b 0); [lia |].
  destruct b as [| pb | pb]; try lia.
  destruct a as [| pa | pa]; try lia.
  - exists (S754_zero false). split; reflexivity.
  - cbn [Py.exact_int SFdiv xorb]. unfold SFdiv_core_binary. cbn [Zdigits2].
    pose proof (digits2_pos_bounds pa) as Hda.
    pose proof (digits2_pos_bounds pb) as Hdb.
    set (d1 := Zpos (digits2_pos pa)) in *.
    set (d2 := Zpos (digits2_pos pb)) in *.
    assert (Hd1 : 1 <= d1 <= 53).
    { split; [unfold d1; lia |].
      assert (d1 - 1 < 53) by (apply (Z.pow_lt_mono_r_iff 2); lia). lia. }
    assert (Hd2 : 1 <= d2 <= 53).
    { split; [unfold d2; lia |].
      assert (d2 - 1 < 53) by (apply (Z.pow_lt_mono_r_iff 2); lia). lia. }
    replace (Z.min (fexp 53 1024 (d1 + 0 - (d2 + 0))) (0 - 0))
      with (d1 - d2 - 53) by (rewrite fexp_small; lia).
    set (s := 53 + d2 - d1).
    replace (0 - 0 - (d1 - d2 - 53)) with s by (unfold s; lia).
    assert (Hs : 1 <= s <= 105) by (unfold s; lia).
    assert (Hshift : match s with
                     | Z.pos _ => Z.shiftl (Zpos pa) s
                     | 0 => Zpos pa
                     | Z.neg _ => 0
                     end = Zpos pa * 2 ^ s).
    { destruct s; try lia. apply Z.shiftl_mul_pow2. lia. }
    rewrite Hshift.
    pose proof (Z_div_mod (Zpos pa * 2 ^ s) (Zpos pb) ltac:(lia)) as Hdm.
    destruct (Z.div_eucl (Zpos pa * 2 ^ s) (Zpos pb)) as [q r].
    destruct Hdm as [Heq Hr].
    (* sizes *)
    assert (HS : 2 ^ s = 2 * 2 ^ (s - 1)).
    { replace s with (Z.succ (s - 1)) at 1 by lia. apply Z.pow_succ_r. lia. }
    assert (HAS : 2 ^ (d1 - 1) * 2 ^ s = 2 ^ 53 * 2 ^ (d2 - 1)).
    { rewrite <- !Z.pow_add_r by lia. f_equal. unfold s. lia. }
    assert (Hd1' : 2 ^ d1 = 2 * 2 ^ (d1 - 1)).
    { replace d1 with (Z.succ (d1 - 1)) at 1 by lia. apply Z.pow_succ_r. lia. }
    assert (Hd2' : 2 ^ d2 = 2 * 2 ^ (d2 - 1)).
    { replace d2 with (Z.succ (d2 - 1)) at 1 by lia. apply Z.pow_succ_r. lia. }
    assert (HA52 : 2 ^ (d1 - 1) <= 2 ^ 52) by (apply Z.pow_le_mono_r; lia).
    set (A := 2 ^ (d1 - 1)) in *. set (B := 2 ^ (d2 - 1)) in *.
    set (S := 2 ^ s) in *. set (S' := 2 ^ (s - 1)) in *.
    change (2 ^ 53) with 9007199254740992 in *.
    change (2 ^ 52) with 4503599627370496 in *.
    assert (HB : 0 < B) by (unfold B; apply Z.pow_pos_nonneg; lia).
    assert (HbS : Zpos pb < S) by nia.
    assert (Hq : 4503599627370496 <= q < 18014398509481984) by nia.
    destruct (round_aux_floor q (d1 - d2 - 53) (new_location (Zpos pb) r))
      as (p' & e' & t & -> & Hfloor & Ht);
      [change (2 ^ 52) with 4503599627370496;
       change (2 ^ 54) with 18014398509481984; lia | lia |].
    eexists. split; [reflexivity |].
    rewrite math_floor_finite, Hfloor. f_equal.
    rewrite Z.shiftr_div_pow2 by lia.
    replace (- (d1 - d2 - 53)) with s by (unfold s; lia). fold S.
    apply (quotient_stable (Zpos pa) (Zpos pb) S S' q r t);
      [lia | lia | exact HS | exact Heq | exact Hr | exact Ht].
Qed.

End TrueDivision.

(** ** Sequence derivation *)

Section SequenceDerivation.

Variables (mpd_dict : Mpd) (profile : Profile) (first_segment : Segment).

Lemma start_number_branch (n : Z) :
  segment_template_start_number profile = Some n ->
  Py.truthy_int (segment_template_start_number profile)
  && (1000 <=? Py.get_or (segment_template_start_number profile) 0)
  = (1000 <=? n).
Proof.
  intros ->. cbn. destruct (Z.leb_spec 1000 n), (Z.eqb_spec n 0);
    cbn; try reflexivity; lia.
Qed.

(** C4. With a template start number of at least 1000 the sequence is the
    first segment's number, or the start number when the segment has none;
    without such a start number and without a time or a duration on the
    first segment it is the first segment's number, or 1. *)
Theorem media_sequence_from_number :
  (forall n : Z,
      segment_template_start_number profile = Some n -> 1000 <= n ->
      media_sequence mpd_dict profile first_segment
      = Py.ok (Py.get_or (number first_segment) n))
  /\ ((segment_template_start_number profile = None
       \/ exists n, segment_template_start_number profile = Some n /\ n < 1000) ->
      (time first_segment = None \/ duration_mpd_timescale first_segment = None) ->
      media_sequence mpd_dict profile first_segment
      = Py.ok (Py.get_or (number first_segment) 1)).
Proof.
  split.
  - intros n Hn Hge. unfold media_sequence.
    rewrite (start_number_branch n Hn), Hn.
    destruct (Z.leb_spec 1000 n); [reflexivity | lia].
  - intros Hstart Haddr. unfold media_sequence.
    assert (E : Py.truthy_int (segment_template_start_number profile)
                && (1000 <=? Py.get_or (segment_template_start_number profile) 0)
                = false).
    { destruct Hstart as [-> | (n & Hn & Hlt)]; [reflexivity |].
      rewrite (start_number_branch n Hn).
      destruct (Z.leb_spec 1000 n); [lia | reflexivity]. }
    rewrite E.
    destruct Haddr as [-> | ->]; [reflexivity |].
    destruct (time first_segment); reflexivity.
Qed.

(** X20. For a first segment addressed by time, without a start number of
    1000 or more, and with a time and a duration below [2 ^ 53], the
    sequence is the integer quotient of the time by the duration; in a live
    manifest a quotient above 100000 is reduced modulo 100000. *)
Lemma media_sequence_exact_quotient (t d : Z) :
  (segment_template_start_number profile = None
   \/ exists n, segment_template_start_number profile = Some n /\ n < 1000) ->
  time first_segment = Some t ->
  duration_mpd_timescale first_segment = Some d ->
  0 <= t < 2 ^ 53 -> 0 < d < 2 ^ 53 ->
  media_sequence mpd_dict profile first_segment
  = Py.ok (if Py.get_or (isLive mpd_dict) false && (100000 <? t / d)
           then (t / d) mod 100000 else t / d).
Proof.
  intros Hstart Htime Hdur Ht Hd. unfold media_sequence.
  assert (E : Py.truthy_int (segment_template_start_number profile)
              && (1000 <=? Py.get_or (segment_template_start_number profile) 0)
              = false).
  { destruct Hstart as [-> | (n & Hn & Hlt)]; [reflexivity |].
    rewrite (start_number_branch n Hn).
    destruct (Z.leb_spec 1000 n); [lia | reflexivity]. }
  rewrite E, Htime, Hdur. cbn [Py.truthy_int Py.get_or].
  destruct (Z.eqb_spec d 0); [lia |]. destruct (Z.ltb_spec 0 d); [| lia].
  cbn [negb andb].
  destruct (int_truediv_floor t d Ht Hd) as (f & -> & Hfloor).
  cbn [Py.rbind Py.ok]. fold (Py.ok f). rewrite Hfloor. cbn [Py.rbind Py.ok].
  now destruct (isLive mpd_dict) as [[] |], (100000 <? t / d).
Qed.

End SequenceDerivation.

Lemma media_sequence_from_number_witness :
  (segment_template_start_number Sample.numbered = Some 5000 /\ 1000 <= 5000
   /\ media_sequence (Sample.vod []) Sample.numbered (Sample.segment 5003)
      = Py.ok 5003)
  /\ (segment_template_start_number Sample.v1 = None
      /\ time (Sample.segment 7) = None
      /\ media_sequence (Sample.vod []) Sample.v1 (Sample.segment 7) = Py.ok 7).
Proof.
  split.
  - split; [reflexivity |]. split; [lia |].
    apply (proj1 (media_sequence_from_number (Sample.vod []) Sample.numbered
                    (Sample.segment 5003)) 5000); [reflexivity | lia].
  - split; [reflexivity |]. split; [reflexivity |].
    apply (proj2 (media_sequence_from_number (Sample.vod []) Sample.v1
                    (Sample.segment 7))); left; reflexivity.
Defined.

(** The two quotients of the specification's examples. *)
Example media_sequence_vod_20 :
  media_sequence (Sample.vod []) Sample.v1
    (Sample.timed_segment 20000000 1000000) = Py.ok 20.
Proof. vm_compute. reflexivity. Qed.

Example media_sequence_live_150000 :
  media_sequence (Sample.live []) Sample.v1
    (Sample.timed_segment 300000000 2000) = Py.ok 50000
  /\ media_sequence (Sample.vod []) Sample.v1
       (Sample.timed_segment 300000000 2000) = Py.ok 150000.
Proof. vm_compute. split; reflexivity. Qed.

(** C3. The quotient [time_val / duration_val] is a binary64 float before
    [math.floor] sees it.  For a ten-megahertz timeline at
    [time = 16999999999999999] and [duration = 20000000] the sequence is
    850000000 although the integer quotient is 849999999; for
    [time = 2^53 + 1] and [duration = 1] it is [2^53]. *)
Theorem media_sequence_float_quotient :
  media_sequence (Sample.vod []) Sample.v1
    (Sample.timed_segment 16999999999999999 20000000) = Py.ok 850000000
  /\ 16999999999999999 / 20000000 = 849999999
  /\ media_sequence (Sample.vod []) Sample.v1
       (Sample.timed_segment 9007199254740993 1) = Py.ok 9007199254740992.
Proof. vm_compute. repeat split; reflexivity. Qed.

(** ** Dictionaries *)

Section DictFacts.

Context {V : Type}.

Implicit Types (d : Py.dict V) (k : string) (v : V).

Lemma dict_get_set k k' v d :
  Py.dict_get k' (Py.dict_set k v d)
  = if String.eqb k' k then Some v else Py.dict_get k' d.
Proof.
  induction d as [| [k0 v0] d IH]; cbn.
  - reflexivity.
  - destruct (String.eqb_spec k k0) as [-> | Hk]; cbn.
    + destruct (String.eqb_spec k' k0); reflexivity.
    + rewrite IH. destruct (String.eqb_spec k' k0) as [-> | Hk'];
        [| reflexivity].
      destruct (String.eqb_spec k0 k); [congruence | reflexivity].
Qed.

Lemma dict_get_del k k' d :
  Py.dict_get k' (Py.dict_del k d)
  = if String.eqb k' k then None else Py.dict_get k' d.
Proof.
  unfold Py.dict_del. induction d as [| [k0 v0] d IH]; cbn.
  - now destruct (String.eqb k' k).
  - destruct (String.eqb_spec k k0) as [-> | Hk]; cbn.
    + rewrite IH. destruct (String.eqb_spec k' k0); reflexivity.
    + rewrite IH. destruct (String.eqb_spec k' k0) as [-> | Hk'];
        [| reflexivity].
      destruct (String.eqb_spec k0 k); [congruence | reflexivity].
Qed.

Lemma dict_set_keeps_keys k k' v d :
  In k' (Py.dict_keys d) -> In k' (Py.dict_keys (Py.dict_set k v d)).
Proof.
  induction d as [| [k0 v0] d IH]; cbn; [tauto |].
  destruct (String.eqb k k0); cbn; tauto.
Qed.

Lemma dict_set_has_key k v d : In k (Py.dict_keys (Py.dict_set k v d)).
Proof.
  induction d as [| [k0 v0] d IH]; cbn; [now left |].
  destruct (String.eqb_spec k k0) as [-> | _]; cbn; [now left | now right].
Qed.

Lemma dict_set_entries k v k' v' d :
  In (k', v') (Py.dict_set k v d) -> (k' = k /\ v' = v) \/ In (k', v') d.
Proof.
  induction d as [| [k0 v0] d IH]; cbn.
  - intros [[= <- <-] | []]. now left.
  - destruct (String.eqb_spec k k0) as [-> | _]; cbn.
    + intros [[= <- <-] | H]; [now left | right; now right].
    + intros [H | H]; [right; now left |].
      apply IH in H. tauto.
Qed.

(** Assigning into a non-empty dictionary leaves its first key in place. *)
Lemma dict_set_first_key k v k0 v0 d :
  exists v1 rest, Py.dict_set k v ((k0, v0) :: d) = (k0, v1) :: rest.
Proof.
  cbn. destruct (String.eqb k k0); eauto.
Qed.

Lemma dict_update_equiv (items : list (string * V)) d1 d2 :
  dict_equiv d1 d2 ->
  dict_equiv (Py.dict_update items d1) (Py.dict_update items d2).
Proof.
  unfold Py.dict_update. revert d1 d2.
  induction items as [| [k v] items IH]; intros d1 d2 H; cbn; [exact H |].
  apply IH. intros k'. rewrite !dict_get_set. now rewrite H.
Qed.

Lemma dict_del_equiv k d1 d2 :
  dict_equiv d1 d2 -> dict_equiv (Py.dict_del k d1) (Py.dict_del k d2).
Proof. intros H k'. rewrite !dict_get_del. now rewrite H. Qed.

End DictFacts.

Lemma forallb_false_witness {A} (f : A -> bool) (xs : list A) :
  forallb f xs = false -> exists x, In x xs /\ f x = false.
Proof.
  induction xs as [| x xs IH]; cbn; [discriminate |].
  destruct (f x) eqn:E; cbn.
  - intros H. destruct (IH H) as (y & Hy & Hf). eauto.
  - eauto.
Qed.

Lemma fold_left_invariant {A S} (P : S -> Prop) (f : S -> A -> S)
  (xs : list A) (st : S) :
  (forall s x, In x xs -> P s -> P (f s x)) ->
  P st -> P (fold_left f xs st).
Proof.
  revert st. induction xs as [| x xs IH]; intros st Hf Hst; cbn; [exact Hst |].
  apply IH.
  - intros s y Hy. apply Hf. now right.
  - apply Hf; [now left | exact Hst].
Qed.

(** ** The master playlist builder: grouping *)

Section Grouping.

Context {collaborators : Collaborators}.

Variables (proxy_url : string) (has_encrypted : bool) (key_id key : option string).

Local Notation "'step'" := (group_profile proxy_url has_encrypted key_id key).
Local Notation "'url_at'" := (playlist_url_at proxy_url has_encrypted key_id key).

Lemma step_video (st : Grouping) (p : Profile) :
  Py.str_contains "video" (mimeType p) = true ->
  video_profiles (step st p)
  = Py.dict_set (id p) (p, url_at st p) (video_profiles st)
  /\ audio_profiles (step st p) = audio_profiles st.
Proof.
  intros Hv. unfold playlist_url_at, group_profile. rewrite Hv. cbn. auto.
Qed.

Lemma step_audio (st : Grouping) (p : Profile) :
  is_audio_profile p = true ->
  audio_profiles (step st p)
  = Py.dict_set (id p) (p, url_at st p) (audio_profiles st)
  /\ video_profiles (step st p) = video_profiles st.
Proof.
  unfold is_audio_profile. intros [Hv Ha]%andb_prop.
  apply negb_true_iff in Hv.
  unfold playlist_url_at, group_profile. rewrite Hv, Ha. cbn. auto.
Qed.

Lemma step_other_audio (st : Grouping) (p : Profile) :
  is_audio_profile p = false -> audio_profiles (step st p) = audio_profiles st.
Proof.
  unfold is_audio_profile, group_profile. intros H.
  destruct (Py.str_contains "video" (mimeType p)); [reflexivity |].
  cbn in H. now rewrite H.
Qed.

Lemma step_other_video (st : Grouping) (p : Profile) :
  Py.str_contains "video" (mimeType p) = false ->
  video_profiles (step st p) = video_profiles st.
Proof.
  unfold group_profile. intros ->.
  now destruct (Py.str_contains "audio" (mimeType p)).
Qed.

Lemma step_audio_entries (known : list Profile) (st : Grouping) (p : Profile) :
  In p known ->
  audio_entries_ok known (audio_profiles st) ->
  audio_entries_ok known (audio_profiles (step st p)).
Proof.
  intros Hp Hok. destruct (is_audio_profile p) eqn:Ha.
  - destruct (step_audio st p Ha) as [-> _].
    intros k e [[-> ->] | H]%dict_set_entries; [cbn; auto | now apply Hok].
  - now rewrite (step_other_audio st p Ha).
Qed.

Lemma grouping_audio_entries (l : list Profile) (st : Grouping) :
  audio_entries_ok l (audio_profiles st) ->
  audio_entries_ok l (audio_profiles (fold_left step l st)).
Proof.
  apply (fold_left_invariant (fun s => audio_entries_ok l (audio_profiles s))).
  intros s p Hp. now apply step_audio_entries.
Qed.

(** The first key of [audio_profiles] is the id of the first audio profile
    met, and there is none when no audio profile is met. *)
Lemma grouping_first_audio (l : list Profile) (st : Grouping) :
  match audio_profiles st with
  | (k, _) :: _ =>
      exists e rest, audio_profiles (fold_left step l st) = (k, e) :: rest
  | [] =>
      match filter is_audio_profile l with
      | [] => audio_profiles (fold_left step l st) = []
      | a :: _ =>
          exists e rest,
            audio_profiles (fold_left step l st) = (id a, e) :: rest
      end
  end.
Proof.
  revert st. induction l as [| q l IH]; intros st.
  - cbn. destruct (audio_profiles st) as [| [k e] rest]; eauto.
  - cbn [fold_left filter]. specialize (IH (step st q)).
    destruct (is_audio_profile q) eqn:Hq.
    + destruct (step_audio st q Hq) as [E _]. rewrite E in IH.
      destruct (audio_profiles st) as [| [k e] rest].
      * exact IH.
      * destruct (dict_set_first_key (id q) (q, url_at st q) k e rest)
          as (v1 & rest' & E'). now rewrite E' in IH.
    + now rewrite (step_other_audio st q Hq) in IH.
Qed.



(** With no other profile under the same id, the entry is the profile. *)
Lemma grouping_video_entry (p : Profile) (l : list Profile) (st : Grouping) :
  In p l -> Py.str_contains "video" (mimeType p) = true ->
  (forall q, In q l -> id q = id p -> q = p) ->
  exists url, Py.dict_get (id p) (video_profiles (fold_left step l st))
              = Some (p, url).
Proof.
  intros Hin Hv Huniq.
  assert (Hkeep : forall l' s,
             (forall q, In q l' -> id q = id p -> q = p) ->
             (exists url, Py.dict_get (id p) (video_profiles s) = Some (p, url)) ->
             exists url, Py.dict_get (id p) (video_profiles (fold_left step l' s))
                         = Some (p, url)).
  { induction l' as [| q l' IH]; intros s Hu Hs; [exact Hs |].
    cbn [fold_left]. apply IH; [intros; apply Hu; [now right | assumption] |].
    destruct (Py.str_contains "video" (mimeType q)) eqn:Hq.
    - destruct (step_video s q Hq) as [-> _]. rewrite dict_get_set.
      destruct (String.eqb_spec (id p) (id q)) as [E | _]; [| exact Hs].
      rewrite (Hu q (or_introl eq_refl) (eq_sym E)). eauto.
    - now rewrite step_other_video. }
  revert st Huniq.
  induction l as [| q l IH]; intros st Huniq; [destruct Hin |].
  cbn [fold_left]. destruct Hin as [-> | Hin].
  - apply Hkeep; [intros; apply Huniq; [now right | assumption] |].
    destruct (step_video st p Hv) as [-> _]. rewrite dict_get_set.
    rewrite String.eqb_refl. eauto.
  - apply IH; [assumption | intros; apply Huniq; [now right | assumption]].
Qed.

End Grouping.

(** ** The master playlist builder: lines *)

Section MasterLines.

Lemma audio_loop (items : list (nat * (Profile * string))) (hls : list hls_line) :
  fold_left add_audio_stream items hls = (hls ++ map media_line items)%list.
Proof.
  revert hls. induction items as [| [i [p u]] items IH]; intros hls; cbn.
  - now rewrite app_nil_r.
  - rewrite IH. now rewrite <- app_assoc.
Qed.

Lemma media_line_is_media (items : list (nat * (Profile * string))) :
  filter is_media (map media_line items) = map media_line items.
Proof.
  induction items as [| [i [p u]] items IH]; cbn; [reflexivity |].
  now rewrite IH.
Qed.

Lemma media_line_later (i : nat) (entries : list (Profile * string)) :
  i <> 0%nat ->
  Forall (fun l => exists name language uri, l = Media name "NO" "NO" language uri)
    (map media_line (enumerate_from i entries)).
Proof.
  revert i. induction entries as [| [p u] entries IH]; intros i Hi; cbn.
  - constructor.
  - constructor; [| apply IH; lia].
    destruct (Nat.eqb_spec i 0); [contradiction | eauto].
Qed.

Variable audio : Py.dict (Profile * string).

Lemma add_video_stream_cases (hls : list hls_line) (p : Profile) (u : string) :
  (stream_inf_complete p = true /\
   exists b w h c f,
     bandwidth p = Some b /\ width p = Some w /\ height p = Some h /\
     codecs p = Some c /\ frameRate p = Some f /\
     add_video_stream audio hls (p, u)
     = inr (hls ++ [StreamInf b w h c f (audio_attr_of audio); Uri u])%list)
  \/ (stream_inf_complete p = false /\
      exists key, In key stream_inf_keys /\
                  add_video_stream audio hls (p, u) = inl (Py.KeyError key)).
Proof.
  unfold add_video_stream, stream_inf_complete, stream_inf_keys, audio_attr_of.
  destruct (bandwidth p) as [b |]; cbn;
    [| right; split; [reflexivity | eexists; split; [| reflexivity]; cbn; tauto]].
  destruct (width p) as [w |]; cbn;
    [| right; split; [reflexivity | eexists; split; [| reflexivity]; cbn; tauto]].
  destruct (height p) as [h |]; cbn;
    [| right; split; [reflexivity | eexists; split; [| reflexivity]; cbn; tauto]].
  destruct (codecs p) as [c |]; cbn;
    [| right; split; [reflexivity | eexists; split; [| reflexivity]; cbn; tauto]].
  destruct (frameRate p) as [f |]; cbn;
    [| right; split; [reflexivity | eexists; split; [| reflexivity]; cbn; tauto]].
  left. split; [reflexivity |]. exists b, w, h, c, f. auto 10.
Qed.

(** A successful video loop appended, for every entry, its
    [#EXT-X-STREAM-INF] line and its URL, and no [#EXT-X-MEDIA] line. *)
Lemma video_loop (entries : list (Profile * string)) (hls out : list hls_line) :
  for_each (add_video_stream audio) entries hls = inr out ->
  exists added,
    out = (hls ++ added)%list
    /\ filter is_media added = []
    /\ forall p u, In (p, u) entries ->
         exists b w h c f,
           bandwidth p = Some b /\ width p = Some w /\ height p = Some h /\
           codecs p = Some c /\ frameRate p = Some f /\
           In (StreamInf b w h c f (audio_attr_of audio)) added /\
           In (Uri u) added.
Proof.
  revert hls. induction entries as [| [p u] entries IH]; intros hls; cbn [for_each].
  - intros [= <-]. exists []. rewrite app_nil_r. repeat split. intros ? ? [].
  - destruct (add_video_stream_cases hls p u)
      as [[_ (b & w & h & c & f & Hb & Hw & Hh & Hc & Hf & ->)]
         | [_ (key & _ & ->)]]; cbn [Py.rbind]; [| discriminate].
    intros H. destruct (IH _ H) as (added & -> & Hmedia & Hall).
    exists ([StreamInf b w h c f (audio_attr_of audio); Uri u] ++ added)%list.
    split; [now rewrite <- app_assoc |]. split; [exact Hmedia |].
    intros q v [[= <- <-] | Hin].
    + exists b, w, h, c, f. cbn. auto 10.
    + destruct (Hall q v Hin) as (b' & w' & h' & c' & f' & ? & ? & ? & ? & ? & ? & ?).
      exists b', w', h', c', f'. cbn. auto 10.
Qed.

(** An entry without one of the five keys stops the loop with a
    [KeyError], whatever the other entries are. *)
Lemma video_loop_incomplete (entries : list (Profile * string)) (hls : list hls_line) :
  (exists e, In e entries /\ stream_inf_complete (fst e) = false) ->
  exists key, In key stream_inf_keys /\
              for_each (add_video_stream audio) entries hls
              = inl (Py.KeyError key).
Proof.
  revert hls. induction entries as [| [p u] entries IH]; intros hls (e & Hin & He).
  - destruct Hin.
  - cbn [for_each].
    destruct (add_video_stream_cases hls p u)
      as [[Hp (b & w & h & c & f & _ & _ & _ & _ & _ & ->)]
         | [_ (key & Hkey & ->)]]; cbn [Py.rbind].
    + apply IH. exists e. split; [| exact He].
      destruct Hin as [<- | Hin]; [| exact Hin].
      cbn in He. congruence.
    + now exists key.
Qed.

Lemma video_loop_complete (entries : list (Profile * string)) (hls : list hls_line) :
  forallb (fun e => stream_inf_complete (fst e)) entries = true ->
  exists out, for_each (add_video_stream audio) entries hls = inr out.
Proof.
  revert hls.
  induction entries as [| [p u] entries IH]; intros hls;
    cbn [for_each forallb fst].
  - eauto.
  - intros [Hp Hrest]%andb_prop.
    destruct (add_video_stream_cases hls p u)
      as [[_ (b & w & h & c & f & _ & _ & _ & _ & _ & ->)]
         | [Hn _]]; [| congruence].
    cbn [Py.rbind]. now apply IH.
Qed.

End MasterLines.

(** ** The master playlist builder: the playlist *)

Section MasterPlaylist.

Context {collaborators : Collaborators}.

Variables (mpd_dict : Mpd) (request : Request) (key_id key : option string).

Local Notation "'groups'" := (group_profiles mpd_dict request key_id key).

Lemma groups_audio_entries :
  audio_entries_ok (profiles mpd_dict) (audio_profiles groups).
Proof.
  unfold group_profiles. destruct (pop_has_encrypted _) as [he ps].
  apply grouping_audio_entries. intros k e [].
Qed.

Lemma groups_first_audio :
  match filter is_audio_profile (profiles mpd_dict) with
  | [] => audio_profiles groups = []
  | a :: _ => exists e rest, audio_profiles groups = (id a, e) :: rest
  end.
Proof.
  unfold group_profiles. destruct (pop_has_encrypted _) as [he ps].
  match goal with
  | |- context [fold_left ?f ?l ?st] =>
      exact (grouping_first_audio _ he key_id key l st)
  end.
Qed.

(** The playlist is the two header lines, one [#EXT-X-MEDIA] line per entry
    of [audio_profiles], then what the video loop appends. *)
Lemma build_hls_lines_shape (lines : list hls_line) :
  build_hls_lines mpd_dict request key_id key = inr lines ->
  exists added,
    lines = ([ExtM3U; Version6]
             ++ map media_line (enumerate (Py.dict_values (audio_profiles groups)))
             ++ added)%list
    /\ filter is_media added = []
    /\ forall p u, In (p, u) (Py.dict_values (video_profiles groups)) ->
         exists b w h c f,
           bandwidth p = Some b /\ width p = Some w /\ height p = Some h /\
           codecs p = Some c /\ frameRate p = Some f /\
           In (StreamInf b w h c f (audio_attr_of (audio_profiles groups))) added.
Proof.
  unfold build_hls_lines. rewrite audio_loop. intros H.
  apply video_loop in H as (added & -> & Hmedia & Hall).
  exists added. split; [now rewrite <- app_assoc |]. split; [exact Hmedia |].
  intros p u Hin.
  destruct (Hall p u Hin) as (b & w & h & c & f & ? & ? & ? & ? & ? & ? & _).
  exists b, w, h, c, f. auto 10.
Qed.

Lemma media_lines_of_playlist (lines : list hls_line) :
  build_hls_lines mpd_dict request key_id key = inr lines ->
  filter is_media lines
  = map media_line (enumerate (Py.dict_values (audio_profiles groups))).
Proof.
  intros H. apply build_hls_lines_shape in H as (added & -> & Hmedia & _).
  rewrite !filter_app, Hmedia, media_line_is_media, app_nil_r. reflexivity.
Qed.

(** In a master playlist the [#EXT-X-MEDIA] lines are: none when no
    profile is an audio profile; otherwise a first line named after the
    first audio profile of the manifest with [DEFAULT=YES] and
    [AUTOSELECT=YES], followed only by lines with [DEFAULT=NO] and
    [AUTOSELECT=NO]. *)
Lemma media_lines_default_first :
  forall lines : list hls_line,
    build_hls_lines mpd_dict request key_id key = inr lines ->
    match filter is_audio_profile (profiles mpd_dict) with
    | [] => filter is_media lines = []
    | first_audio :: _ =>
        exists language uri others,
          filter is_media lines
          = Media (id first_audio) "YES" "YES" language uri :: others
          /\ Forall (fun l => exists name language uri,
                               l = Media name "NO" "NO" language uri) others
    end.
Proof.
  intros lines H. rewrite (media_lines_of_playlist lines H).
  pose proof groups_first_audio as Hfirst.
  pose proof groups_audio_entries as Hok.
  destruct (filter is_audio_profile (profiles mpd_dict)) as [| a others].
  - now rewrite Hfirst.
  - destruct Hfirst as ([p u] & rest & E). rewrite E in Hok |- *.
    destruct (Hok (id a) (p, u) (or_introl eq_refl)) as (Hid & _ & _).
    cbn in Hid. unfold enumerate.
    cbn [Py.dict_values map enumerate_from media_line Nat.eqb snd].
    rewrite Hid. eexists _, _, _. split; [reflexivity |].
    apply media_line_later. lia.
Qed.

Lemma dict_get_in_values {V} (k : string) (v : V) (d : Py.dict V) :
  Py.dict_get k d = Some v -> In v (Py.dict_values d).
Proof.
  induction d as [| [k0 v0] d IH]; cbn; [discriminate |].
  destruct (String.eqb k k0); [intros [= <-]; now left | right; now apply IH].
Qed.

Lemma groups_video_entry (p : Profile) :
  In p (profiles mpd_dict) -> Py.str_contains "video" (mimeType p) = true ->
  (forall q, In q (profiles mpd_dict) -> id q = id p -> q = p) ->
  exists url, Py.dict_get (id p) (video_profiles groups) = Some (p, url).
Proof.
  unfold group_profiles. destruct (pop_has_encrypted _) as [he ps].
  now apply grouping_video_entry.
Qed.

(** A playlist comes out exactly when every entry of [video_profiles] has
    the five keys of the [#EXT-X-STREAM-INF] line. *)
Lemma build_hls_succeeds_iff :
  (exists text, build_hls mpd_dict request key_id key = inr text)
  <-> forallb (fun e => stream_inf_complete (fst e))
        (Py.dict_values (video_profiles groups)) = true.
Proof.
  unfold build_hls, build_hls_lines. split.
  - intros [text H].
    destruct (forallb _ _) eqn:E; [reflexivity | exfalso].
    apply forallb_false_witness in E.
    match type of H with
    | context [for_each ?f ?l ?s] =>
        destruct (video_loop_incomplete (audio_profiles groups) l s)
          as (key' & _ & Hfail)
    end.
    + exact E.
    + rewrite Hfail in H. discriminate.
  - intros H.
    match goal with
    | |- context [for_each ?f ?l ?s] =>
        destruct (video_loop_complete (audio_profiles groups) l s H)
          as (out & ->)
    end.
    cbn. eauto.
Qed.

(** C6, as the code has it. A video profile that is the only profile under
    its id and lacks one of [bandwidth], [width], [height], [codecs] and
    [frameRate] makes [build_hls] raise a [KeyError] on one of these keys:
    no playlist is returned, whatever the other profiles are. *)
Theorem incomplete_video_profile_aborts :
  forall p : Profile,
    In p (profiles mpd_dict) ->
    Py.str_contains "video" (mimeType p) = true ->
    (forall q, In q (profiles mpd_dict) -> id q = id p -> q = p) ->
    stream_inf_complete p = false ->
    exists missing,
      In missing stream_inf_keys /\
      build_hls mpd_dict request key_id key = inl (Py.KeyError missing).
Proof.
  intros p Hin Hv Huniq Hp.
  destruct (groups_video_entry p Hin Hv Huniq) as (url & Hurl).
  apply dict_get_in_values in Hurl.
  unfold build_hls, build_hls_lines.
  match goal with
  | |- context [for_each ?f ?l ?s] =>
      destruct (video_loop_incomplete (audio_profiles groups) l s)
        as (key' & Hkey & ->)
  end.
  - exists (p, url). auto.
  - exists key'. auto.
Qed.

End MasterPlaylist.

Section Precedence.

Context {collaborators : Collaborators}.

Variables (mpd_dict : Mpd) (request : Request) (key_id key : option string).

Local Notation "'groups'" := (group_profiles mpd_dict request key_id key).





End Precedence.

(** ** The master playlist as a function of its inputs *)

Section Determinism.

Context {collaborators : Collaborators}.

Lemma pop_has_encrypted_equiv (d1 d2 : Py.dict string) :
  dict_equiv d1 d2 ->
  fst (pop_has_encrypted d1) = fst (pop_has_encrypted d2)
  /\ dict_equiv (snd (pop_has_encrypted d1)) (snd (pop_has_encrypted d2)).
Proof.
  intros H. unfold pop_has_encrypted, Py.dict_pop. cbn [fst snd].
  rewrite (H "has_encrypted"). split; [reflexivity |].
  now apply dict_del_equiv.
Qed.

Variables (proxy_url : string) (has_encrypted : bool) (key_id key : option string).

Lemma group_profile_same (s1 s2 : Grouping) (p : Profile) :
  codec_reads_mapping ->
  same_groups s1 s2 ->
  same_groups (group_profile proxy_url has_encrypted key_id key s1 p)
              (group_profile proxy_url has_encrypted key_id key s2 p).
Proof.
  intros Hcodec (Hp & Hv & Ha). unfold group_profile.
  set (items := [("profile_id", id p); ("key_id", Py.str_or_empty key_id);
                 ("key", Py.str_or_empty key)]).
  pose proof (dict_update_equiv items _ _ Hp) as Hp'.
  rewrite (Hcodec proxy_url _ _ (handler_if has_encrypted) Hp'), Hv, Ha.
  destruct (Py.str_contains "video" (mimeType p));
    [| destruct (Py.str_contains "audio" (mimeType p))];
    repeat split; assumption.
Qed.

Lemma grouping_same (l : list Profile) (s1 s2 : Grouping) :
  codec_reads_mapping ->
  same_groups s1 s2 ->
  same_groups (fold_left (group_profile proxy_url has_encrypted key_id key) l s1)
              (fold_left (group_profile proxy_url has_encrypted key_id key) l s2).
Proof.
  intros Hcodec. revert s1 s2.
  induction l as [| p l IH]; intros s1 s2 H; cbn [fold_left]; [exact H |].
  apply IH. now apply group_profile_same.
Qed.

End Determinism.

Section SameInputs.

Context {collaborators : Collaborators}.

Variables (mpd_dict : Mpd) (key_id key : option string).

(** The master playlist depends on the request only through the
    playlist endpoint it resolves and the dictionary made of its query
    parameters: two requests that agree on both get the same text; and when
    the codec reads its parameters as a mapping, it is enough that the two
    dictionaries hold the same value under every key. *)
Lemma same_parameters_same_text :
  forall request1 request2 : Request,
    resolve_endpoint request1 "playlist_endpoint"
    = resolve_endpoint request2 "playlist_endpoint" ->
    (Py.dict_of_items (query_params request1)
     = Py.dict_of_items (query_params request2) ->
     build_hls mpd_dict request1 key_id key
     = build_hls mpd_dict request2 key_id key)
    /\ (codec_reads_mapping ->
        dict_equiv (Py.dict_of_items (query_params request1))
                   (Py.dict_of_items (query_params request2)) ->
        build_hls mpd_dict request1 key_id key
        = build_hls mpd_dict request2 key_id key).
Proof.
  intros r1 r2 Hurl. split.
  - intros Hq. unfold build_hls, build_hls_lines, group_profiles.
    now rewrite Hurl, Hq.
  - intros Hcodec Hq.
    assert (Hg : video_profiles (group_profiles mpd_dict r1 key_id key)
                 = video_profiles (group_profiles mpd_dict r2 key_id key)
                 /\ audio_profiles (group_profiles mpd_dict r1 key_id key)
                    = audio_profiles (group_profiles mpd_dict r2 key_id key)).
    { unfold group_profiles. rewrite Hurl.
      destruct (pop_has_encrypted_equiv _ _ Hq) as [Hflag Hparams].
      destruct (pop_has_encrypted (Py.dict_of_items (query_params r1)))
        as [he1 ps1].
      destruct (pop_has_encrypted (Py.dict_of_items (query_params r2)))
        as [he2 ps2].
      cbn [fst snd] in Hflag, Hparams. subst he2.
      apply (grouping_same _ he1 key_id key (profiles mpd_dict)
               (mkGrouping ps1 [] []) (mkGrouping ps2 [] []) Hcodec).
      repeat split. exact Hparams. }
    destruct Hg as [Hv Ha].
    unfold build_hls, build_hls_lines. now rewrite Hv, Ha.
Qed.

End SameInputs.

(** ** Instances on the sample data *)

Lemma process_segment_drm_path_witness :
  "kid" <> "" /\ "key" <> ""
  /\ let (trace, outcome) :=
       process_segment (collaborators := Sample.in_order)
         [x01] [x02; x03] "video/mp4" Sample.no_headers
         (Some "kid") (Some "key") in
     decrypt_calls trace = [([x01], [x02; x03], "kid", "key")]
     /\ buffer_writes trace = []
     /\ outcome = Py.ok (mkResponse [x03; x02] "video/mp4" []).
Proof.
  split; [discriminate |]. split; [discriminate |].
  apply (process_segment_drm_path (collaborators := Sample.in_order)
           [x01] [x02; x03] "video/mp4" Sample.no_headers "kid" "key");
    discriminate.
Defined.

Lemma process_segment_plain_path_witness :
  let (trace, outcome) :=
    process_segment (collaborators := Sample.in_order)
      [x01] [x02; x03] "video/mp4" Sample.no_headers (Some "") (Some "key") in
  outcome = Py.ok (mkResponse [x01; x02; x03] "video/mp4" [])
  /\ decrypt_calls trace = []
  /\ buffer_writes trace = [[x01]; [x02; x03]].
Proof.
  apply (process_segment_plain_path (collaborators := Sample.in_order)
           [x01] [x02; x03] "video/mp4" Sample.no_headers (Some "") (Some "key")).
  right. left. reflexivity.
Defined.


(** C6, counterexample: with a video profile without [bandwidth] next to
    a well-formed one, no playlist is returned, although the well-formed
    profile alone gives one. *)
Lemma missing_bandwidth_aborts_build :
  build_hls (collaborators := Sample.in_order)
    (Sample.vod [Sample.v2_no_bandwidth; Sample.v1]) Sample.request None None
  = inl (Py.KeyError "bandwidth")
  /\ (~ exists text,
         build_hls (collaborators := Sample.in_order)
           (Sample.vod [Sample.v2_no_bandwidth; Sample.v1])
           Sample.request None None = inr text)
  /\ exists text,
       build_hls (collaborators := Sample.in_order)
         (Sample.vod [Sample.v1]) Sample.request None None = inr text.
Proof.
  assert (E : build_hls (collaborators := Sample.in_order)
                (Sample.vod [Sample.v2_no_bandwidth; Sample.v1])
                Sample.request None None = inl (Py.KeyError "bandwidth"))
    by (vm_compute; reflexivity).
  split; [exact E |]. split.
  - intros [text H]. rewrite E in H. discriminate.
  - eexists. vm_compute. reflexivity.
Qed.

Lemma incomplete_video_profile_aborts_witness :
  exists missing,
    In missing stream_inf_keys
    /\ build_hls (collaborators := Sample.in_order)
         (Sample.vod [Sample.v2_no_bandwidth; Sample.v1])
         Sample.request None None = inl (Py.KeyError missing).
Proof.
  apply (incomplete_video_profile_aborts (collaborators := Sample.in_order)
           (Sample.vod [Sample.v2_no_bandwidth; Sample.v1])
           Sample.request None None Sample.v2_no_bandwidth).
  - left. reflexivity.
  - reflexivity.
  - intros q [<- | [<- | []]]; [reflexivity | discriminate].
  - reflexivity.
Defined.

Lemma by_key_reads_mapping :
  codec_reads_mapping (collaborators := Sample.by_key).
Proof.
  intros url d1 d2 handler H. unfold dict_equiv in H.
  cbn. unfold Sample.encode_by_key. now rewrite !H.
Qed.

(** * Further properties of the module *)

(** ** More on dictionaries *)

Section DictOrder.

Context {V : Type}.

Implicit Types (d : Py.dict V) (k : string) (v : V).

Lemma dict_set_twice k v v' d :
  Py.dict_set k v' (Py.dict_set k v d) = Py.dict_set k v' d.
Proof.
  induction d as [| [k0 v0] d IH]; cbn.
  - now rewrite String.eqb_refl.
  - destruct (String.eqb_spec k k0) as [-> | Hk]; cbn.
    + now rewrite String.eqb_refl.
    + destruct (String.eqb_spec k k0); [contradiction | now rewrite IH].
Qed.

(** Assigning to a key that is present commutes with any other
    assignment. *)
Lemma dict_set_swap k1 k2 v w d :
  k1 <> k2 -> In k1 (Py.dict_keys d) ->
  Py.dict_set k1 v (Py.dict_set k2 w d) = Py.dict_set k2 w (Py.dict_set k1 v d).
Proof.
  intros Hne. induction d as [| [k0 v0] d IH]; cbn; [tauto |].
  intros Hin.
  destruct (String.eqb_spec k1 k0) as [-> | H10],
           (String.eqb_spec k2 k0) as [-> | H20]; cbn;
    rewrite ?String.eqb_refl; try congruence.
  - destruct (String.eqb_spec k2 k0); [congruence | reflexivity].
  - destruct (String.eqb_spec k1 k0); [congruence | reflexivity].
  - destruct (String.eqb_spec k1 k0), (String.eqb_spec k2 k0); try congruence.
    rewrite IH; [reflexivity |]. destruct Hin; [congruence | assumption].
Qed.

(** Setting three distinct keys twice is setting them once, with the later
    values and in the same places. *)
Lemma update3_absorb k1 k2 k3 (a b c a' b' c' : V) d :
  k1 <> k2 -> k1 <> k3 -> k2 <> k3 ->
  Py.dict_update [(k1, a'); (k2, b'); (k3, c')]
    (Py.dict_update [(k1, a); (k2, b); (k3, c)] d)
  = Py.dict_update [(k1, a'); (k2, b'); (k3, c')] d.
Proof.
  intros H12 H13 H23. unfold Py.dict_update. cbn [fold_left fst snd].
  rewrite (dict_set_swap k1 k3 a' c) by
    (try assumption; apply dict_set_keeps_keys, dict_set_has_key).
  rewrite (dict_set_swap k1 k2 a' b) by (try assumption; apply dict_set_has_key).
  rewrite dict_set_twice.
  rewrite (dict_set_swap k2 k3 b' c) by (try assumption; apply dict_set_has_key).
  rewrite dict_set_twice.
  now rewrite dict_set_twice.
Qed.

Lemma dict_update_cons k v (items : list (string * V)) d :
  Py.dict_update ((k, v) :: items) d = Py.dict_update items (Py.dict_set k v d).
Proof. reflexivity. Qed.

Lemma dict_set_keys_nodup k v d :
  NoDup (Py.dict_keys d) -> NoDup (Py.dict_keys (Py.dict_set k v d)).
Proof.
  induction d as [| [k0 v0] d IH]; cbn.
  - intros _. constructor; [tauto | constructor].
  - intros Hnd. inversion Hnd as [| ? ? Hnot Hrest]; subst.
    destruct (String.eqb_spec k k0) as [-> | Hk]; cbn; [assumption |].
    constructor; [| now apply IH].
    intros Hin. apply Hnot. clear - Hin Hk.
    induction d as [| [k1 v1] d IH]; cbn in *.
    + destruct Hin; [congruence | tauto].
    + destruct (String.eqb k k1); cbn in *; tauto.
Qed.

Lemma dict_update_keys_nodup (items : list (string * V)) d :
  NoDup (Py.dict_keys d) -> NoDup (Py.dict_keys (Py.dict_update items d)).
Proof.
  revert d. induction items as [| [k v] items IH]; intros d H; [exact H |].
  rewrite dict_update_cons. apply IH. now apply dict_set_keys_nodup.
Qed.

Lemma dict_of_items_keys_nodup (items : list (string * V)) :
  NoDup (Py.dict_keys (Py.dict_of_items items)).
Proof. apply dict_update_keys_nodup. constructor. Qed.

Lemma dict_set_key_iff k k' v d :
  In k' (Py.dict_keys (Py.dict_set k v d)) <-> k' = k \/ In k' (Py.dict_keys d).
Proof.
  induction d as [| [k0 v0] d IH]; cbn.
  - intuition.
  - destruct (String.eqb_spec k k0) as [-> | Hk]; cbn; [intuition |].
    rewrite IH. intuition.
Qed.

Lemma dict_update_key_iff (items : list (string * V)) k d :
  In k (Py.dict_keys (Py.dict_update items d))
  <-> In k (map fst items) \/ In k (Py.dict_keys d).
Proof.
  revert d. induction items as [| [k0 v0] items IH]; intros d.
  - cbn. tauto.
  - rewrite dict_update_cons, IH, dict_set_key_iff. cbn. intuition.
Qed.

(** In a dictionary, being an item and being looked up agree. *)
Lemma dict_get_iff_in k v d :
  NoDup (Py.dict_keys d) -> (Py.dict_get k d = Some v <-> In (k, v) d).
Proof.
  induction d as [| [k0 v0] d IH]; cbn.
  - intros _. split; [discriminate | tauto].
  - intros Hnd. inversion Hnd as [| ? ? Hnot Hrest]; subst.
    destruct (String.eqb_spec k k0) as [-> | Hk].
    + split; [intros [= ->]; now left |].
      intros [[= ->] | Hin]; [reflexivity |].
      exfalso. apply Hnot. apply (in_map fst) in Hin. exact Hin.
    + rewrite (IH Hrest). split; [now right |].
      intros [[= -> _] | Hin]; [contradiction | assumption].
Qed.

(** A list of items without repeated key is its own dictionary. *)
Lemma dict_of_items_nodup (items : list (string * V)) :
  NoDup (map fst items) -> Py.dict_of_items items = items.
Proof.
  unfold Py.dict_of_items.
  assert (H : forall d, NoDup (map fst (d ++ items)) ->
                        Py.dict_update items d = (d ++ items)%list).
  { induction items as [| [k v] items IH]; intros d Hnd.
    - now rewrite app_nil_r.
    - rewrite dict_update_cons.
      assert (Hset : Py.dict_set k v d = (d ++ [(k, v)])%list).
      { rewrite map_app in Hnd. apply NoDup_remove_2 in Hnd.
        clear - Hnd. induction d as [| [k0 v0] d IHd]; cbn in *; [reflexivity |].
        destruct (String.eqb_spec k k0) as [-> | _]; [tauto |].
        rewrite IHd; [reflexivity | tauto]. }
      rewrite Hset, IH; rewrite <- app_assoc; [reflexivity | exact Hnd]. }
  intros Hnd. now apply (H []).
Qed.

End DictOrder.

(** ** The master playlist in closed form *)

Section MasterClosedForm.

Context {collaborators : Collaborators}.

Variables (proxy_url : string) (has_encrypted : bool) (key_id key : option string).
Variable base : Py.dict string.

Local Notation "'step'" := (group_profile proxy_url has_encrypted key_id key).

Local Notation "'entry'" :=
  (group_entry proxy_url has_encrypted base key_id key).
Local Notation "'from_base'" := (params_from_base base key_id key).

Lemma playlist_params_absorb (q p : Profile) :
  playlist_params (playlist_params base key_id key q) key_id key p
  = playlist_params base key_id key p.
Proof. unfold playlist_params. apply update3_absorb; discriminate. Qed.

Lemma step_params (st : Grouping) (p : Profile) :
  from_base st ->
  params (step st p) = playlist_params base key_id key p.
Proof.
  intros H.
  assert (E : params (step st p) = playlist_params (params st) key_id key p).
  { unfold group_profile, playlist_params.
    destruct (Py.str_contains "video" (mimeType p));
      [| destruct (Py.str_contains "audio" (mimeType p))]; reflexivity. }
  rewrite E. destruct H as [-> | [q ->]]; [reflexivity |].
  apply playlist_params_absorb.
Qed.

Lemma step_closed (st : Grouping) (p : Profile) :
  from_base st ->
  from_base (step st p)
  /\ video_profiles (step st p)
     = (if is_video_profile p
        then Py.dict_set (id p) (snd (entry p)) (video_profiles st)
        else video_profiles st)
  /\ audio_profiles (step st p)
     = (if is_audio_profile p
        then Py.dict_set (id p) (snd (entry p)) (audio_profiles st)
        else audio_profiles st).
Proof.
  intros H. pose proof (step_params st p H) as Hp.
  split; [right; now exists p |].
  unfold playlist_url_at, is_video_profile, is_audio_profile in *.
  unfold group_profile in *. unfold group_entry. cbn [snd].
  fold (playlist_params (params st) key_id key p) in *.
  destruct (Py.str_contains "video" (mimeType p));
    [| destruct (Py.str_contains "audio" (mimeType p))];
    cbn [params video_profiles audio_profiles negb andb] in *;
    rewrite ?Hp; auto.
Qed.

Lemma grouping_closed (l : list Profile) (st : Grouping) :
  from_base st ->
  video_profiles (fold_left step l st)
  = Py.dict_update (map entry (filter is_video_profile l)) (video_profiles st)
  /\ audio_profiles (fold_left step l st)
     = Py.dict_update (map entry (filter is_audio_profile l)) (audio_profiles st).
Proof.
  revert st. induction l as [| p l IH]; intros st H; [now split |].
  cbn [fold_left filter].
  destruct (step_closed st p H) as (H' & Hv & Ha).
  destruct (IH _ H') as [-> ->]. rewrite Hv, Ha.
  destruct (is_video_profile p), (is_audio_profile p); cbn [map];
    now rewrite ?dict_update_cons.
Qed.

End MasterClosedForm.

Section MasterPlaylistClosedForm.

Context {collaborators : Collaborators}.

Lemma add_video_stream_closed
  (audio : Py.dict (Profile * string)) (hls : list hls_line)
  (e : Profile * string) :
  add_video_stream audio hls e
  = match missing_key (fst e) with
    | Some k => inl (Py.KeyError k)
    | None => Py.ok (hls ++ stream_lines audio e)%list
    end.
Proof.
  destruct e as [p u]. unfold add_video_stream, missing_key, stream_lines.
  cbn [fst snd]. fold (audio_attr_of audio).
  destruct (bandwidth p), (width p), (height p), (codecs p), (frameRate p);
    reflexivity.
Qed.

Lemma video_loop_closed
  (audio : Py.dict (Profile * string)) (entries : list (Profile * string))
  (hls : list hls_line) :
  for_each (add_video_stream audio) entries hls
  = match first_missing_key entries with
    | Some k => inl (Py.KeyError k)
    | None => Py.ok (hls ++ flat_map (stream_lines audio) entries)%list
    end.
Proof.
  revert hls. induction entries as [| e entries IH]; intros hls;
    cbn [for_each first_missing_key flat_map].
  - now rewrite app_nil_r.
  - rewrite add_video_stream_closed.
    destruct (missing_key (fst e)); cbn [Py.rbind]; [reflexivity |].
    unfold Py.ok at 1. cbn [Py.rbind]. rewrite IH.
    destruct (first_missing_key entries); [reflexivity |].
    now rewrite <- app_assoc.
Qed.

Variables (mpd_dict : Mpd) (request : Request) (key_id key : option string).

Lemma groups_closed :
  video_profiles (group_profiles mpd_dict request key_id key)
  = master_group is_video_profile mpd_dict request key_id key
  /\ audio_profiles (group_profiles mpd_dict request key_id key)
     = master_group is_audio_profile mpd_dict request key_id key.
Proof.
  unfold group_profiles, master_group, master_entry, Py.dict_of_items.
  destruct (pop_has_encrypted _) as [he base]. cbn [fst snd].
  apply (grouping_closed _ he key_id key base). now left.
Qed.

(** The lines of the master playlist, as the later results use them. *)
Lemma master_lines_shape :
  build_hls_lines mpd_dict request key_id key
  = let audio := master_group is_audio_profile mpd_dict request key_id key in
    let video := master_group is_video_profile mpd_dict request key_id key in
    match first_missing_key (Py.dict_values video) with
    | Some k => inl (Py.KeyError k)
    | None =>
        Py.ok ([ExtM3U; Version6]
               ++ map media_line (enumerate (Py.dict_values audio))
               ++ flat_map (stream_lines audio) (Py.dict_values video))%list
    end.
Proof.
  unfold build_hls_lines. destruct groups_closed as [-> ->].
  rewrite audio_loop, video_loop_closed. cbn zeta.
  destruct (first_missing_key _); [reflexivity |].
  now rewrite <- app_assoc.
Qed.

(** X1. The master playlist without its loops: the two header lines, one
    [#EXT-X-MEDIA] line per entry of the audio group, two lines per entry of
    the video group; or the [KeyError] of the first video entry that lacks
    a key.  Each URL is the one of [master_entry]: it is computed from the
    request's own parameters and the profile alone. *)
Theorem build_hls_lines_closed_form :
  build_hls_lines mpd_dict request key_id key
  = let audio := master_group is_audio_profile mpd_dict request key_id key in
    let video := master_group is_video_profile mpd_dict request key_id key in
    match first_missing_key (Py.dict_values video) with
    | Some k => inl (Py.KeyError k)
    | None =>
        Py.ok ([ExtM3U; Version6]
               ++ map media_line (enumerate (Py.dict_values audio))
               ++ flat_map (stream_lines audio) (Py.dict_values video))%list
    end.
Proof. exact master_lines_shape. Qed.

End MasterPlaylistClosedForm.

Section MasterConsequences.

Context {collaborators : Collaborators}.

Variables (mpd_dict : Mpd) (request : Request) (key_id key : option string).

Lemma filter_weaker {A} (f g : A -> bool) (l : list A) :
  (forall x, f x = true -> g x = true) ->
  filter f (filter g l) = filter f l.
Proof.
  intros H. induction l as [| x l IH]; cbn; [reflexivity |].
  destruct (g x) eqn:Hg; cbn; [now rewrite IH |].
  destruct (f x) eqn:Hf; [| exact IH].
  rewrite (H x Hf) in Hg. discriminate.
Qed.

(** X2. A profile whose mime type mentions neither video nor audio leaves no
    trace: the master playlist is the one of the manifest without it. *)
Theorem unclassified_profiles_are_ignored :
  build_hls mpd_dict request key_id key
  = build_hls
      (mkMpd (isLive mpd_dict)
         (filter (fun p => is_video_profile p || is_audio_profile p)
            (profiles mpd_dict)))
      request key_id key.
Proof.
  unfold build_hls. rewrite !master_lines_shape.
  unfold master_group. cbn [profiles].
  rewrite !filter_weaker; [reflexivity | |]; intros p ->;
    [apply orb_true_r | reflexivity].
Qed.

Lemma dict_update_entries {V} (items : list (string * V)) (d : Py.dict V)
  (k : string) (v : V) :
  In (k, v) (Py.dict_update items d) -> In (k, v) items \/ In (k, v) d.
Proof.
  revert d. induction items as [| [k0 v0] items IH]; intros d; [now right |].
  rewrite dict_update_cons. intros [H | H]%IH; [left; now right |].
  apply dict_set_entries in H as [[-> ->] | H]; [left; now left | now right].
Qed.

Lemma master_group_entries (keep : Profile -> bool) (k : string)
  (e : Profile * string) :
  In (k, e) (master_group keep mpd_dict request key_id key) ->
  exists p, In p (profiles mpd_dict) /\ keep p = true
            /\ (k, e) = master_entry request key_id key p.
Proof.
  unfold master_group, Py.dict_of_items.
  intros [H | []]%dict_update_entries.
  apply in_map_iff in H as (p & E & [Hin Hkeep]%filter_In). eauto.
Qed.

Lemma master_group_keys (keep : Profile -> bool) (k : string) :
  In k (Py.dict_keys (master_group keep mpd_dict request key_id key))
  <-> exists p, In p (profiles mpd_dict) /\ keep p = true /\ id p = k.
Proof.
  unfold master_group, Py.dict_of_items. rewrite dict_update_key_iff.
  rewrite map_map. cbn [Py.dict_keys map]. split.
  - intros [(p & E & [Hin Hkeep]%filter_In)%in_map_iff | []]. eauto.
  - intros (p & Hin & Hkeep & E). left. apply in_map_iff.
    exists p. split; [exact E | now apply filter_In].
Qed.

Lemma master_group_empty (keep : Profile -> bool) :
  Py.truthy_dict (master_group keep mpd_dict request key_id key)
  = existsb keep (profiles mpd_dict).
Proof.
  destruct (existsb keep (profiles mpd_dict)) eqn:E.
  - apply existsb_exists in E as (p & Hin & Hkeep).
    assert (H : In (id p) (Py.dict_keys
                             (master_group keep mpd_dict request key_id key)))
      by (apply master_group_keys; eauto).
    destruct (master_group keep mpd_dict request key_id key);
      [destruct H | reflexivity].
  - destruct (master_group keep mpd_dict request key_id key) as [| [k e] d] eqn:G;
      [reflexivity | exfalso].
    assert (H : In k (Py.dict_keys
                        (master_group keep mpd_dict request key_id key)))
      by (rewrite G; now left).
    apply master_group_keys in H as (p & Hin & Hkeep & _).
    assert (existsb keep (profiles mpd_dict) = true)
      by (apply existsb_exists; eauto).
    congruence.
Qed.

(** Every [#EXT-X-STREAM-INF] line of a master playlist carries
    [,AUDIO="audio"] when the manifest has an audio profile, and no audio
    attribute when it has none. *)
Lemma stream_inf_audio_field :
  forall (lines : list hls_line) b w h c f attr,
    build_hls_lines mpd_dict request key_id key = inr lines ->
    In (StreamInf b w h c f attr) lines ->
    attr = if existsb is_audio_profile (profiles mpd_dict)
           then "," ++ "AUDIO=" ++ DQ ++ "audio" ++ DQ
           else "".
Proof.
  intros lines b w h c f attr Hlines Hin.
  rewrite master_lines_shape in Hlines. cbn zeta in Hlines.
  destruct (first_missing_key _); [discriminate |].
  injection Hlines as <-.
  rewrite <- (master_group_empty is_audio_profile).
  fold (audio_attr_of (master_group is_audio_profile mpd_dict request key_id key)).
  destruct Hin as [Hin | [Hin | Hin]]; [discriminate | discriminate |].
  apply in_app_or in Hin as [Hin | Hin].
  - apply in_map_iff in Hin as ([i [p u]] & E & _). discriminate.
  - apply in_flat_map in Hin as ([p u] & _ & Hin).
    unfold stream_lines in Hin. cbn [fst snd] in Hin.
    destruct (bandwidth p), (width p), (height p), (codecs p), (frameRate p);
      try contradiction.
    destruct Hin as [[= _ _ _ _ _ <-] | [Hin | []]]; [reflexivity | discriminate].
Qed.

End MasterConsequences.

Section RepeatedIds.

Context {collaborators : Collaborators}.

Variables (mpd_dict : Mpd) (request : Request) (key_id key : option string).

Lemma dict_get_update_other {V} (items : list (string * V)) (d : Py.dict V)
  (k : string) :
  ~ In k (map fst items) ->
  Py.dict_get k (Py.dict_update items d) = Py.dict_get k d.
Proof.
  revert d. induction items as [| [k0 v0] items IH]; intros d Hnot; [reflexivity |].
  rewrite dict_update_cons, IH by (cbn in Hnot; tauto).
  rewrite dict_get_set.
  destruct (String.eqb_spec k k0) as [-> | _]; [| reflexivity].
  exfalso. apply Hnot. now left.
Qed.

Lemma dict_get_update_last {V} (items1 items2 : list (string * V))
  (d : Py.dict V) (k : string) (v : V) :
  ~ In k (map fst items2) ->
  Py.dict_get k (Py.dict_update (items1 ++ (k, v) :: items2) d) = Some v.
Proof.
  intros Hnot. unfold Py.dict_update. rewrite fold_left_app. cbn [fold_left fst snd].
  fold (Py.dict_update items1 d).
  fold (Py.dict_update items2 (Py.dict_set k v (Py.dict_update items1 d))).
  rewrite dict_get_update_other by assumption.
  rewrite dict_get_set. now rewrite String.eqb_refl.
Qed.

Lemma media_names_of_entries (i : nat) (entries : list (Profile * string)) :
  map media_name (map media_line (enumerate_from i entries))
  = map (fun e => id (fst e)) entries.
Proof.
  revert i. induction entries as [| [p u] entries IH]; intros i; cbn; [reflexivity |].
  now rewrite IH.
Qed.

Lemma names_are_keys (d : Py.dict (Profile * string)) :
  (forall k e, In (k, e) d -> id (fst e) = k) ->
  map (fun e => id (fst e)) (Py.dict_values d) = Py.dict_keys d.
Proof.
  induction d as [| [k e] d IH]; intros H; cbn; [reflexivity |].
  rewrite (H k e) by now left.
  f_equal. apply IH. intros; apply H; now right.
Qed.

Lemma master_group_names (keep : Profile -> bool) :
  map (fun e => id (fst e))
    (Py.dict_values (master_group keep mpd_dict request key_id key))
  = Py.dict_keys (master_group keep mpd_dict request key_id key).
Proof.
  apply names_are_keys. intros k e H.
  apply master_group_entries in H as (p & _ & _ & E).
  unfold master_entry, group_entry in E. now injection E as -> ->.
Qed.

Lemma media_lines_closed (lines : list hls_line) :
  build_hls_lines mpd_dict request key_id key = inr lines ->
  filter is_media lines
  = map media_line
      (enumerate (Py.dict_values
                    (master_group is_audio_profile mpd_dict request key_id key))).
Proof.
  intros H. rewrite (media_lines_of_playlist _ _ _ _ lines H).
  now destruct (groups_closed mpd_dict request key_id key) as [_ ->].
Qed.

(** The master playlist has one [#EXT-X-MEDIA] line per id of an audio
    profile: no two lines share a name, and the names are the ids of the
    audio profiles. *)
Lemma media_names_are_audio_ids :
  forall lines : list hls_line,
    build_hls_lines mpd_dict request key_id key = inr lines ->
    NoDup (map media_name (filter is_media lines))
    /\ forall name,
         In name (map media_name (filter is_media lines))
         <-> exists p, In p (profiles mpd_dict)
                       /\ is_audio_profile p = true /\ id p = name.
Proof.
  intros lines H. rewrite (media_lines_closed lines H). unfold enumerate.
  rewrite media_names_of_entries, master_group_names. split.
  - apply dict_of_items_keys_nodup.
  - intros name. apply master_group_keys.
Qed.

(** When several profiles of a group share an id, the entry kept under the
    id is the one of the last of them. *)
Lemma last_profile_under_id (keep : Profile -> bool)
  (before after : list Profile) (q : Profile) :
  profiles mpd_dict = (before ++ q :: after)%list ->
  keep q = true ->
  (forall p, In p after -> keep p = true -> id p <> id q) ->
  Py.dict_get (id q) (master_group keep mpd_dict request key_id key)
  = Some (snd (master_entry request key_id key q)).
Proof.
  intros Hsplit Hq Hafter. unfold master_group, Py.dict_of_items.
  rewrite Hsplit, filter_app. cbn [filter]. rewrite Hq, map_app. cbn [map].
  assert (E : master_entry request key_id key q
              = (id q, snd (master_entry request key_id key q))) by reflexivity.
  rewrite E at 1. apply dict_get_update_last.
  rewrite map_map. intros (p & Hid & [Hin Hkeep]%filter_In)%in_map_iff.
  now apply (Hafter p).
Qed.

(** X5. The [#EXT-X-MEDIA] line of a repeated audio id shows the language and
    the URL of the last audio profile under that id; so does the
    [video_profiles] entry of a repeated video id. *)
Theorem later_profile_replaces_earlier :
  forall (before after : list Profile) (q : Profile),
    profiles mpd_dict = (before ++ q :: after)%list ->
    (forall p, In p after -> id p <> id q) ->
    (is_video_profile q = true ->
     Py.dict_get (id q) (video_profiles (group_profiles mpd_dict request key_id key))
     = Some (snd (master_entry request key_id key q)))
    /\ (is_audio_profile q = true ->
        forall lines, build_hls_lines mpd_dict request key_id key = inr lines ->
        exists is_default,
          In (Media (id q) is_default is_default (Py.get_or (lang q) "und")
                (snd (snd (master_entry request key_id key q))))
             lines).
Proof.
  intros before after q Hsplit Hafter.
  destruct (groups_closed mpd_dict request key_id key) as [Ev Ea]. split.
  - intros Hq. rewrite Ev. apply (last_profile_under_id _ before after); auto.
  - intros Hq lines Hlines.
    pose proof (last_profile_under_id is_audio_profile before after q
                  Hsplit Hq (fun p Hp _ => Hafter p Hp)) as Hget.
    apply dict_get_in_values in Hget.
    assert (Hm : forall i entries e,
               In e entries ->
               exists j, In (media_line (j, e)) (map media_line (enumerate_from i entries))).
    { intros i entries e. revert i.
      induction entries as [| e0 entries IH]; intros i; [intros [] |].
      intros [-> | Hin]; [exists i; now left |].
      destruct (IH (S i) Hin) as [j Hj]. exists j. now right. }
    destruct (Hm 0%nat _ _ Hget) as [j Hj].
    fold (enumerate (Py.dict_values
                       (master_group is_audio_profile mpd_dict request key_id key)))
      in Hj.
    rewrite <- (media_lines_closed lines Hlines) in Hj.
    apply filter_In in Hj as [Hj _].
    exists (if Nat.eqb j 0 then "YES" else "NO"). exact Hj.
Qed.

End RepeatedIds.

Section MasterUrls.

Context {collaborators : Collaborators}.

Variables (mpd_dict : Mpd) (request : Request) (key_id key : option string).

Lemma playlist_params_lookup (base : Py.dict string) (p : Profile) (k : string) :
  Py.dict_get k (playlist_params base key_id key p)
  = if String.eqb k "key" then Some (Py.str_or_empty key)
    else if String.eqb k "key_id" then Some (Py.str_or_empty key_id)
    else if String.eqb k "profile_id" then Some (id p)
    else Py.dict_get k base.
Proof.
  unfold playlist_params, Py.dict_update. cbn [fold_left fst snd].
  now rewrite !dict_get_set.
Qed.

Lemma pop_has_encrypted_lookup (d : Py.dict string) (k : string) :
  Py.dict_get k (snd (pop_has_encrypted d))
  = if String.eqb k "has_encrypted" then None else Py.dict_get k d.
Proof. unfold pop_has_encrypted, Py.dict_pop. cbn [snd]. apply dict_get_del. Qed.

Lemma pop_has_encrypted_flag (d : Py.dict string) :
  fst (pop_has_encrypted d)
  = String.eqb
      (Py.str_lower (Py.get_or (Py.dict_get "has_encrypted" d) "false")) "true".
Proof. reflexivity. Qed.

(** X6. What the codec is given for the URL of a profile's playlist: the
    playlist endpoint; the request's parameters with [profile_id], [key_id]
    and [key] set for this profile and [has_encrypted] removed; the
    encryption handler exactly when [has_encrypted] was ["true"] in any
    letter case. *)
Theorem playlist_url_parameters :
  forall (k0 : string) (p : Profile) (u : string),
    In (k0, (p, u)) (video_profiles (group_profiles mpd_dict request key_id key))
    \/ In (k0, (p, u)) (audio_profiles (group_profiles mpd_dict request key_id key)) ->
    exists ps,
      u = encode_mediaflow_proxy_url
            (resolve_endpoint request "playlist_endpoint") ps
            (handler_if
               (String.eqb
                  (Py.str_lower
                     (Py.get_or
                        (Py.dict_get "has_encrypted"
                           (Py.dict_of_items (query_params request)))
                        "false"))
                  "true"))
      /\ forall k,
           Py.dict_get k ps
           = if String.eqb k "key" then Some (Py.str_or_empty key)
             else if String.eqb k "key_id" then Some (Py.str_or_empty key_id)
             else if String.eqb k "profile_id" then Some (id p)
             else if String.eqb k "has_encrypted" then None
             else Py.dict_get k (Py.dict_of_items (query_params request)).
Proof.
  intros k0 p u H.
  destruct (groups_closed mpd_dict request key_id key) as [Ev Ea].
  rewrite Ev, Ea in H.
  assert (E : exists q, (k0, (p, u)) = master_entry request key_id key q).
  { destruct H as [H | H]; apply master_group_entries in H as (q & _ & _ & E);
      eauto. }
  destruct E as (q & E). unfold master_entry, group_entry in E.
  injection E as -> -> ->.
  exists (playlist_params
            (snd (pop_has_encrypted (Py.dict_of_items (query_params request))))
            key_id key q).
  split; [rewrite <- pop_has_encrypted_flag; reflexivity |].
  intros k. now rewrite playlist_params_lookup, pop_has_encrypted_lookup.
Qed.

Lemma first_missing_key_entry (entries : list (Profile * string)) (k : string) :
  first_missing_key entries = Some k ->
  exists e, In e entries /\ missing_key (fst e) = Some k.
Proof.
  induction entries as [| e entries IH]; cbn; [discriminate |].
  destruct (missing_key (fst e)) eqn:E.
  - intros [= <-]. eauto.
  - intros H. destruct (IH H) as (e' & Hin & He'). eauto.
Qed.


(** X7. A [KeyError] of [build_hls] on one of the five keys of the
    [#EXT-X-STREAM-INF] line names the first of these keys that some video
    profile of the manifest lacks: a profile that is not a video profile
    never causes one, whatever it lacks. *)
Theorem key_error_names_video_profile :
  forall k : string,
    In k stream_inf_keys ->
    build_hls mpd_dict request key_id key = inl (Py.KeyError k) ->
    exists p, In p (profiles mpd_dict) /\ is_video_profile p = true
              /\ missing_key p = Some k.
Proof.
  intros k _. unfold build_hls. rewrite master_lines_shape. cbn zeta.
  destruct (first_missing_key _) as [k' |] eqn:E; cbn; [| discriminate].
  intros [= <-].
  apply first_missing_key_entry in E as ([p u] & Hin & Hmiss).
  apply in_map_iff in Hin as ([k0 e0] & E0 & Hin). cbn in E0. subst e0.
  apply master_group_entries in Hin as (q & Hq & Hkeep & E).
  unfold master_entry, group_entry in E. injection E as _ -> _.
  exists q. auto.
Qed.

End MasterUrls.

(** ** The media playlist in closed form *)

Section SegmentLoop.

Context {collaborators : Collaborators}.

Variables (proxy_url : string) (has_encrypted : bool) (base : Py.dict string).
Variable p : Profile.

Local Notation "'from_base'" := (segment_params_from_base base p).

Lemma segment_params_absorb (s0 s : Segment) :
  segment_params (segment_params base p s0) p s = segment_params base p s.
Proof. unfold segment_params. apply update3_absorb; discriminate. Qed.

Lemma segment_params_step (params : Py.dict string) (s : Segment) :
  from_base params -> segment_params params p s = segment_params base p s.
Proof.
  intros [-> | [s0 ->]]; [reflexivity | apply segment_params_absorb].
Qed.

(** The segment loop: two lines per segment, each URL computed from [base]
    and the segment alone; or [KeyError] on ["extinf"]. *)
Lemma segments_closed (segs : list Segment) (pl : Playlist)
  (params : Py.dict string) :
  from_base params ->
  match for_each (add_segment proxy_url has_encrypted p) segs (pl, params) with
  | inr st' =>
      fst st'
      = mkPlaylist
          (hls pl ++ flat_map (segment_lines proxy_url (has_encrypted, base) p) segs)
          (added_segments pl + List.length segs)
      /\ forallb has_extinf segs = true
  | inl e => e = Py.KeyError "extinf" /\ forallb has_extinf segs = false
  end.
Proof.
  revert pl params.
  induction segs as [| s segs IH]; intros pl params Hbase;
    cbn [for_each flat_map forallb List.length].
  - cbn. rewrite app_nil_r, Nat.add_0_r. now destruct pl.
  - assert (Hs : has_extinf s = is_some (extinf s)) by reflexivity.
    rewrite Hs. unfold add_segment at 1, segment_lines at 1.
    destruct (extinf s) as [x |];
      cbn [Py.getitem Py.rbind Py.ok Py.raise is_some andb]; [| auto].
    fold (segment_params params p s). rewrite (segment_params_step params s Hbase).
    match goal with
    | |- context [for_each _ segs (?pl1, ?ps1)] =>
        specialize (IH pl1 ps1 (or_intror (ex_intro _ s eq_refl)));
        destruct (for_each (add_segment proxy_url has_encrypted p) segs (pl1, ps1))
          as [e | st']
    end; [exact IH |].
    destruct IH as [-> Hall]. split; [| exact Hall].
    cbn [hls added_segments fst snd]. f_equal.
    + now rewrite <- !app_assoc.
    + lia.
Qed.

End SegmentLoop.

Lemma lift_raise_now {A B} (e : Py.exn) (k : A -> M B) :
  (x <- lift (inl e) ;; k x) = ([], inl e).
Proof. reflexivity. Qed.

Section ProfileLoop.

Context {collaborators : Collaborators}.

Variables (mpd_dict : Mpd) (request : Request) (proxy_url : string).

Local Notation "'lines_of'" := (profile_lines proxy_url (segment_base request)).

Lemma add_header_from_nil (p : Profile) (first_segment : Segment)
  (lines : list hls_line) :
  add_header mpd_dict p first_segment lines
  = (header <~ add_header mpd_dict p first_segment [] ;;
     Py.ok (lines ++ header)%list).
Proof.
  unfold add_header.
  destruct (target_duration_of _); cbn; [reflexivity |].
  destruct (media_sequence _ _ _); cbn; [reflexivity |].
  destruct (isLive mpd_dict); cbn; [| reflexivity].
  now rewrite <- app_assoc.
Qed.

Local Notation "'header_here'" := (header_at mpd_dict).

Lemma add_profile_closed (st : Playlist) (i : nat) (p : Profile)
  (rest : list Profile) :
  match add_profile mpd_dict request proxy_url st (i, p) with
  | (t, inr st') =>
      t = (if has_no_segments p then [no_segments_warning p] else [])
      /\ forallb has_extinf (segments p) = true
      /\ exists header,
           header_here i (p :: rest) = Py.ok header
           /\ st' = mkPlaylist (hls st ++ header ++ lines_of p)
                      (added_segments st + List.length (segments p))
  | (t, inl e) =>
      t = []
      /\ (header_here i (p :: rest) = inl e
          \/ (e = Py.KeyError "extinf"
              /\ forallb has_extinf (segments p) = false))
  end.
Proof.
  unfold add_profile, header_at, playlist_header, profile_lines,
    has_no_segments.
  destruct (segments p) as [| first_segment more] eqn:Hsegs.
  - rewrite emit_then. cbn [fst snd mret Py.ok flat_map forallb List.length].
    repeat split. exists []. split; [now destruct (Nat.eqb i 0) |].
    rewrite !app_nil_r, Nat.add_0_r. now destruct st.
  - rewrite add_header_from_nil.
    unfold segment_base. destruct (pop_has_encrypted _) as [he base].
    assert (Hbody : forall header,
               let (t, r) :=
                 (r <- lift (for_each (add_segment proxy_url he p)
                               (first_segment :: more)
                               (mkPlaylist (hls st ++ header) (added_segments st),
                                base)) ;;
                  mret (fst r)) in
               match r with
               | inl e =>
                   t = [] /\ e = Py.KeyError "extinf"
                   /\ forallb has_extinf (first_segment :: more) = false
               | inr st' =>
                   t = [] /\ forallb has_extinf (first_segment :: more) = true
                   /\ st' = mkPlaylist
                              (hls st ++ header
                               ++ flat_map (segment_lines proxy_url (he, base) p)
                                    (first_segment :: more))
                              (added_segments st
                               + List.length (first_segment :: more))
               end).
    { intros header.
      pose proof (segments_closed proxy_url he base p (first_segment :: more)
                    (mkPlaylist (hls st ++ header) (added_segments st))
                    base (or_introl eq_refl)) as Hloop.
      destruct (for_each _ _ _) as [e | r].
      - rewrite lift_raise_now. tauto.
      - rewrite lift_ok_then. destruct Hloop as [-> Hall].
        cbn [mret Py.ok hls added_segments]. rewrite <- app_assoc. auto. }
    destruct (Nat.eqb i 0).
    + destruct (add_header mpd_dict p first_segment []) as [e | header];
        cbn [Py.rbind]; [rewrite lift_raise_now; auto |].
      unfold Py.ok at 1. rewrite lift_ok_then.
      specialize (Hbody header).
      destruct (_ <- lift _ ;; mret _) as [t [e | st']].
      * destruct Hbody as (-> & -> & Hall). auto.
      * destruct Hbody as (-> & Hall & ->). repeat split; [exact Hall |].
        now exists header.
    + unfold Py.ok at 1. rewrite lift_ok_then.
      specialize (Hbody []). rewrite app_nil_r in Hbody.
      destruct (_ <- lift _ ;; mret _) as [t [e | st']].
      * destruct Hbody as (-> & -> & Hall). auto.
      * destruct Hbody as (-> & Hall & ->). repeat split; [exact Hall |].
        now exists [].
Qed.

Lemma profiles_closed (profiles : list Profile) (i : nat) (st : Playlist) :
  match for_each_M (add_profile mpd_dict request proxy_url)
          (enumerate_from i profiles) st with
  | (t, inr st') =>
      t = map no_segments_warning (filter has_no_segments profiles)
      /\ all_have_extinf profiles = true
      /\ exists header,
           header_here i profiles = Py.ok header
           /\ st' = mkPlaylist (hls st ++ header ++ flat_map lines_of profiles)
                      (added_segments st + total_segments profiles)
  | (t, inl e) =>
      header_here i profiles = inl e
      \/ (e = Py.KeyError "extinf" /\ all_have_extinf profiles = false)
  end.
Proof.
  revert i st. induction profiles as [| p rest IH]; intros i st;
    cbn [enumerate_from for_each_M].
  - cbn. repeat split. exists [].
    split; [unfold header_at; now destruct (Nat.eqb i 0) |].
    rewrite app_nil_r, Nat.add_0_r. now destruct st.
  - pose proof (add_profile_closed st i p rest) as Hp.
    destruct (add_profile mpd_dict request proxy_url st (i, p)) as [t1 [e | st1]].
    + cbn [mbind]. destruct Hp as (_ & [H | [-> H]]); [now left |].
      right. split; [reflexivity |]. unfold all_have_extinf. cbn [forallb].
      now rewrite H.
    + destruct Hp as (-> & Hext & header & Hheader & ->).
      specialize (IH (S i) (mkPlaylist (hls st ++ header ++ lines_of p)
                              (added_segments st + List.length (segments p)))).
      cbn [mbind].
      destruct (for_each_M _ _ _) as [t2 [e | st']].
      * destruct IH as [H | [-> H]]; [discriminate H |].
        right. split; [reflexivity |]. unfold all_have_extinf in *.
        cbn [forallb]. now rewrite Hext, H.
      * destruct IH as (-> & Hall & header' & [= <-] & ->).
        split; [| split].
        -- cbn [filter]. now destruct (has_no_segments p).
        -- unfold all_have_extinf in *. cbn [forallb]. now rewrite Hext, Hall.
        -- exists header. split; [exact Hheader |].
           cbn [hls added_segments flat_map app]. f_equal.
           ++ now rewrite <- !app_assoc.
           ++ unfold total_segments, list_sum. cbn [map fold_right]. lia.
Qed.

End ProfileLoop.

Section MediaPlaylistClosedForm.

Context {collaborators : Collaborators}.

Variables (mpd_dict : Mpd) (request : Request).

Local Notation "'lines_of'" :=
  (profile_lines (resolve_endpoint request "segment_endpoint")
     (segment_base request)).

(** The lines and the log of the media playlist, as the later results use them. *)
Lemma media_playlist_shape :
  forall (profiles : list Profile) (t : list event) (lines : list hls_line),
    build_hls_playlist_lines mpd_dict profiles request = (t, inr lines)
    <-> exists header is_live,
          isLive mpd_dict = Some is_live
          /\ playlist_header mpd_dict profiles = Py.ok header
          /\ all_have_extinf profiles = true
          /\ lines = ([ExtM3U; Version6] ++ header
                      ++ flat_map lines_of profiles
                      ++ (if is_live : bool then [] else [EndList]))%list
          /\ t = (map no_segments_warning (filter has_no_segments profiles)
                  ++ [added_segments_info (total_segments profiles)])%list.
Proof.
  intros profiles t lines. unfold build_hls_playlist_lines, enumerate.
  pose proof (profiles_closed mpd_dict request
                (resolve_endpoint request "segment_endpoint")
                profiles 0 (mkPlaylist [ExtM3U; Version6] 0)) as Hloop.
  unfold header_at in Hloop. cbn [Nat.eqb hls added_segments Nat.add] in Hloop.
  destruct (for_each_M _ _ _) as [t1 [e | st']]; cbn [mbind].
  - split; [discriminate |].
    intros (header & is_live & _ & Hheader & Hall & _).
    destruct Hloop as [H | [_ H]];
      [rewrite Hheader in H; discriminate H | congruence].
  - destruct Hloop as (-> & Hall & header & Hheader & ->).
    cbn [hls added_segments].
    destruct (isLive mpd_dict) as [is_live |]; cbn [Py.getitem lift].
    + rewrite lift_ok_then, emit_then. cbn [fst snd mret Py.ok].
      fold (added_segments_info (total_segments profiles)).
      assert (E : (if negb is_live
                   then (([ExtM3U; Version6] ++ header
                          ++ flat_map lines_of profiles) ++ [EndList])%list
                   else ([ExtM3U; Version6] ++ header
                         ++ flat_map lines_of profiles)%list)
                  = ([ExtM3U; Version6] ++ header ++ flat_map lines_of profiles
                     ++ (if is_live then [] else [EndList]))%list).
      { destruct is_live; cbn [negb];
          [now rewrite app_nil_r | now rewrite <- !app_assoc]. }
      rewrite E. split.
      * intros [= <- <-]. exists header, is_live. auto.
      * intros (header' & is_live' & [= <-] & Hheader' & _ & -> & ->).
        rewrite Hheader in Hheader'. now injection Hheader' as <-.
    + split; [discriminate |]. intros (header' & is_live' & H & _). discriminate H.
Qed.

(** X8. A media playlist that is returned is the two fixed lines, the
    header of the first profile when it has segments, two lines per
    segment in the order of the profiles and of their segments, and the
    end marker of an on-demand manifest; every segment has [extinf]; the
    log holds one warning per profile without segments and the number of
    segments added. *)
Theorem media_playlist_closed_form :
  forall (profiles : list Profile) (t : list event) (lines : list hls_line),
    build_hls_playlist_lines mpd_dict profiles request = (t, inr lines) ->
    exists header is_live,
      isLive mpd_dict = Some is_live
      /\ playlist_header mpd_dict profiles = Py.ok header
      /\ all_have_extinf profiles = true
      /\ lines = ([ExtM3U; Version6] ++ header
                  ++ flat_map lines_of profiles
                  ++ (if is_live : bool then [] else [EndList]))%list
      /\ t = (map no_segments_warning (filter has_no_segments profiles)
              ++ [added_segments_info (total_segments profiles)])%list.
Proof.
  intros profiles t lines H. exact (proj1 (media_playlist_shape _ _ _) H).
Qed.

End MediaPlaylistClosedForm.

Section MediaPlaylistConsequences.

Context {collaborators : Collaborators}.

Variables (mpd_dict : Mpd) (request : Request).

Local Notation "'lines_of'" :=
  (profile_lines (resolve_endpoint request "segment_endpoint")
     (segment_base request)).

Lemma add_header_shape (p : Profile) (first_segment : Segment)
  (header : list hls_line) :
  add_header mpd_dict p first_segment [] = Py.ok header ->
  exists target_duration sequence is_live,
    target_duration_of (segments p) = Py.ok target_duration
    /\ media_sequence mpd_dict p first_segment = Py.ok sequence
    /\ isLive mpd_dict = Some is_live
    /\ header = [TargetDuration target_duration; MediaSequence sequence;
                 PlaylistType (if is_live : bool then "LIVE" else "VOD")].
Proof.
  unfold add_header.
  destruct (target_duration_of _) as [e | td]; cbn; [discriminate |].
  destruct (media_sequence _ _ _) as [e | sq]; cbn; [discriminate |].
  destruct (isLive mpd_dict) as [is_live |]; cbn; [| discriminate].
  intros [= <-]. now exists td, sq, is_live.
Qed.

Lemma playlist_header_tags (profiles : list Profile) (header : list hls_line) :
  playlist_header mpd_dict profiles = Py.ok header ->
  filter is_endlist header = [] /\ filter is_extinf header = []
  /\ existsb is_header_tag header
     = match profiles with
       | p :: _ => negb (has_no_segments p)
       | [] => false
       end.
Proof.
  unfold playlist_header, has_no_segments.
  destruct profiles as [| p rest]; [now intros [= <-] |].
  destruct (segments p) as [| first_segment more]; [now intros [= <-] |].
  intros (td & sq & is_live & _ & _ & _ & ->)%add_header_shape. now cbn.
Qed.

Lemma segment_lines_tags (fb : bool * Py.dict string) (url : string)
  (p : Profile) (s : Segment) :
  filter is_endlist (segment_lines url fb p s) = []
  /\ existsb is_header_tag (segment_lines url fb p s) = false
  /\ List.length (filter is_extinf (segment_lines url fb p s))
     = (if has_extinf s then 1%nat else 0%nat).
Proof.
  unfold segment_lines, has_extinf. now destruct (extinf s).
Qed.

Lemma body_tags (profiles : list Profile) :
  filter is_endlist (flat_map lines_of profiles) = []
  /\ existsb is_header_tag (flat_map lines_of profiles) = false
  /\ (all_have_extinf profiles = true ->
      List.length (filter is_extinf (flat_map lines_of profiles))
      = total_segments profiles).
Proof.
  assert (Hp : forall p,
             filter is_endlist (lines_of p) = []
             /\ existsb is_header_tag (lines_of p) = false
             /\ (forallb has_extinf (segments p) = true ->
                 List.length (filter is_extinf (lines_of p))
                 = List.length (segments p))).
  { intros p. unfold profile_lines.
    induction (segments p) as [| s segs (IH1 & IH2 & IH3)]; cbn [flat_map forallb];
      [now cbn |].
    rewrite filter_app, existsb_app, filter_app, length_app.
    destruct (segment_lines_tags (segment_base request)
                (resolve_endpoint request "segment_endpoint") p s)
      as (-> & -> & ->).
    rewrite IH1, IH2. repeat split.
    intros [-> Hall]%andb_prop. rewrite (IH3 Hall). reflexivity. }
  induction profiles as [| p rest (IH1 & IH2 & IH3)]; [now cbn |].
  cbn [flat_map]. rewrite filter_app, existsb_app, filter_app, length_app.
  destruct (Hp p) as (-> & -> & H3). rewrite IH1, IH2. repeat split.
  unfold all_have_extinf. cbn [forallb]. intros [Hseg Hall]%andb_prop.
  rewrite (H3 Hseg), (IH3 Hall). unfold total_segments, list_sum.
  now cbn [map fold_right].
Qed.

(** X9. An on-demand playlist ends with [#EXT-X-ENDLIST], which is nowhere else
    in it; a live playlist has no [#EXT-X-ENDLIST]. *)
Theorem endlist_iff_on_demand :
  forall (profiles : list Profile) (t : list event) (lines : list hls_line),
    build_hls_playlist_lines mpd_dict profiles request = (t, inr lines) ->
    (isLive mpd_dict = Some false
     /\ filter is_endlist lines = [EndList]
     /\ exists front, lines = (front ++ [EndList])%list)
    \/ (isLive mpd_dict = Some true /\ filter is_endlist lines = []).
Proof.
  intros profiles t lines H.
  apply media_playlist_shape in H
    as (header & is_live & Hlive & Hheader & _ & -> & _).
  destruct (playlist_header_tags profiles header Hheader) as (Hh & _ & _).
  destruct (body_tags profiles) as (Hb & _ & _).
  cbn [app filter is_endlist]. rewrite !filter_app, Hh, Hb. cbn [app].
  destruct is_live; [right; now split | left].
  repeat split; [assumption |].
  exists ([ExtM3U; Version6] ++ header ++ flat_map lines_of profiles)%list.
  now rewrite <- !app_assoc.
Qed.

(** X10. The playlist has one [#EXTINF] line per segment of the profiles, and
    the count that the builder logs is the number of these lines. *)
Theorem one_extinf_per_segment :
  forall (profiles : list Profile) (t : list event) (lines : list hls_line),
    build_hls_playlist_lines mpd_dict profiles request = (t, inr lines) ->
    List.length (filter is_extinf lines) = total_segments profiles
    /\ In (added_segments_info (List.length (filter is_extinf lines))) t.
Proof.
  intros profiles t lines H.
  apply media_playlist_shape in H
    as (header & is_live & _ & Hheader & Hall & -> & ->).
  destruct (playlist_header_tags profiles header Hheader) as (_ & Hh & _).
  destruct (body_tags profiles) as (_ & _ & Hb).
  assert (E : List.length
                (filter is_extinf
                   ([ExtM3U; Version6] ++ header ++ flat_map lines_of profiles
                    ++ (if is_live then [] else [EndList])))
              = total_segments profiles).
  { cbn [app filter is_extinf]. rewrite !filter_app, Hh, !length_app, (Hb Hall).
    destruct is_live; cbn; lia. }
  rewrite E. split; [reflexivity |]. apply in_or_app. right. now left.
Qed.

(** X11. The three header tags are in the playlist exactly when the first
    profile of the list has segments. *)
Theorem header_iff_first_profile_has_segments :
  forall (profiles : list Profile) (t : list event) (lines : list hls_line),
    build_hls_playlist_lines mpd_dict profiles request = (t, inr lines) ->
    existsb is_header_tag lines
    = match profiles with
      | p :: _ => negb (has_no_segments p)
      | [] => false
      end.
Proof.
  intros profiles t lines H.
  apply media_playlist_shape in H
    as (header & is_live & _ & Hheader & _ & -> & _).
  destruct (playlist_header_tags profiles header Hheader) as (_ & _ & Hh).
  destruct (body_tags profiles) as (_ & Hb & _).
  cbn [app existsb is_header_tag orb]. rewrite !existsb_app, Hh, Hb.
  destruct is_live; cbn; now rewrite ?orb_false_r.
Qed.

End MediaPlaylistConsequences.

Section MediaPlaylistFailures.

Context {collaborators : Collaborators}.

Variables (mpd_dict : Mpd) (request : Request).

Lemma math_ceil_error (x : Py.float) (e : Py.exn) :
  Py.math_ceil x = inl e -> is_numeric_error e.
Proof. destruct x; cbn; try discriminate; now intros [= <-]. Qed.

Lemma math_floor_error (x : Py.float) (e : Py.exn) :
  Py.math_floor x = inl e -> is_numeric_error e.
Proof. destruct x; cbn; try discriminate; now intros [= <-]. Qed.

Lemma int_truediv_error (a b : Z) (e : Py.exn) :
  b <> 0 -> Py.int_truediv a b = inl e -> is_numeric_error e.
Proof.
  intros Hb. unfold Py.int_truediv.
  destruct (Z.eqb_spec b 0); [contradiction |].
  destruct (SFdiv 53 1024 _ _); cbn; try discriminate. now intros [= <-].
Qed.

(** The division is guarded by [duration_val > 0]: the sequence derivation
    raises nothing but the errors of the float conversion. *)
Lemma media_sequence_error (p : Profile) (first_segment : Segment) (e : Py.exn) :
  media_sequence mpd_dict p first_segment = inl e -> is_numeric_error e.
Proof.
  unfold media_sequence.
  destruct (_ && _); [discriminate |].
  destruct (time first_segment) as [t |]; [| discriminate].
  destruct (duration_mpd_timescale first_segment) as [d |]; cbn [Py.truthy_int Py.get_or];
    [| discriminate].
  destruct (Z.eqb_spec d 0); cbn [negb andb]; [discriminate |].
  destruct (0 <? d); [| discriminate].
  destruct (Py.int_truediv t d) as [e1 | q] eqn:Ediv; cbn [Py.rbind].
  - intros [= <-]. now apply (int_truediv_error t d).
  - destruct (Py.math_floor q) as [e2 | c] eqn:Efloor; cbn [Py.rbind].
    + intros [= <-]. now apply (math_floor_error q).
    + destruct (_ && _); discriminate.
Qed.

Lemma playlist_header_error (profiles : list Profile) (e : Py.exn) :
  playlist_header mpd_dict profiles = inl e ->
  e = Py.KeyError "isLive" \/ is_numeric_error e.
Proof.
  unfold playlist_header.
  destruct profiles as [| p rest]; [discriminate |].
  destruct (segments p) as [| first_segment more] eqn:Hsegs; [discriminate |].
  unfold add_header, target_duration_of. rewrite Hsegs.
  destruct (flat_map _ _) as [| x xs].
  - cbn [Py.rbind Py.ok].
    destruct (media_sequence _ _ _) as [e1 | sq] eqn:Esq; cbn [Py.rbind].
    + intros [= <-]. right. now apply media_sequence_error in Esq.
    + destruct (isLive mpd_dict); cbn; [discriminate | intros [= <-]; now left].
  - destruct (Py.math_ceil _) as [e0 | td] eqn:Etd; cbn [Py.rbind].
    + intros [= <-]. right. now apply math_ceil_error in Etd.
    + destruct (media_sequence _ _ _) as [e1 | sq] eqn:Esq; cbn [Py.rbind].
      * intros [= <-]. right. now apply media_sequence_error in Esq.
      * destruct (isLive mpd_dict); cbn; [discriminate | intros [= <-]; now left].
Qed.

(** The errors of the media playlist, as the request handler uses them. *)
Lemma media_playlist_error_kinds :
  forall (profiles : list Profile) (t : list event) (e : Py.exn),
    build_hls_playlist mpd_dict profiles request = (t, inl e) ->
    e = Py.KeyError "extinf" \/ e = Py.KeyError "isLive" \/ is_numeric_error e.
Proof.
  intros profiles t e. unfold build_hls_playlist, build_hls_playlist_lines, enumerate.
  pose proof (profiles_closed mpd_dict request
                (resolve_endpoint request "segment_endpoint")
                profiles 0 (mkPlaylist [ExtM3U; Version6] 0)) as Hloop.
  unfold header_at in Hloop. cbn [Nat.eqb] in Hloop.
  destruct (for_each_M _ _ _) as [t1 [e1 | st']]; cbn [mbind].
  - intros [= _ <-]. destruct Hloop as [H | [-> _]]; [| now left].
    right. now apply playlist_header_error in H.
  - destruct (isLive mpd_dict) as [is_live |]; cbn [Py.getitem lift].
    + rewrite lift_ok_then, emit_then. cbn. discriminate.
    + cbn. intros [= _ <-]. right. now left.
Qed.

(** X12. [build_hls_playlist] never raises [ZeroDivisionError]: the
    division of the sequence derivation is guarded by
    [duration_val > 0]. *)
Theorem media_playlist_never_divides_by_zero :
  forall (profiles : list Profile) (t : list event) (e : Py.exn),
    build_hls_playlist mpd_dict profiles request = (t, inl e) ->
    e <> Py.ZeroDivisionError.
Proof.
  intros profiles t e H Hz. subst e.
  apply media_playlist_error_kinds in H.
  destruct H as [H | [H | H]]; [discriminate H | discriminate H | exact H].
Qed.

End MediaPlaylistFailures.

Section SegmentUrls.

Context {collaborators : Collaborators}.

Variables (mpd_dict : Mpd) (request : Request).

Lemma segment_params_lookup (base : Py.dict string) (p : Profile) (s : Segment)
  (k : string) :
  Py.dict_get k (segment_params base p s)
  = if String.eqb k "mime_type" then Some (mimeType p)
    else if String.eqb k "segment_url" then Some (media s)
    else if String.eqb k "init_url" then Some (initUrl p)
    else Py.dict_get k base.
Proof.
  unfold segment_params, Py.dict_update. cbn [fold_left fst snd].
  now rewrite !dict_get_set.
Qed.

Lemma segment_base_lookup (k : string) :
  Py.dict_get k (snd (segment_base request))
  = if String.eqb k "has_encrypted" then None
    else if String.eqb k "d" then None
    else if String.eqb k "profile_id" then None
    else Py.dict_get k (Py.dict_of_items (query_params request)).
Proof.
  unfold segment_base. rewrite pop_has_encrypted_lookup.
  now rewrite !dict_get_del.
Qed.

Lemma segment_base_flag :
  fst (segment_base request)
  = String.eqb
      (Py.str_lower
         (Py.get_or
            (Py.dict_get "has_encrypted"
               (Py.dict_of_items (query_params request)))
            "false"))
      "true".
Proof.
  unfold segment_base. rewrite pop_has_encrypted_flag.
  now rewrite !dict_get_del.
Qed.

(** X13. Every URL line of a media playlist is the codec's result for a segment
    of one of the profiles: on the segment endpoint; with the request's
    parameters where [init_url], [segment_url] and [mime_type] are those of
    the segment and its profile and [profile_id], [d] and [has_encrypted]
    are removed; with the encryption handler exactly when [has_encrypted]
    was ["true"] in any letter case. *)
Theorem segment_url_parameters :
  forall (profiles : list Profile) (t : list event) (lines : list hls_line)
         (u : string),
    build_hls_playlist_lines mpd_dict profiles request = (t, inr lines) ->
    In (Uri u) lines ->
    exists p s ps,
      In p profiles /\ In s (segments p)
      /\ u = encode_mediaflow_proxy_url
               (resolve_endpoint request "segment_endpoint") ps
               (handler_if
                  (String.eqb
                     (Py.str_lower
                        (Py.get_or
                           (Py.dict_get "has_encrypted"
                              (Py.dict_of_items (query_params request)))
                           "false"))
                     "true"))
      /\ forall k,
           Py.dict_get k ps
           = if String.eqb k "mime_type" then Some (mimeType p)
             else if String.eqb k "segment_url" then Some (media s)
             else if String.eqb k "init_url" then Some (initUrl p)
             else if String.eqb k "has_encrypted" then None
             else if String.eqb k "d" then None
             else if String.eqb k "profile_id" then None
             else Py.dict_get k (Py.dict_of_items (query_params request)).
Proof.
  intros profiles t lines u H Hin.
  apply media_playlist_shape in H
    as (header & is_live & _ & Hheader & _ & -> & _).
  cbn [app In] in Hin.
  destruct Hin as [Hin | [Hin | Hin]]; [discriminate | discriminate |].
  apply in_app_or in Hin as [Hin | Hin].
  { exfalso. unfold playlist_header in Hheader.
    destruct profiles as [| p rest]; [injection Hheader as <-; destruct Hin |].
    destruct (segments p) as [| f more]; [injection Hheader as <-; destruct Hin |].
    apply add_header_shape in Hheader as (td & sq & lv & _ & _ & _ & ->).
    destruct Hin as [Hin | [Hin | [Hin | []]]]; discriminate. }
  apply in_app_or in Hin as [Hin | Hin];
    [| destruct is_live; [destruct Hin | destruct Hin as [Hin | []]; discriminate]].
  apply in_flat_map in Hin as (p & Hp & Hin). unfold profile_lines in Hin.
  apply in_flat_map in Hin as (s & Hs & Hin). unfold segment_lines in Hin.
  destruct (extinf s) as [x |]; [| destruct Hin].
  destruct Hin as [Hin | [Hin | []]]; [discriminate |].
  assert (Eu : u = encode_mediaflow_proxy_url
                     (resolve_endpoint request "segment_endpoint")
                     (segment_params (snd (segment_base request)) p s)
                     (handler_if (fst (segment_base request))))
    by congruence.
  clear Hin. rewrite segment_base_flag in Eu.
  exists p, s, (segment_params (snd (segment_base request)) p s).
  split; [assumption |]. split; [assumption |]. split; [exact Eu |].
  intros k. now rewrite segment_params_lookup, segment_base_lookup.
Qed.

End SegmentUrls.

(** ** process_playlist *)

Section PlaylistRequest.

Context {collaborators : Collaborators}.

Variables (request : Request) (mpd_dict : Mpd) (profile_id : string).
Variable proxy_headers : ProxyRequestHeaders.

Lemma no_match_iff_filter_nil :
  filter (fun p => String.eqb (id p) profile_id) (profiles mpd_dict) = []
  <-> forall p, In p (profiles mpd_dict) -> id p <> profile_id.
Proof.
  induction (profiles mpd_dict) as [| q l IH]; cbn.
  - split; [intros _ p [] | reflexivity].
  - destruct (String.eqb_spec (id q) profile_id) as [E | E].
    + split; [discriminate | intros H; now destruct (H q (or_introl eq_refl))].
    + rewrite IH. split.
      * intros H p [<- | Hp]; auto.
      * intros H p Hp. apply H. now right.
Qed.

(** X15. [process_playlist] answers 404 exactly when no profile of the manifest
    has the requested id, and then logs nothing; otherwise its outcome is
    the one of [build_hls_playlist] on the profiles with that id, in the
    order of the manifest, wrapped as an Apple playlist response. *)
Theorem not_found_iff_no_profile :
  ((forall p, In p (profiles mpd_dict) -> id p <> profile_id) ->
   process_playlist request mpd_dict profile_id proxy_headers
   = ([], inl (Py.HTTPException 404 "Profile not found")))
  /\ ((exists p, In p (profiles mpd_dict) /\ id p = profile_id) ->
      process_playlist request mpd_dict profile_id proxy_headers
      = (hls_content <-
           build_hls_playlist mpd_dict
             (filter (fun p => String.eqb (id p) profile_id) (profiles mpd_dict))
             request ;;
         mret (mkResponse hls_content "application/vnd.apple.mpegurl"
                 (response proxy_headers)))
      /\ forall t code detail,
           process_playlist request mpd_dict profile_id proxy_headers
           <> (t, inl (Py.HTTPException code detail))).
Proof.
  unfold process_playlist. split.
  - intros H. now rewrite (proj2 no_match_iff_filter_nil H).
  - intros (p & Hp & Hid).
    destruct (filter _ _) as [| q l] eqn:E.
    { pose proof (proj1 no_match_iff_filter_nil E p Hp) as Hne. contradiction. }
    split; [reflexivity |].
    intros t code detail.
    destruct (build_hls_playlist mpd_dict (q :: l) request) as [t1 [e | text]] eqn:B;
      cbn [mbind].
    + intros [= _ ->]. apply media_playlist_error_kinds in B.
      destruct B as [B | [B | B]]; [discriminate | discriminate | exact B].
    + cbn. discriminate.
Qed.

End PlaylistRequest.

(** ** process_manifest *)

Section ForwardedHeaders.

Lemma prefix_h_split (k : string) :
  String.prefix "h_" k = true -> k = "h_" ++ str_from 2 k.
Proof.
  destruct k as [| c1 [| c2 k]]; cbn [String.prefix str_from append].
  - discriminate.
  - destruct (Ascii.ascii_dec "h" c1); discriminate.
  - destruct (Ascii.ascii_dec "h" c1) as [<- | ]; [| discriminate].
    destruct (Ascii.ascii_dec "_" c2) as [<- | ]; [| discriminate].
    reflexivity.
Qed.

Lemma prefix_h_app (k : string) : String.prefix "h_" ("h_" ++ k) = true.
Proof.
  cbn [String.prefix append].
  destruct (Ascii.ascii_dec "h" "h") as [_ | n]; [| now destruct n].
  destruct (Ascii.ascii_dec "_" "_") as [_ | n]; [| now destruct n].
  now destruct k.
Qed.

Lemma option_ext {A} (o1 o2 : option A) :
  (forall v, o1 = Some v <-> o2 = Some v) -> o1 = o2.
Proof.
  intros H. destruct o1 as [a |], o2 as [b |]; try reflexivity.
  - now apply H.
  - symmetry. now apply H.
  - now apply H.
Qed.

Lemma stripped_in (d : Py.dict string) (k v : string) :
  In (k, v) (map strip (filter forwarded d)) <-> In ("h_" ++ k, v) d.
Proof.
  rewrite in_map_iff. split.
  - intros ([k' v'] & E & [Hin Hp]%filter_In).
    unfold forwarded in Hp. unfold strip in E. cbn [fst snd] in *.
    assert (Ek : k = str_from 2 k') by congruence.
    assert (Ev : v = v') by congruence.
    subst k v. now rewrite <- (prefix_h_split k' Hp).
  - intros Hin. exists ("h_" ++ k, v). split; [reflexivity |].
    apply filter_In. split; [exact Hin |].
    unfold forwarded. cbn [fst]. apply prefix_h_app.
Qed.

Lemma stripped_keys_nodup (d : Py.dict string) :
  NoDup (map fst d) -> NoDup (map fst (map strip (filter forwarded d))).
Proof.
  induction d as [| [k v] d IH]; cbn [map filter]; [constructor |].
  intros Hnd. inversion Hnd as [| ? ? Hnot Hrest]; subst.
  destruct (forwarded (k, v)) eqn:Hp; [| now apply IH].
  cbn [map fst strip]. constructor; [| now apply IH].
  intros Hin. apply in_map_iff in Hin as ([k2 v2] & E & Hin).
  cbn [fst] in E. subst k2. apply Hnot.
  apply stripped_in in Hin.
  unfold forwarded in Hp. cbn [fst] in Hp.
  rewrite <- (prefix_h_split k Hp) in Hin.
  now apply (in_map fst) in Hin.
Qed.

(** X16. The headers handed to the prebuffer task are the parameters whose key
    starts with [h_], under the key without this prefix: looking a name up
    among them is looking [h_] followed by the name up in the request. *)
Theorem forwarded_headers_lookup :
  forall (items : list (string * string)) (k : string),
    Py.dict_get k (forwarded_headers (Py.dict_of_items items))
    = Py.dict_get ("h_" ++ k) (Py.dict_of_items items).
Proof.
  intros items k. unfold forwarded_headers.
  fold strip. fold forwarded.
  set (d := Py.dict_of_items items).
  assert (Hd : NoDup (Py.dict_keys d)) by apply dict_of_items_keys_nodup.
  pose proof (stripped_keys_nodup d Hd) as Hs.
  rewrite (dict_of_items_nodup _ Hs).
  apply option_ext. intros v.
  rewrite (dict_get_iff_in k v _ Hs), (dict_get_iff_in ("h_" ++ k) v d Hd).
  apply stripped_in.
Qed.

End ForwardedHeaders.

Section ManifestRequest.

Context {collaborators : Collaborators}.

Variables (request : Request) (mpd_dict : Mpd) (key_id key : option string).
Variable proxy_headers : ProxyRequestHeaders.

(** X17. The response of [process_manifest] is the master playlist whatever the
    prebuffer setting is.  A prebuffer task is created exactly when the
    setting is on, the playlist was built and the request has a non-empty
    [d] parameter; there is then one task, for that URL and the forwarded
    headers.  A failing build creates none. *)
Theorem prebuffer_task_iff :
  forall enable_dash_prebuffer : bool,
    snd (process_manifest enable_dash_prebuffer request mpd_dict proxy_headers
           key_id key)
    = (hls_content <~ build_hls mpd_dict request key_id key ;;
       Py.ok (mkResponse hls_content "application/vnd.apple.mpegurl"
                (response proxy_headers)))
    /\ forall tsk,
         In tsk (fst (process_manifest enable_dash_prebuffer request mpd_dict
                        proxy_headers key_id key))
         <-> enable_dash_prebuffer = true
             /\ (exists text, build_hls mpd_dict request key_id key = inr text)
             /\ exists mpd_url,
                  Py.dict_get "d" (Py.dict_of_items (query_params request))
                  = Some mpd_url
                  /\ mpd_url <> ""
                  /\ tsk = PrebufferDashManifest mpd_url
                             (forwarded_headers
                                (Py.dict_of_items (query_params request))).
Proof.
  intros enable. unfold process_manifest.
  destruct (build_hls mpd_dict request key_id key) as [e | text];
    cbn [fst snd Py.rbind].
  - split; [reflexivity |]. intros tsk. split; [intros [] |].
    intros (_ & [text H] & _). discriminate H.
  - split; [reflexivity |]. intros tsk.
    destruct enable.
    + destruct (Py.dict_get "d" _) as [[| c url] |]; cbn [Py.get_or Py.truthy_str].
      * split; [intros [] |]. intros (_ & _ & u & [= <-] & Hne & _). congruence.
      * split.
        -- intros [<- | []]. repeat split; eauto.
           eexists. repeat split; discriminate.
        -- intros (_ & _ & u & [= <-] & _ & ->). now left.
      * split; [intros [] |]. intros (_ & _ & u & H & _). discriminate H.
    + split; [intros [] |]. intros (H & _). discriminate H.
Qed.

End ManifestRequest.

(** ** The target duration *)

Section FloatOrder.

Lemma bounded_exponent (m : positive) (e : Z) :
  bounded 53 1024 m e = true ->
  - unit_exponent <= e
  /\ Zpos (digits2_pos m) <= 53
  /\ (- unit_exponent < e -> Zpos (digits2_pos m) = 53).
Proof.
  unfold bounded, canonical_mantissa, fexp, emin, unit_exponent.
  intros [H _]%andb_prop. apply Z.eqb_eq in H. lia.
Qed.

Lemma mantissa_range (m : positive) (e : Z) :
  bounded 53 1024 m e = true ->
  Zpos m < 2 * 2 ^ 52 /\ (- unit_exponent < e -> 2 ^ 52 <= Zpos m).
Proof.
  intros (_ & Hd & Hn)%bounded_exponent.
  pose proof (digits2_pos_bounds m) as [Hlo Hhi].
  split.
  - assert (H : 2 ^ Zpos (digits2_pos m) <= 2 ^ 53)
      by (apply Z.pow_le_mono_r; lia).
    change (2 * 2 ^ 52) with (2 ^ 53). lia.
  - intros He. rewrite (Hn He) in Hlo. exact Hlo.
Qed.

Lemma unit_power_pos (e : Z) :
  - unit_exponent <= e -> 0 < 2 ^ (e + unit_exponent).
Proof. intros H. apply Z.pow_pos_nonneg; lia. Qed.

(** Of two canonical floats of the same sign, the one with the larger
    exponent has the larger magnitude. *)
Lemma larger_exponent_larger_value (m1 m2 : positive) (e1 e2 : Z) :
  bounded 53 1024 m1 e1 = true -> bounded 53 1024 m2 e2 = true ->
  e1 < e2 ->
  Zpos m1 * 2 ^ (e1 + unit_exponent) < Zpos m2 * 2 ^ (e2 + unit_exponent).
Proof.
  intros H1 H2 Hlt.
  destruct (bounded_exponent m1 e1 H1) as (Hmin & _ & _).
  destruct (mantissa_range m1 e1 H1) as [Hhi _].
  destruct (mantissa_range m2 e2 H2) as [_ Hlo].
  assert (Hlo' : 2 ^ 52 <= Zpos m2) by (apply Hlo; lia). clear Hlo.
  replace (e2 + unit_exponent) with ((e1 + unit_exponent) + (e2 - e1)) by lia.
  rewrite (Z.pow_add_r 2 (e1 + unit_exponent) (e2 - e1)) by lia.
  pose proof (unit_power_pos e1 Hmin) as Hp.
  assert (Hk : 2 ^ 1 <= 2 ^ (e2 - e1)) by (apply Z.pow_le_mono_r; lia).
  change (2 ^ 1) with 2 in Hk.
  assert (H52 : 0 < 2 ^ 52) by reflexivity.
  set (P := 2 ^ 52) in *. set (A := 2 ^ (e1 + unit_exponent)) in *.
  set (K := 2 ^ (e2 - e1)) in *. clearbody P A K.
  assert (Zpos m1 * A < (2 * P) * A) by (apply Z.mul_lt_mono_pos_r; lia).
  assert (2 * P <= Zpos m2 * K) by nia.
  assert ((2 * P) * A <= (Zpos m2 * K) * A) by (apply Z.mul_le_mono_nonneg_r; lia).
  lia.
Qed.

(** On canonical finite floats [SFcompare] is the comparison of the
    values. *)
Lemma SFcompare_units (a b : Py.float) :
  valid_binary 53 1024 a = true -> valid_binary 53 1024 b = true ->
  is_finite_float a = true -> is_finite_float b = true ->
  SFcompare a b = Some (float_units a ?= float_units b).
Proof.
  destruct a as [sa | sa | | sa ma ea], b as [sb | sb | | sb mb eb];
    try discriminate; cbn [valid_binary is_finite_float SFcompare float_units];
    intros Ha Hb _ _.
  - reflexivity.
  - destruct (bounded_exponent mb eb Hb) as (Hmin & _).
    pose proof (unit_power_pos eb Hmin) as Hp.
    f_equal. symmetry.
    destruct sb; cbn [Py.signed];
      [apply Z.compare_gt_iff | apply Z.compare_lt_iff]; nia.
  - destruct (bounded_exponent ma ea Ha) as (Hmin & _).
    pose proof (unit_power_pos ea Hmin) as Hp.
    f_equal. symmetry.
    destruct sa; cbn [Py.signed];
      [apply Z.compare_lt_iff | apply Z.compare_gt_iff]; nia.
  - destruct (bounded_exponent ma ea Ha) as (Hmina & _).
    destruct (bounded_exponent mb eb Hb) as (Hminb & _).
    pose proof (unit_power_pos ea Hmina) as Hpa.
    pose proof (unit_power_pos eb Hminb) as Hpb.
    f_equal. symmetry.
    destruct sa, sb; cbn [Py.signed].
    + destruct (Z.compare_spec ea eb) as [-> | Hlt | Hgt].
      * rewrite <- Zmult_compare_compat_r by lia. reflexivity.
      * apply Z.compare_gt_iff.
        pose proof (larger_exponent_larger_value ma mb ea eb Ha Hb Hlt).
        rewrite <- !Pos2Z.opp_pos, !Z.mul_opp_l. lia.
      * apply Z.compare_lt_iff.
        pose proof (larger_exponent_larger_value mb ma eb ea Hb Ha ltac:(lia)).
        rewrite <- !Pos2Z.opp_pos, !Z.mul_opp_l. lia.
    + apply Z.compare_lt_iff. nia.
    + apply Z.compare_gt_iff. nia.
    + destruct (Z.compare_spec ea eb) as [-> | Hlt | Hgt].
      * rewrite <- Zmult_compare_compat_r by lia. reflexivity.
      * apply Z.compare_lt_iff.
        now apply larger_exponent_larger_value.
      * apply Z.compare_gt_iff.
        apply larger_exponent_larger_value; [assumption | assumption | lia].
Qed.

Lemma SFltb_units (a b : Py.float) :
  valid_binary 53 1024 a = true -> valid_binary 53 1024 b = true ->
  is_finite_float a = true -> is_finite_float b = true ->
  SFltb a b = (float_units a <? float_units b).
Proof.
  intros Ha Hb Fa Fb. unfold SFltb, Z.ltb.
  now rewrite (SFcompare_units a b Ha Hb Fa Fb).
Qed.

(** [math.ceil] in terms of the value. *)
Lemma math_ceil_units (x : Py.float) :
  valid_binary 53 1024 x = true -> is_finite_float x = true ->
  Py.math_ceil x = Py.ok (- ((- float_units x) / 2 ^ unit_exponent)).
Proof.
  destruct x as [s | s | | s m e]; try discriminate;
    cbn [valid_binary is_finite_float Py.math_ceil float_units]; intros Hx _.
  - reflexivity.
  - destruct (bounded_exponent m e Hx) as (Hmin & _).
    f_equal. destruct (Z.leb_spec 0 e) as [He | He].
    + rewrite Z.pow_add_r by (unfold unit_exponent; lia).
      rewrite Z.mul_assoc, <- Z.mul_opp_l.
      rewrite Z.div_mul by (apply Z.pow_nonzero; unfold unit_exponent; lia).
      lia.
    + rewrite Z.shiftr_div_pow2 by lia.
      replace (2 ^ unit_exponent)
        with (2 ^ (- e) * 2 ^ (e + unit_exponent)).
      2:{ rewrite <- Z.pow_add_r by lia. f_equal. lia. }
      rewrite <- Z.mul_opp_l.
      rewrite Z.div_mul_cancel_r;
        [reflexivity | apply Z.pow_nonzero; lia | apply Z.pow_nonzero; lia].
Qed.

Lemma math_ceil_finite (x : Py.float) (c : Z) :
  Py.math_ceil x = Py.ok c -> is_finite_float x = true.
Proof. destruct x; cbn; (reflexivity || discriminate). Qed.

Lemma math_ceil_monotone (x y : Py.float) (cx cy : Z) :
  valid_binary 53 1024 x = true -> valid_binary 53 1024 y = true ->
  Py.math_ceil x = Py.ok cx -> Py.math_ceil y = Py.ok cy ->
  float_units x <= float_units y -> cx <= cy.
Proof.
  intros Vx Vy Hx Hy Hle.
  rewrite (math_ceil_units x Vx (math_ceil_finite x cx Hx)) in Hx.
  rewrite (math_ceil_units y Vy (math_ceil_finite y cy Hy)) in Hy.
  unfold Py.ok in Hx, Hy.
  assert (Ex : cx = - (- float_units x / 2 ^ unit_exponent)) by congruence.
  assert (Ey : cy = - (- float_units y / 2 ^ unit_exponent)) by congruence.
  clear Hx Hy.
  assert (H : (- float_units y) / 2 ^ unit_exponent
              <= (- float_units x) / 2 ^ unit_exponent).
  { apply Z.div_le_mono; [apply Z.pow_pos_nonneg; unfold unit_exponent; lia | lia]. }
  lia.
Qed.

Local Notation "'larger'" := (fun best y : Py.float => if SFltb best y then y else best).

Lemma float_max_nan (rest : list Py.float) :
  Py.float_max S754_nan rest = S754_nan.
Proof.
  unfold Py.float_max. induction rest as [| y rest IH]; [reflexivity | exact IH].
Qed.

Lemma float_max_infinity (rest : list Py.float) :
  Py.float_max (S754_infinity false) rest = S754_infinity false.
Proof.
  unfold Py.float_max. induction rest as [| y rest IH]; [reflexivity |].
  cbn [fold_left]. now destruct y as [s | [] | | s m e].
Qed.

(** The result of [max], when it is a number, is at least every number of
    the list. *)
Lemma float_max_upper (rest : list Py.float) :
  forall best : Py.float,
    valid_binary 53 1024 best = true ->
    Forall (fun y => valid_binary 53 1024 y = true) rest ->
    is_finite_float (Py.float_max best rest) = true ->
    forall y, In y (best :: rest) -> is_finite_float y = true ->
              float_units y <= float_units (Py.float_max best rest).
Proof.
  induction rest as [| z rest IH]; intros best Vb Vr Ffin y Hin Fy.
  - destruct Hin as [<- | []]. cbn. lia.
  - apply Forall_cons_iff in Vr as [Vz Vr].
    change (Py.float_max best (z :: rest))
      with (Py.float_max (if SFltb best z then z else best) rest) in *.
    destruct (SFltb best z) eqn:Hlt.
    + (* the new item replaces the best one *)
      assert (Fz : is_finite_float z = true).
      { destruct z as [s | [] | | s m e]; try reflexivity.
        - now destruct best as [? | [] | | [] ? ?].
        - rewrite float_max_infinity in Ffin. discriminate.
        - now destruct best. }
      pose proof (IH z Vz Vr Ffin) as Hup.
      destruct Hin as [<- | [<- | Hin]].
      * assert (Fb : is_finite_float best = true) by exact Fy.
        rewrite (SFltb_units best z Vb Vz Fb Fz) in Hlt.
        apply Z.ltb_lt in Hlt.
        specialize (Hup z (or_introl eq_refl) Fz). lia.
      * apply Hup; [now left | assumption].
      * apply Hup; [now right | assumption].
    + (* the best one stays *)
      pose proof (IH best Vb Vr Ffin) as Hup.
      destruct Hin as [<- | [<- | Hin]].
      * apply Hup; [now left | assumption].
      * assert (Fb : is_finite_float best = true).
        { destruct best as [s | [] | | s m e]; try reflexivity.
          - now destruct z.
          - rewrite float_max_infinity in Ffin. discriminate.
          - rewrite float_max_nan in Ffin. discriminate. }
        rewrite (SFltb_units best z Vb Vz Fb Fy) in Hlt.
        apply Z.ltb_ge in Hlt.
        specialize (Hup best (or_introl eq_refl) Fb). lia.
      * apply Hup; [now right | assumption].
Qed.

Lemma float_max_valid (rest : list Py.float) :
  forall best : Py.float,
    valid_binary 53 1024 best = true ->
    Forall (fun y => valid_binary 53 1024 y = true) rest ->
    valid_binary 53 1024 (Py.float_max best rest) = true.
Proof.
  induction rest as [| z rest IH]; intros best Vb Vr; [exact Vb |].
  apply Forall_cons_iff in Vr as [Vz Vr].
  change (Py.float_max best (z :: rest))
    with (Py.float_max (if SFltb best z then z else best) rest).
  apply IH; [now destruct (SFltb best z) | assumption].
Qed.

Lemma extinf_values_in (segs : list Segment) (x : Py.float) :
  In x (flat_map (fun f => match extinf f with Some x => [x] | None => [] end) segs)
  <-> exists s, In s segs /\ extinf s = Some x.
Proof.
  rewrite in_flat_map. split; intros (s & Hin & H); exists s; split; try assumption.
  - destruct (extinf s) as [x' |]; [| destruct H].
    destruct H as [-> | []]. reflexivity.
  - rewrite H. now left.
Qed.

(** The target duration is at least every duration of the segments it was
    computed from, rounded up. *)
Lemma target_duration_upper (segs : list Segment) (td : Z) :
  (forall s x, In s segs -> extinf s = Some x -> valid_binary 53 1024 x = true) ->
  target_duration_of segs = Py.ok td ->
  forall s x c, In s segs -> extinf s = Some x -> Py.math_ceil x = Py.ok c ->
                c <= td.
Proof.
  intros Hvalid Htd s x c Hs Hx Hc. unfold target_duration_of in Htd.
  assert (Hin : In x (flat_map (fun f => match extinf f with
                                         | Some x => [x] | None => [] end) segs))
    by (apply extinf_values_in; eauto).
  assert (Hall : Forall (fun y => valid_binary 53 1024 y = true)
                   (flat_map (fun f => match extinf f with
                                       | Some x => [x] | None => [] end) segs)).
  { apply Forall_forall. intros y (s' & Hs' & Hy)%extinf_values_in. eauto. }
  destruct (flat_map _ segs) as [| best rest]; [destruct Hin |].
  apply Forall_cons_iff in Hall as [Vb Vr].
  apply (math_ceil_monotone x (Py.float_max best rest));
    [eauto | now apply float_max_valid | assumption | assumption |].
  apply float_max_upper; try assumption.
  - exact (math_ceil_finite _ _ Htd).
  - exact (math_ceil_finite _ _ Hc).
Qed.

End FloatOrder.

Section TargetDuration.

Context {collaborators : Collaborators}.

Variables (mpd_dict : Mpd) (request : Request).

(** X19. The [#EXT-X-TARGETDURATION] of a media playlist is at least the
    duration of every segment of the first profile, rounded up to an
    integer. *)
Theorem target_duration_covers_first_profile :
  forall (p : Profile) (rest : list Profile) (t : list event)
         (lines : list hls_line) (td : Z),
    extinf_canonical p ->
    build_hls_playlist_lines mpd_dict (p :: rest) request = (t, inr lines) ->
    In (TargetDuration td) lines ->
    forall s x c, In s (segments p) -> extinf s = Some x ->
                  Py.math_ceil x = Py.ok c -> c <= td.
Proof.
  intros p rest t lines td Hvalid H Hin.
  apply media_playlist_shape in H
    as (header & is_live & _ & Hheader & _ & -> & _).
  assert (Hh : In (TargetDuration td) header).
  { cbn [app In] in Hin.
    destruct Hin as [Hin | [Hin | Hin]]; [discriminate | discriminate |].
    apply in_app_or in Hin as [Hin | Hin]; [exact Hin | exfalso].
    apply in_app_or in Hin as [Hin | Hin].
    - destruct (body_tags request (p :: rest)) as (_ & Hb & _).
      assert (Ht : existsb is_header_tag
                     (flat_map
                        (profile_lines (resolve_endpoint request "segment_endpoint")
                           (segment_base request)) (p :: rest)) = true).
      { apply existsb_exists. exists (TargetDuration td). now split. }
      rewrite Hb in Ht. discriminate Ht.
    - destruct is_live; [destruct Hin |].
      destruct Hin as [Hin | []]. discriminate Hin. }
  unfold playlist_header in Hheader.
  destruct (segments p) as [| first_segment more] eqn:Hsegs.
  { unfold Py.ok in Hheader. assert (E : header = []) by congruence.
    rewrite E in Hh. destruct Hh. }
  apply add_header_shape in Hheader as (td' & sq & live & Htd & _ & _ & ->).
  assert (E : td = td').
  { destruct Hh as [Hh | [Hh | [Hh | []]]]; [congruence | discriminate | discriminate]. }
  subst td'. intros s x c Hs Hx Hc. rewrite <- Hsegs in Hs.
  apply (target_duration_upper (segments p) td Hvalid Htd s x c); assumption.
Qed.

End TargetDuration.

Section LiveSequence.

Variables (mpd_dict : Mpd) (profile : Profile) (first_segment : Segment).

(** X18. In a live manifest a sequence derived from the time of the first
    segment never exceeds 100000, whatever the time and the duration are:
    a larger quotient is reduced modulo 100000. *)
Theorem live_sequence_is_bounded :
  forall t d sequence : Z,
    isLive mpd_dict = Some true ->
    (segment_template_start_number profile = None
     \/ exists n, segment_template_start_number profile = Some n /\ n < 1000) ->
    time first_segment = Some t ->
    duration_mpd_timescale first_segment = Some d -> 0 < d ->
    media_sequence mpd_dict profile first_segment = Py.ok sequence ->
    sequence <= 100000.
Proof.
  intros t d sequence Hlive Hstart Htime Hdur Hd. unfold media_sequence.
  assert (E : Py.truthy_int (segment_template_start_number profile)
              && (1000 <=? Py.get_or (segment_template_start_number profile) 0)
              = false).
  { destruct Hstart as [-> | (n & Hn & Hlt)]; [reflexivity |].
    rewrite (start_number_branch profile n Hn).
    destruct (Z.leb_spec 1000 n); [lia | reflexivity]. }
  rewrite E, Htime, Hdur, Hlive. cbn [Py.truthy_int Py.get_or].
  destruct (Z.eqb_spec d 0); [lia |]. destruct (Z.ltb_spec 0 d); [| lia].
  cbn [negb andb].
  destruct (Py.int_truediv t d) as [e | q]; cbn [Py.rbind]; [discriminate |].
  destruct (Py.math_floor q) as [e | c]; cbn [Py.rbind]; [discriminate |].
  destruct (Z.ltb_spec 100000 c) as [Hc | Hc]; cbn [andb]; unfold Py.ok; intros Hsq.
  - assert (Es : sequence = c mod 100000) by congruence.
    pose proof (Z.mod_pos_bound c 100000). lia.
  - assert (Es : sequence = c) by congruence. lia.
Qed.

End LiveSequence.

(** ** Closed instances of the further properties *)

Ltac pick_item :=
  vm_compute; repeat (first [left; reflexivity | right]).

(** The lines that a build is known to return. *)
Ltac with_lines H tac :=
  lazymatch type of H with
  | _ = inr ?l => tac l
  | _ = (_, inr ?l) => tac l
  end.

Lemma later_profile_replaces_earlier_witness :
  exists lines,
    build_hls_lines (collaborators := Sample.in_order)
      (Sample.vod [Sample.a1; Cases.a1_fr; Sample.v1])
      Sample.request None None = inr lines
    /\ exists is_default uri, In (Media "a1" is_default is_default "fr" uri) lines.
Proof.
  eassert (H : build_hls_lines (collaborators := Sample.in_order)
                 (Sample.vod [Sample.a1; Cases.a1_fr; Sample.v1])
                 Sample.request None None = inr _) by (vm_compute; reflexivity).
  eexists. split; [exact H |].
  assert (Hafter : forall p, In p [Sample.v1] -> id p <> id Cases.a1_fr)
    by (intros p [<- | []]; vm_compute; discriminate).
  destruct (proj2 (later_profile_replaces_earlier
                     (collaborators := Sample.in_order)
                     (Sample.vod [Sample.a1; Cases.a1_fr; Sample.v1])
                     Sample.request None None
                     [Sample.a1] [Sample.v1] Cases.a1_fr eq_refl Hafter)
              eq_refl _ H) as (is_default & Hin).
  exists is_default. eexists. exact Hin.
Defined.

Lemma playlist_url_parameters_witness :
  exists u ps,
    In ("v1", (Sample.v1, u))
      (video_profiles
         (group_profiles (collaborators := Sample.in_order)
            (Sample.vod [Sample.v1]) Cases.request_encrypted (Some "kid") None))
    /\ u = Sample.encode_in_order "https://proxy.test/playlist_endpoint" ps
             (Some tt)
    /\ Py.dict_get "profile_id" ps = Some "v1"
    /\ Py.dict_get "key_id" ps = Some "kid"
    /\ Py.dict_get "key" ps = Some ""
    /\ Py.dict_get "has_encrypted" ps = None
    /\ Py.dict_get "h_referer" ps = Some "http://origin.test/".
Proof.
  eassert (Hin : In ("v1", (Sample.v1, _))
                   (video_profiles
                      (group_profiles (collaborators := Sample.in_order)
                         (Sample.vod [Sample.v1]) Cases.request_encrypted
                         (Some "kid") None)))
    by (vm_compute; left; reflexivity).
  destruct (playlist_url_parameters (collaborators := Sample.in_order)
              (Sample.vod [Sample.v1]) Cases.request_encrypted (Some "kid") None
              "v1" Sample.v1 _ (or_introl Hin)) as (ps & Hu & Hk).
  eexists. exists ps. split; [exact Hin |]. split; [exact Hu |].
  repeat split; apply Hk.
Defined.

Lemma endlist_iff_on_demand_witness :
  exists t lines,
    build_hls_playlist_lines (collaborators := Sample.in_order)
      (Sample.vod [Sample.v1]) [Sample.v1] Sample.request = (t, inr lines)
    /\ filter is_endlist lines = [EndList]
    /\ exists front, lines = (front ++ [EndList])%list.
Proof.
  eassert (H : build_hls_playlist_lines (collaborators := Sample.in_order)
                 (Sample.vod [Sample.v1]) [Sample.v1] Sample.request
               = (_, inr _)) by (vm_compute; reflexivity).
  eexists. eexists. split; [exact H |].
  destruct (endlist_iff_on_demand (collaborators := Sample.in_order)
              (Sample.vod [Sample.v1]) Sample.request [Sample.v1] _ _ H)
    as [(_ & H1 & H2) | (Hl & _)]; [now split |].
  cbn in Hl. discriminate Hl.
Defined.

Lemma one_extinf_per_segment_witness :
  exists t lines,
    build_hls_playlist_lines (collaborators := Sample.in_order)
      (Sample.vod [Sample.v1; Sample.a1]) [Sample.v1; Sample.a1] Sample.request
    = (t, inr lines)
    /\ List.length (filter is_extinf lines) = 3%nat
    /\ In (added_segments_info 3) t.
Proof.
  eassert (H : build_hls_playlist_lines (collaborators := Sample.in_order)
                 (Sample.vod [Sample.v1; Sample.a1]) [Sample.v1; Sample.a1]
                 Sample.request = (_, inr _)) by (vm_compute; reflexivity).
  eexists. eexists. split; [exact H |].
  destruct (one_extinf_per_segment (collaborators := Sample.in_order)
              (Sample.vod [Sample.v1; Sample.a1]) Sample.request
              [Sample.v1; Sample.a1] _ _ H) as [H1 H2].
  split; [exact H1 |]. rewrite H1 in H2. exact H2.
Defined.

Lemma header_iff_first_profile_has_segments_witness :
  exists t lines,
    build_hls_playlist_lines (collaborators := Sample.in_order)
      (Sample.vod [Sample.v1; Sample.v1_empty]) [Sample.v1; Sample.v1_empty]
      Sample.request = (t, inr lines)
    /\ existsb is_header_tag lines = true.
Proof.
  eassert (H : build_hls_playlist_lines (collaborators := Sample.in_order)
                 (Sample.vod [Sample.v1; Sample.v1_empty])
                 [Sample.v1; Sample.v1_empty] Sample.request
               = (_, inr _)) by (vm_compute; reflexivity).
  eexists. eexists. split; [exact H |].
  exact (header_iff_first_profile_has_segments
           (collaborators := Sample.in_order)
           (Sample.vod [Sample.v1; Sample.v1_empty]) Sample.request
           [Sample.v1; Sample.v1_empty] _ _ H).
Defined.

Lemma segment_url_parameters_witness :
  exists t lines u,
    build_hls_playlist_lines (collaborators := Sample.in_order)
      (Sample.vod [Sample.v1]) [Sample.v1] Cases.request_encrypted
    = (t, inr lines)
    /\ In (Uri u) lines
    /\ exists p s ps,
         In p [Sample.v1] /\ In s (segments p)
         /\ u = Sample.encode_in_order "https://proxy.test/segment_endpoint" ps
                  (Some tt)
         /\ Py.dict_get "segment_url" ps = Some (media s)
         /\ Py.dict_get "d" ps = None
         /\ Py.dict_get "has_encrypted" ps = None.
Proof.
  eassert (H : build_hls_playlist_lines (collaborators := Sample.in_order)
                 (Sample.vod [Sample.v1]) [Sample.v1] Cases.request_encrypted
               = (_, inr _)) by (vm_compute; reflexivity).
  with_lines H ltac:(fun l =>
    eassert (Hin : In (Uri _) l) by (do 6 right; left; reflexivity)).
  destruct (segment_url_parameters (collaborators := Sample.in_order)
              (Sample.vod [Sample.v1]) Cases.request_encrypted [Sample.v1]
              _ _ _ H Hin) as (p & s & ps & Hp & Hs & Hu & Hk).
  eexists. eexists. eexists. split; [exact H |]. split; [exact Hin |].
  exists p, s, ps. split; [exact Hp |]. split; [exact Hs |].
  split; [exact Hu |]. repeat split; apply Hk.
Defined.

Lemma not_found_iff_no_profile_witness :
  process_playlist (collaborators := Sample.in_order)
    Sample.request (Sample.vod [Sample.v1; Sample.a1]) "v9" Sample.no_headers
  = ([], inl (Py.HTTPException 404 "Profile not found"))
  /\ exists t r,
       process_playlist (collaborators := Sample.in_order)
         Sample.request (Sample.vod [Sample.v1; Sample.a1]) "a1"
         Sample.no_headers = (t, inr r)
       /\ media_type r = "application/vnd.apple.mpegurl".
Proof.
  split.
  - apply (proj1 (not_found_iff_no_profile (collaborators := Sample.in_order)
                    Sample.request (Sample.vod [Sample.v1; Sample.a1]) "v9"
                    Sample.no_headers)).
    intros p [<- | [<- | []]]; vm_compute; discriminate.
  - destruct (proj2 (not_found_iff_no_profile (collaborators := Sample.in_order)
                       Sample.request (Sample.vod [Sample.v1; Sample.a1]) "a1"
                       Sample.no_headers)) as [E _].
    { exists Sample.a1. split; [right; left; reflexivity | reflexivity]. }
    rewrite E. eexists. eexists. split; vm_compute; reflexivity.
Defined.

Lemma skipped_profile_leaves_playlist_witness :
  snd (build_hls_playlist_lines (collaborators := Sample.in_order)
         (Sample.vod [Sample.v1; Sample.v1_empty; Sample.a1])
         ([Sample.v1] ++ Sample.v1_empty :: [Sample.a1]) Sample.request)
  = snd (build_hls_playlist_lines (collaborators := Sample.in_order)
           (Sample.vod [Sample.v1; Sample.v1_empty; Sample.a1])
           ([Sample.v1] ++ [Sample.a1]) Sample.request).
Proof.
  apply (skipped_profile_leaves_playlist (collaborators := Sample.in_order)
           (Sample.vod [Sample.v1; Sample.v1_empty; Sample.a1]) Sample.request
           [Sample.v1] Sample.v1_empty [Sample.a1]);
    [discriminate | reflexivity].
Defined.

Lemma media_sequence_exact_quotient_witness :
  media_sequence (Sample.live [Cases.timed]) Cases.timed
    (Sample.timed_segment 1400000 7) = Py.ok 0
  /\ media_sequence (Sample.vod [Cases.timed]) Cases.timed
       (Sample.timed_segment 1400000 7) = Py.ok 200000.
Proof.
  split.
  - apply (media_sequence_exact_quotient (Sample.live [Cases.timed]) Cases.timed
             (Sample.timed_segment 1400000 7) 1400000 7);
      [left; reflexivity | reflexivity | reflexivity | lia | lia].
  - apply (media_sequence_exact_quotient (Sample.vod [Cases.timed]) Cases.timed
             (Sample.timed_segment 1400000 7) 1400000 7);
      [left; reflexivity | reflexivity | reflexivity | lia | lia].
Defined.

Lemma live_sequence_is_bounded_witness :
  media_sequence (Sample.live [Cases.timed]) Cases.timed
    (Sample.timed_segment 700000 7) = Py.ok 100000
  /\ 100000 <= 100000.
Proof.
  assert (H : media_sequence (Sample.live [Cases.timed]) Cases.timed
                (Sample.timed_segment 700000 7) = Py.ok 100000)
    by (vm_compute; reflexivity).
  split; [exact H |].
  apply (live_sequence_is_bounded (Sample.live [Cases.timed]) Cases.timed
           (Sample.timed_segment 700000 7) 700000 7 100000);
    [reflexivity | left; reflexivity | reflexivity | reflexivity | lia | exact H].
Defined.

Lemma target_duration_covers_first_profile_witness :
  exists t lines,
    build_hls_playlist_lines (collaborators := Sample.in_order)
      (Sample.vod [Cases.uneven]) [Cases.uneven] Sample.request
    = (t, inr lines)
    /\ In (TargetDuration 4) lines
    /\ Py.math_ceil (Py.float_of_int 2) = Py.ok 2
    /\ 2 <= 4.
Proof.
  eassert (H : build_hls_playlist_lines (collaborators := Sample.in_order)
                 (Sample.vod [Cases.uneven]) [Cases.uneven] Sample.request
               = (_, inr _)) by (vm_compute; reflexivity).
  with_lines H ltac:(fun l =>
    assert (Hin : In (TargetDuration 4) l) by (right; right; left; reflexivity)).
  assert (Hc : Py.math_ceil (Py.float_of_int 2) = Py.ok 2)
    by (vm_compute; reflexivity).
  eexists. eexists. split; [exact H |]. split; [exact Hin |].
  split; [exact Hc |].
  apply (target_duration_covers_first_profile (collaborators := Sample.in_order)
           (Sample.vod [Cases.uneven]) Sample.request Cases.uneven [] _ _ 4
           ltac:(intros s x [<- | [<- | []]] [= <-]; reflexivity)
           H Hin (Sample.timed_segment 0 2) (Py.float_of_int 2) 2);
    [left; reflexivity | reflexivity | exact Hc].
Defined.

(** * The master playlist as text *)

(** ** Lines and attributes of a text *)

Section TextPieces.

Lemma glue_push (c : ascii) (xs ys : list string) :
  xs <> [] -> glue (push_char c xs) ys = push_char c (glue xs ys).
Proof.
  destruct xs as [| x xs]; [intros H; exfalso; now apply H | intros _].
  unfold glue. destruct xs as [| x' xs]; cbn; reflexivity.
Qed.

Lemma text_lines_nonempty (s : string) : text_lines s <> [].
Proof.
  destruct s as [| c s]; cbn [text_lines]; [discriminate |].
  destruct (Ascii.eqb c lf_char); [discriminate |].
  unfold push_char. destruct (text_lines s); discriminate.
Qed.

Lemma glue_nonempty (xs ys : list string) : glue xs ys <> [].
Proof. unfold glue. destruct (removelast xs); discriminate. Qed.

Lemma text_lines_app (a b : string) :
  text_lines (a ++ b) = glue (text_lines a) (text_lines b).
Proof.
  induction a as [| c a IH]; cbn [append text_lines].
  - unfold glue. cbn. pose proof (text_lines_nonempty b).
    destruct (text_lines b); [congruence | reflexivity].
  - destruct (Ascii.eqb c lf_char).
    + rewrite IH. unfold glue. cbn [removelast last].
      pose proof (text_lines_nonempty a).
      destruct (text_lines a) as [| x xs]; [congruence | reflexivity].
    + rewrite IH. symmetry. apply glue_push, text_lines_nonempty.
Qed.

Lemma attributes_from_nonempty (q : bool) (s : string) :
  attributes_from q s <> [].
Proof.
  destruct s as [| c s]; cbn [attributes_from]; [discriminate |].
  destruct (Ascii.eqb c comma_char && negb q); [discriminate |].
  unfold push_char. destruct (attributes_from _ s); discriminate.
Qed.

Lemma attributes_from_app (a b : string) :
  forall q,
    attributes_from q (a ++ b)
    = glue (attributes_from q a) (attributes_from (quoted_after q a) b).
Proof.
  induction a as [| c a IH]; intros q; cbn [append attributes_from quoted_after].
  - unfold glue. cbn. pose proof (attributes_from_nonempty q b).
    destruct (attributes_from q b); [congruence | reflexivity].
  - destruct (Ascii.eqb c comma_char && negb q).
    + rewrite IH. unfold glue. cbn [removelast last].
      pose proof (attributes_from_nonempty false a).
      destruct (attributes_from false a) as [| x xs]; [congruence | reflexivity].
    + rewrite IH. symmetry. apply glue_push, attributes_from_nonempty.
Qed.

Lemma no_char_app (c : ascii) (a b : string) :
  no_char c (a ++ b) = no_char c a && no_char c b.
Proof.
  induction a as [| c' a IH]; cbn; [reflexivity |].
  now rewrite IH, andb_assoc.
Qed.

Lemma text_lines_single (s : string) :
  no_char lf_char s = true -> text_lines s = [s].
Proof.
  induction s as [| c s IH]; cbn; [reflexivity |].
  intros [Hc Hs]%andb_prop. apply negb_true_iff in Hc. rewrite Hc, (IH Hs).
  reflexivity.
Qed.

(** Inside quotes, a value without a double quote is one piece and leaves
    the quotes open. *)
Lemma attributes_quoted_value (s : string) :
  no_char dq_char s = true ->
  attributes_from true s = [s] /\ quoted_after true s = true.
Proof.
  induction s as [| c s IH]; cbn; [now split |].
  intros [Hc Hs]%andb_prop. apply negb_true_iff in Hc.
  rewrite andb_false_r, Hc. destruct (IH Hs) as [-> ->]. now split.
Qed.

(** Outside quotes, a value without a comma and without a double quote is
    one piece and leaves the quotes closed. *)
Lemma attributes_bare_value (s : string) :
  no_char dq_char s = true -> no_char comma_char s = true ->
  attributes_from false s = [s] /\ quoted_after false s = false.
Proof.
  induction s as [| c s IH]; cbn; [now split |].
  intros [Hd Hs]%andb_prop [Hc Hs']%andb_prop.
  apply negb_true_iff in Hd, Hc. rewrite Hc, Hd. cbn [andb].
  destruct (IH Hs Hs') as [-> ->]. now split.
Qed.

Lemma append_empty_r (s : string) : s ++ "" = s.
Proof. induction s as [| c s IH]; cbn; [reflexivity | now rewrite IH]. Qed.

(** Splitting what [join] put together. *)
Lemma text_lines_join (first : string) (more : list string) :
  Forall (fun l => no_char lf_char l = true) (first :: more) ->
  text_lines (Py.join Py.LF (first :: more)) = first :: more.
Proof.
  revert first. induction more as [| second more IH]; intros first H.
  - cbn. apply text_lines_single. now inversion H.
  - apply Forall_cons_iff in H as [Hf Hrest].
    change (Py.join Py.LF (first :: second :: more))
      with (first ++ Py.LF ++ Py.join Py.LF (second :: more)).
    rewrite text_lines_app, (text_lines_single first Hf).
    change (Py.LF ++ Py.join Py.LF (second :: more))
      with (String lf_char (Py.join Py.LF (second :: more))).
    cbn [text_lines]. change (Ascii.eqb lf_char lf_char) with true. cbn iota.
    rewrite (IH second Hrest). unfold glue. cbn.
    now rewrite append_empty_r.
Qed.

End TextPieces.

(** ** The lines that [build_hls] writes *)

Section WrittenLines.

Lemma uint_string_no_char (c : ascii) (d : Decimal.uint) :
  In c [lf_char; dq_char; comma_char] ->
  no_char c (NilEmpty.string_of_uint d) = true.
Proof.
  intros [<- | [<- | [<- | []]]]; induction d; cbn; auto.
Qed.

(** [str(n)] is digits and a sign. *)
Lemma str_of_int_no_char (c : ascii) (n : Z) :
  In c [lf_char; dq_char; comma_char] ->
  no_char c (Py.str_of_int n) = true.
Proof.
  intros Hc. unfold Py.str_of_int, NilZero.string_of_int, NilZero.string_of_uint.
  pose proof (uint_string_no_char c) as H.
  destruct (Z.to_int n) as [d | d].
  - destruct d; try apply (H _ Hc).
    destruct Hc as [<- | [<- | [<- | []]]]; reflexivity.
  - assert (Hd : no_char c match d with
                           | Decimal.Nil => "0"
                           | _ => NilEmpty.string_of_uint d
                           end = true).
    { destruct d; try apply (H _ Hc).
      destruct Hc as [<- | [<- | [<- | []]]]; reflexivity. }
    cbn [no_char]. rewrite Hd.
    destruct Hc as [<- | [<- | [<- | []]]]; reflexivity.
Qed.

Lemma plain_chars (s : string) :
  plain s = true -> no_char lf_char s = true /\ no_char dq_char s = true.
Proof. unfold plain. now intros [? ?]%andb_prop. Qed.

Lemma bare_chars (s : string) :
  bare s = true ->
  no_char lf_char s = true /\ no_char dq_char s = true
  /\ no_char comma_char s = true.
Proof. unfold bare. intros [[? ?]%plain_chars ?]%andb_prop. auto. Qed.

Lemma prefix_append (a s : string) : String.prefix a (a ++ s) = true.
Proof.
  induction a as [| c a IH]; cbn [append String.prefix]; [now destruct s |].
  destruct (Ascii.ascii_dec c c) as [_ | n]; [exact IH | now destruct n].
Qed.

Lemma prefix_first_char (c : ascii) (a s : string) :
  String.prefix (String c EmptyString) s = false ->
  String.prefix (String c a) s = false.
Proof.
  destruct s as [| c' s]; cbn [String.prefix]; [reflexivity |].
  destruct (Ascii.ascii_dec c c'); [| reflexivity].
  destruct s; discriminate.
Qed.

Lemma media_tag_single_line (n d l u : string) :
  no_char lf_char n = true -> no_char lf_char d = true ->
  no_char lf_char l = true -> no_char lf_char u = true ->
  no_char lf_char (media_tag n d l u) = true.
Proof.
  intros Hn Hd Hl Hu. unfold media_tag.
  rewrite !no_char_app, Hn, Hd, Hl, Hu. reflexivity.
Qed.

Lemma stream_inf_tag_single_line (b w h : Z) (c f : string) (a : bool) :
  no_char lf_char c = true -> no_char lf_char f = true ->
  no_char lf_char (stream_inf_tag b w h c f a) = true.
Proof.
  intros Hc Hf. unfold stream_inf_tag.
  rewrite !no_char_app, Hc, Hf,
    !(str_of_int_no_char lf_char) by (now left).
  now destruct a.
Qed.

(** *** Attributes of the two tag lines *)

Ltac known_piece q a :=
  match goal with
  | H : attributes_from q a = _, H' : quoted_after q a = _ |- _ =>
      rewrite H, H'
  end.

Ltac closed_piece q a :=
  let r := eval vm_compute in (attributes_from q a) in
  change (attributes_from q a) with r;
  let r' := eval vm_compute in (quoted_after q a) in
  change (quoted_after q a) with r'.

(** One piece of a line, from the left: a value whose pieces are known, or
    a constant of the format. *)
Ltac attribute_step :=
  match goal with
  | |- context [attributes_from ?q (?a ++ ?b)] =>
      rewrite (attributes_from_app a b q);
      first [known_piece q a | closed_piece q a]
  end.

Ltac last_piece :=
  match goal with
  | |- context [attributes_from ?q ?a] =>
      first [ match goal with H : attributes_from q a = _ |- _ => rewrite H end
            | let r := eval vm_compute in (attributes_from q a) in
              change (attributes_from q a) with r ]
  end.

Ltac read_attributes :=
  repeat attribute_step; last_piece;
  cbn [glue removelast last hd tl List.app];
  rewrite ?append_empty_r.

Lemma media_tag_attributes (n d l u : string) :
  no_char dq_char n = true -> no_char dq_char l = true ->
  no_char dq_char u = true ->
  no_char dq_char d = true -> no_char comma_char d = true ->
  attributes (media_tag n d l u)
  = ["#EXT-X-MEDIA:TYPE=AUDIO"; "GROUP-ID=" ++ DQ ++ "audio" ++ DQ;
     "NAME=" ++ DQ ++ n ++ DQ; "DEFAULT=" ++ d; "AUTOSELECT=" ++ d;
     "LANGUAGE=" ++ DQ ++ l ++ DQ; "URI=" ++ DQ ++ u ++ DQ].
Proof.
  intros Hn Hl Hu Hd Hd'.
  destruct (attributes_quoted_value n Hn) as [An Qn].
  destruct (attributes_quoted_value l Hl) as [Al Ql].
  destruct (attributes_quoted_value u Hu) as [Au Qu].
  destruct (attributes_bare_value d Hd Hd') as [Ad Qd].
  unfold attributes, media_tag. read_attributes. reflexivity.
Qed.

Lemma stream_inf_tag_attributes (b w h : Z) (c f : string) (a : bool) :
  no_char dq_char c = true ->
  no_char dq_char f = true -> no_char comma_char f = true ->
  attributes (stream_inf_tag b w h c f a)
  = List.app
      ["#EXT-X-STREAM-INF:BANDWIDTH=" ++ Py.str_of_int b;
       "RESOLUTION=" ++ Py.str_of_int w ++ "x" ++ Py.str_of_int h;
       "CODECS=" ++ DQ ++ c ++ DQ; "FRAME-RATE=" ++ f]
      (if a then ["AUDIO=" ++ DQ ++ "audio" ++ DQ] else []).
Proof.
  intros Hc Hf Hf'.
  destruct (attributes_quoted_value c Hc) as [Ac Qc].
  destruct (attributes_bare_value f Hf Hf') as [Af Qf].
  assert (Hint : forall n, attributes_from false (Py.str_of_int n)
                           = [Py.str_of_int n]
                           /\ quoted_after false (Py.str_of_int n) = false).
  { intros n. apply attributes_bare_value; apply str_of_int_no_char;
      cbn; auto. }
  destruct (Hint b) as [Ab Qb]. destruct (Hint w) as [Aw Qw].
  destruct (Hint h) as [Ah Qh]. clear Hint.
  unfold attributes, stream_inf_tag.
  set (sb := Py.str_of_int b) in *. set (sw := Py.str_of_int w) in *.
  set (sh := Py.str_of_int h) in *. clearbody sb sw sh.
  destruct a; read_attributes; reflexivity.
Qed.

Lemma prefix_other (a b s : string) :
  String.prefix a b = false -> (String.length a <= String.length b)%nat ->
  String.prefix a (b ++ s) = false.
Proof.
  revert b. induction a as [| c a IH]; intros b; [now destruct b |].
  destruct b as [| c' b]; cbn [String.length]; [lia |].
  cbn [append String.prefix].
  destruct (Ascii.ascii_dec c c'); [| reflexivity].
  intros H Hlen. apply IH; [exact H | lia].
Qed.

(** Whether a piece starts with a key, decided on the constants of the
    format. *)
Ltac read_prefixes :=
  repeat match goal with
    | |- context [String.prefix ?a (?a ++ ?s)] => rewrite (prefix_append a s)
    | |- context [String.prefix ?a (?b ++ ?s)] =>
        rewrite (prefix_other a b s eq_refl) by (cbn; lia)
    | |- context [String.prefix ?a ?b] =>
        let r := eval vm_compute in (String.prefix a b) in
        change (String.prefix a b) with r
    end;
  cbv iota.

(** The attributes of an [#EXT-X-MEDIA] line under the keys that the
    statements read. *)
Lemma media_tag_named (n d l u : string) :
  no_char dq_char n = true -> no_char dq_char l = true ->
  no_char dq_char u = true ->
  no_char dq_char d = true -> no_char comma_char d = true ->
  attributes_named "NAME" (media_tag n d l u) = ["NAME=" ++ DQ ++ n ++ DQ]
  /\ attributes_named "DEFAULT" (media_tag n d l u) = ["DEFAULT=" ++ d]
  /\ attributes_named "AUTOSELECT" (media_tag n d l u) = ["AUTOSELECT=" ++ d].
Proof.
  intros Hn Hl Hu Hd Hd'. unfold attributes_named.
  rewrite (media_tag_attributes n d l u Hn Hl Hu Hd Hd').
  change ("NAME" ++ "=") with "NAME=".
  change ("DEFAULT" ++ "=") with "DEFAULT=".
  change ("AUTOSELECT" ++ "=") with "AUTOSELECT=".
  cbn [filter]. read_prefixes. repeat split.
Qed.

(** The audio attribute of an [#EXT-X-STREAM-INF] line. *)
Lemma stream_inf_tag_named (b w h : Z) (c f : string) (a : bool) :
  no_char dq_char c = true ->
  no_char dq_char f = true -> no_char comma_char f = true ->
  attributes_named "AUDIO" (stream_inf_tag b w h c f a)
  = if a then ["AUDIO=" ++ DQ ++ "audio" ++ DQ] else [].
Proof.
  intros Hc Hf Hf'. unfold attributes_named.
  rewrite (stream_inf_tag_attributes b w h c f a Hc Hf Hf').
  change ("AUDIO" ++ "=") with "AUDIO=".
  destruct a; cbn [filter List.app]; read_prefixes; reflexivity.
Qed.

End WrittenLines.

(** ** From the lines to the text *)

Section MasterText.

Context {collaborators : Collaborators}.

Variables (mpd_dict : Mpd) (request : Request) (key_id key : option string).

Local Notation "'audio_entries'" :=
  (Py.dict_values (master_group is_audio_profile mpd_dict request key_id key)).
Local Notation "'video_entries'" :=
  (Py.dict_values (master_group is_video_profile mpd_dict request key_id key)).

Hypothesis strings_are_plain : strings_plain mpd_dict request key_id key = true.

Lemma profile_plain (p : Profile) :
  In p (profiles mpd_dict) ->
  plain (id p) = true /\ plain (Py.get_or (lang p) "und") = true
  /\ plain (Py.get_or (codecs p) "") = true
  /\ bare (Py.get_or (frameRate p) "") = true
  /\ plain (playlist_url request key_id key p) = true
  /\ String.prefix "#" (playlist_url request key_id key p) = false.
Proof.
  intros Hin. pose proof strings_are_plain as H.
  unfold strings_plain in H. rewrite forallb_forall in H.
  specialize (H p Hin). unfold profile_strings_plain in H.
  apply andb_prop in H as [H H6]. apply andb_prop in H as [H H5].
  apply andb_prop in H as [H H4]. apply andb_prop in H as [H H3].
  apply andb_prop in H as [H1 H2]. apply negb_true_iff in H6.
  repeat split; assumption.
Qed.

(** An entry of a group holds a profile of the manifest and the URL of its
    playlist. *)
Lemma group_entry_profile (keep : Profile -> bool) (e : Profile * string) :
  In e (Py.dict_values (master_group keep mpd_dict request key_id key)) ->
  In (fst e) (profiles mpd_dict) /\ keep (fst e) = true
  /\ snd e = playlist_url request key_id key (fst e).
Proof.
  unfold Py.dict_values. intros ([k e'] & E & Hin)%in_map_iff.
  cbn [snd] in E. subst e'.
  apply master_group_entries in Hin as (p & Hp & Hkeep & E).
  assert (Ep : fst e = p).
  { unfold master_entry, group_entry in E. now injection E as _ ->. }
  unfold playlist_url. rewrite Ep, <- E. auto.
Qed.

Lemma render_media_line (item : nat * (Profile * string)) :
  render (media_line item) = media_text item.
Proof. destruct item as [i [p u]]. reflexivity. Qed.

Lemma render_stream_lines (audio : Py.dict (Profile * string))
  (e : Profile * string) :
  map render (stream_lines audio e) = stream_texts (Py.truthy_dict audio) e.
Proof.
  unfold stream_lines, stream_texts.
  destruct (bandwidth (fst e)), (width (fst e)), (height (fst e)),
    (codecs (fst e)), (frameRate (fst e)); reflexivity.
Qed.

Lemma enumerate_from_entry {A} (n i : nat) (x : A) (xs : list A) :
  In (i, x) (enumerate_from n xs) -> In x xs.
Proof.
  revert n. induction xs as [| y xs IH]; intros n; cbn; [tauto |].
  intros [[= _ <-] | H]; [now left | right; eauto].
Qed.

Lemma media_text_single_line (item : nat * (Profile * string)) :
  In item (enumerate audio_entries) ->
  no_char lf_char (media_text item) = true.
Proof.
  destruct item as [i [p u]]. intros Hin%enumerate_from_entry.
  destruct (group_entry_profile _ _ Hin) as (Hp & _ & Eu).
  cbn [fst snd] in *.
  destruct (profile_plain p Hp)
    as ([Hid _]%plain_chars & [Hl _]%plain_chars & _ & _
        & [Hu _]%plain_chars & _).
  unfold media_text. apply media_tag_single_line; try assumption.
  - now destruct (Nat.eqb i 0).
  - now rewrite Eu.
Qed.

Lemma stream_texts_single_line (a : bool) (e : Profile * string) (l : string) :
  In e video_entries -> In l (stream_texts a e) ->
  no_char lf_char l = true.
Proof.
  intros Hin Hl. destruct (group_entry_profile _ _ Hin) as (Hp & _ & Eu).
  destruct (profile_plain (fst e) Hp)
    as (_ & _ & [Hc _]%plain_chars & (Hf & _ & _)%bare_chars
        & [Hu _]%plain_chars & _).
  unfold stream_texts in Hl.
  destruct (bandwidth (fst e)), (width (fst e)), (height (fst e)),
    (codecs (fst e)) as [c |], (frameRate (fst e)) as [f |];
    try contradiction.
  cbn [Py.get_or] in Hc, Hf.
  destruct Hl as [<- | [<- | []]].
  - now apply stream_inf_tag_single_line.
  - now rewrite Eu.
Qed.

(** The text that [build_hls] returns, read back line by line: the two
    fixed lines, the line of every audio entry, the two lines of every
    video entry. *)
Lemma master_text_lines (text : string) :
  build_hls mpd_dict request key_id key = inr text ->
  text_lines text
  = "#EXTM3U" :: "#EXT-X-VERSION:6"
    :: (map media_text (enumerate audio_entries)
        ++ flat_map (stream_texts (Py.truthy_dict
                       (master_group is_audio_profile mpd_dict request
                          key_id key)))
             video_entries)%list.
Proof.
  unfold build_hls. rewrite master_lines_shape. cbn zeta.
  destruct (first_missing_key _); [discriminate |].
  unfold Py.ok. cbn [Py.rbind]. intros E.
  assert (Et : text
               = playlist_text
                   ([ExtM3U; Version6]
                    ++ map media_line (enumerate audio_entries)
                    ++ flat_map
                         (stream_lines
                            (master_group is_audio_profile mpd_dict request
                               key_id key))
                         video_entries)) by congruence.
  clear E. subst text. unfold playlist_text.
  cbn [List.app map]. rewrite map_app, map_map.
  rewrite (map_ext _ _ render_media_line).
  rewrite flat_map_concat_map, concat_map, map_map.
  rewrite (map_ext _ _ (render_stream_lines _)).
  rewrite <- flat_map_concat_map.
  change (render ExtM3U) with "#EXTM3U".
  change (render Version6) with "#EXT-X-VERSION:6".
  apply text_lines_join.
  constructor; [reflexivity |]. constructor; [reflexivity |].
  apply Forall_app. split; apply Forall_forall.
  - intros l (item & <- & Hin)%in_map_iff.
    now apply media_text_single_line.
  - intros l (e & Hin & Hl)%in_flat_map.
    exact (stream_texts_single_line _ e l Hin Hl).
Qed.

End MasterText.

(** ** What a player reads in the master playlist *)

Section MasterTextFacts.

Context {collaborators : Collaborators}.

Variables (mpd_dict : Mpd) (request : Request) (key_id key : option string).

Local Notation "'audio_group'" :=
  (master_group is_audio_profile mpd_dict request key_id key).
Local Notation "'video_group'" :=
  (master_group is_video_profile mpd_dict request key_id key).

Hypothesis strings_are_plain : strings_plain mpd_dict request key_id key = true.

Lemma prefix_weaken (a b s : string) :
  String.prefix a b = true -> String.prefix a (b ++ s) = true.
Proof.
  revert b. induction a as [| c a IH]; intros b; [now destruct (b ++ s) |].
  destruct b as [| c' b]; cbn [append String.prefix]; [discriminate |].
  destruct (Ascii.ascii_dec c c'); [apply IH | discriminate].
Qed.

Lemma media_text_is_media (item : nat * (Profile * string)) :
  is_media_text (media_text item) = true
  /\ is_stream_inf_text (media_text item) = false.
Proof.
  destruct item as [i [p u]].
  unfold is_media_text, is_stream_inf_text, media_text, media_tag. split.
  - now apply prefix_weaken.
  - apply prefix_other; [reflexivity | cbn; lia].
Qed.

Lemma stream_texts_kinds (a : bool) (e : Profile * string) :
  In e (Py.dict_values video_group) ->
  filter is_media_text (stream_texts a e) = []
  /\ filter is_stream_inf_text (stream_texts a e)
     = match stream_texts a e with
       | tag :: _ => [tag]
       | [] => []
       end.
Proof.
  intros Hin.
  destruct (group_entry_profile mpd_dict request key_id key _ _ Hin)
    as (Hp & _ & Eu).
  destruct (profile_plain mpd_dict request key_id key strings_are_plain
              (fst e) Hp) as (_ & _ & _ & _ & _ & Hu).
  rewrite <- Eu in Hu. unfold stream_texts.
  destruct (bandwidth (fst e)) as [b |], (width (fst e)) as [w |],
    (height (fst e)) as [h |], (codecs (fst e)) as [c |],
    (frameRate (fst e)) as [f |]; try (split; reflexivity).
  assert (Hm : is_media_text (stream_inf_tag b w h c f a) = false)
    by (apply prefix_other; [reflexivity | cbn; lia]).
  assert (Hs : is_stream_inf_text (stream_inf_tag b w h c f a) = true)
    by (now apply prefix_weaken).
  assert (Hum : is_media_text (snd e) = false)
    by (now apply prefix_first_char).
  assert (Hus : is_stream_inf_text (snd e) = false)
    by (now apply prefix_first_char).
  cbn [filter]. rewrite Hm, Hs, Hum, Hus. now split.
Qed.

(** The [#EXT-X-MEDIA] lines of the text are the lines of the audio
    entries, in their order. *)
Lemma media_lines_of_text (text : string) :
  build_hls mpd_dict request key_id key = inr text ->
  filter is_media_text (text_lines text)
  = map media_text (enumerate (Py.dict_values audio_group)).
Proof.
  intros H.
  rewrite (master_text_lines mpd_dict request key_id key strings_are_plain
             text H).
  cbn [filter]. change (is_media_text "#EXTM3U") with false.
  change (is_media_text "#EXT-X-VERSION:6") with false. cbv iota.
  rewrite filter_app.
  assert (Hv : forall entries,
             (forall e, In e entries -> In e (Py.dict_values video_group)) ->
             filter is_media_text
               (flat_map (stream_texts (Py.truthy_dict audio_group)) entries)
             = []).
  { induction entries as [| e entries IH]; intros Hall; [reflexivity |].
    cbn [flat_map]. rewrite filter_app.
    rewrite (proj1 (stream_texts_kinds _ e (Hall e (or_introl eq_refl)))).
    apply IH. intros e' He'. apply Hall. now right. }
  rewrite (Hv _ (fun e He => He)), app_nil_r.
  induction (enumerate (Py.dict_values audio_group)) as [| item items IH];
    [reflexivity |].
  cbn [map filter]. rewrite (proj1 (media_text_is_media item)).
  now rewrite IH.
Qed.

(** The attributes of the line of an audio entry. *)
Lemma media_text_named (i : nat) (e : Profile * string) :
  In e (Py.dict_values audio_group) ->
  attributes_named "NAME" (media_text (i, e))
  = ["NAME=" ++ DQ ++ id (fst e) ++ DQ]
  /\ attributes_named "DEFAULT" (media_text (i, e))
     = ["DEFAULT=" ++ (if Nat.eqb i 0 then "YES" else "NO")]
  /\ attributes_named "AUTOSELECT" (media_text (i, e))
     = ["AUTOSELECT=" ++ (if Nat.eqb i 0 then "YES" else "NO")].
Proof.
  intros Hin.
  destruct (group_entry_profile mpd_dict request key_id key _ _ Hin)
    as (Hp & _ & Eu).
  destruct (profile_plain mpd_dict request key_id key strings_are_plain
              (fst e) Hp)
    as ([_ Hid]%plain_chars & [_ Hl]%plain_chars & _ & _
        & [_ Hu]%plain_chars & _).
  rewrite <- Eu in Hu. destruct e as [p u]. cbn [fst snd] in *.
  unfold media_text.
  apply media_tag_named; try assumption; now destruct (Nat.eqb i 0).
Qed.

Lemma later_media_lines (i : nat) (entries : list (Profile * string)) :
  i <> 0%nat ->
  (forall e, In e entries -> In e (Py.dict_values audio_group)) ->
  Forall (fun line =>
            attributes_named "DEFAULT" line = ["DEFAULT=NO"]
            /\ attributes_named "AUTOSELECT" line = ["AUTOSELECT=NO"])
    (map media_text (enumerate_from i entries)).
Proof.
  revert i. induction entries as [| e entries IH]; intros i Hi Hall;
    cbn [enumerate_from map]; constructor.
  - destruct (media_text_named i e (Hall e (or_introl eq_refl)))
      as (_ & Hd & Ha).
    destruct (Nat.eqb_spec i 0); [contradiction | now split].
  - apply IH; [lia | intros e' He'; apply Hall; now right].
Qed.

Lemma entry_line (i : nat) (entries : list (Profile * string))
  (e : Profile * string) :
  In e entries ->
  exists j, In (media_text (j, e)) (map media_text (enumerate_from i entries)).
Proof.
  revert i. induction entries as [| e0 entries IH]; intros i; [intros [] |].
  intros [-> | Hin]; [exists i; now left |].
  destruct (IH (S i) Hin) as [j Hj]. exists j. now right.
Qed.

End MasterTextFacts.

Section DefaultAudioLine.

Context {collaborators : Collaborators}.

Variables (mpd_dict : Mpd) (request : Request) (key_id key : option string).

(** C7, as the code has it. When the strings written into the playlist
    hold no line feed and no double quote and no URL starts like a tag,
    the text that [build_hls] returns has no [#EXT-X-MEDIA] line when no
    profile is an audio profile.  Otherwise its first [#EXT-X-MEDIA] line
    is named after the first audio profile of the manifest and is the one
    line with [DEFAULT=YES] and [AUTOSELECT=YES]: every other
    [#EXT-X-MEDIA] line has [DEFAULT=NO] and [AUTOSELECT=NO], and every
    audio profile with another id has such a line under its name. *)
Theorem one_default_audio_track :
  forall text : string,
    strings_plain mpd_dict request key_id key = true ->
    build_hls mpd_dict request key_id key = inr text ->
    match filter is_audio_profile (profiles mpd_dict) with
    | [] => filter is_media_text (text_lines text) = []
    | first_audio :: _ =>
        exists first others,
          filter is_media_text (text_lines text) = first :: others
          /\ attributes_named "NAME" first
             = ["NAME=" ++ DQ ++ id first_audio ++ DQ]
          /\ attributes_named "DEFAULT" first = ["DEFAULT=YES"]
          /\ attributes_named "AUTOSELECT" first = ["AUTOSELECT=YES"]
          /\ Forall (fun line =>
                       attributes_named "DEFAULT" line = ["DEFAULT=NO"]
                       /\ attributes_named "AUTOSELECT" line
                          = ["AUTOSELECT=NO"]) others
          /\ forall q,
               In q (profiles mpd_dict) -> is_audio_profile q = true ->
               id q <> id first_audio ->
               exists line,
                 In line others
                 /\ attributes_named "NAME" line
                    = ["NAME=" ++ DQ ++ id q ++ DQ]
    end.
Proof.
  intros text Hplain H.
  rewrite (media_lines_of_text mpd_dict request key_id key Hplain text H).
  pose proof (groups_first_audio mpd_dict request key_id key) as Hfirst.
  destruct (groups_closed mpd_dict request key_id key) as [_ Ea].
  rewrite Ea in Hfirst. clear Ea.
  pose proof (master_group_names mpd_dict request key_id key is_audio_profile)
    as Hnames.
  pose proof (fun k => master_group_keys mpd_dict request key_id key
                         is_audio_profile k) as Hkeys.
  pose proof (media_text_named mpd_dict request key_id key Hplain) as Hattr.
  pose proof (later_media_lines mpd_dict request key_id key Hplain) as Hlater.
  destruct (filter is_audio_profile (profiles mpd_dict)) as [| a rest].
  - now rewrite Hfirst.
  - destruct Hfirst as (e & more & E). rewrite E in *.
    cbn [Py.dict_values Py.dict_keys map fst snd] in *.
    injection Hnames as Hid Hnames.
    unfold enumerate. cbn [enumerate_from map].
    exists (media_text (0%nat, e)),
      (map media_text (enumerate_from 1 (map snd more))).
    destruct (Hattr 0%nat e (or_introl eq_refl)) as (Hn & Hd & Hs).
    rewrite Hid in Hn.
    split; [reflexivity |]. split; [exact Hn |]. split; [exact Hd |].
    split; [exact Hs |]. split.
    + apply Hlater; [lia | intros e' He'; now right].
    + intros q Hq Haudio Hne.
      assert (Hk : In (id q) (id a :: map fst more))
        by (apply Hkeys; eauto).
      destruct Hk as [Hk | Hk]; [congruence |].
      rewrite <- Hnames in Hk.
      apply in_map_iff in Hk as (e' & He' & Hin').
      destruct (entry_line 1 _ e' Hin') as [j Hj].
      exists (media_text (j, e')). split; [exact Hj |].
      destruct (Hattr j e' (or_intror Hin')) as (Hn' & _ & _).
      now rewrite He' in Hn'.
Qed.

End DefaultAudioLine.


Section MuxedProfile.

Context {collaborators : Collaborators}.

Variables (mpd_dict : Mpd) (request : Request) (key_id key : option string).

Local Notation "'groups'" := (group_profiles mpd_dict request key_id key).




End MuxedProfile.


Section MasterTextAttributes.

Context {collaborators : Collaborators}.

Variables (mpd_dict : Mpd) (request : Request) (key_id key : option string).

Local Notation "'audio_group'" :=
  (master_group is_audio_profile mpd_dict request key_id key).
Local Notation "'video_group'" :=
  (master_group is_video_profile mpd_dict request key_id key).

(** X3. When the strings written into the playlist are plain, every
    [#EXT-X-STREAM-INF] line of the text that [build_hls] returns has the
    one attribute [AUDIO="audio"] when the manifest has an audio profile,
    and no attribute under the key [AUDIO] when it has none. *)
Theorem audio_attribute_iff_audio_profile :
  forall text line : string,
    strings_plain mpd_dict request key_id key = true ->
    build_hls mpd_dict request key_id key = inr text ->
    In line (text_lines text) -> is_stream_inf_text line = true ->
    attributes_named "AUDIO" line
    = if existsb is_audio_profile (profiles mpd_dict)
      then ["AUDIO=" ++ DQ ++ "audio" ++ DQ]
      else [].
Proof.
  intros text line Hplain H Hin Hs.
  rewrite (master_text_lines mpd_dict request key_id key Hplain text H) in Hin.
  destruct Hin as [<- | [<- | Hin]]; [discriminate Hs | discriminate Hs |].
  apply in_app_or in Hin as [Hin | Hin].
  - apply in_map_iff in Hin as (item & <- & _).
    rewrite (proj2 (media_text_is_media item)) in Hs. discriminate Hs.
  - apply in_flat_map in Hin as (e & He & Hin).
    destruct (group_entry_profile mpd_dict request key_id key _ _ He)
      as (Hp & _ & Eu).
    destruct (profile_plain mpd_dict request key_id key Hplain (fst e) Hp)
      as (_ & _ & [_ Hc]%plain_chars & (_ & Hf & Hf')%bare_chars & _ & Hu).
    rewrite <- Eu in Hu. unfold stream_texts in Hin.
    destruct (bandwidth (fst e)) as [b |], (width (fst e)) as [w |],
      (height (fst e)) as [h |], (codecs (fst e)) as [c |],
      (frameRate (fst e)) as [f |]; try contradiction.
    cbn [Py.get_or] in Hc, Hf, Hf'.
    destruct Hin as [<- | [<- | []]].
    + rewrite (stream_inf_tag_named b w h c f _ Hc Hf Hf').
      now rewrite master_group_empty.
    + unfold is_stream_inf_text in Hs.
      rewrite (prefix_first_char _ _ _ Hu) in Hs. discriminate Hs.
Qed.

Lemma names_of_media_texts (i : nat) (entries : list (Profile * string)) :
  strings_plain mpd_dict request key_id key = true ->
  (forall e, In e entries -> In e (Py.dict_values audio_group)) ->
  map (attributes_named "NAME") (map media_text (enumerate_from i entries))
  = map (fun name => ["NAME=" ++ DQ ++ name ++ DQ])
      (map (fun e => id (fst e)) entries).
Proof.
  intros Hplain. revert i.
  induction entries as [| e entries IH]; intros i Hall; [reflexivity |].
  cbn [enumerate_from map].
  destruct (media_text_named mpd_dict request key_id key Hplain i e
              (Hall e (or_introl eq_refl))) as (-> & _ & _).
  f_equal. apply IH. intros e' He'. apply Hall. now right.
Qed.

(** X4. When the strings written into the playlist are plain, the text
    that [build_hls] returns has one [#EXT-X-MEDIA] line per id of an
    audio profile: each line has one [NAME] attribute, no two lines have
    the same, and the names are the ids of the audio profiles. *)
Theorem one_media_line_per_audio_id :
  forall text : string,
    strings_plain mpd_dict request key_id key = true ->
    build_hls mpd_dict request key_id key = inr text ->
    exists names,
      map (attributes_named "NAME") (filter is_media_text (text_lines text))
      = map (fun name => ["NAME=" ++ DQ ++ name ++ DQ]) names
      /\ NoDup names
      /\ forall name,
           In name names
           <-> exists p, In p (profiles mpd_dict)
                         /\ is_audio_profile p = true /\ id p = name.
Proof.
  intros text Hplain H. exists (Py.dict_keys audio_group).
  rewrite (media_lines_of_text mpd_dict request key_id key Hplain text H).
  unfold enumerate.
  rewrite (names_of_media_texts 0 _ Hplain (fun e He => He)).
  rewrite master_group_names. split; [reflexivity |]. split.
  - apply dict_of_items_keys_nodup.
  - intros name. apply master_group_keys.
Qed.

End MasterTextAttributes.

(** * Two calls of the master playlist builder *)

Section HeapFacts.

Lemma read_last (h : Heap.heap) (d : Py.dict string) :
  Heap.read (List.length h) (h ++ [d])%list = Some d.
Proof.
  unfold Heap.read. rewrite nth_error_app2 by lia.
  now rewrite Nat.sub_diag.
Qed.

Lemma write_last (h : Heap.heap) (d d' : Py.dict string) :
  Heap.write (List.length h) d' (h ++ [d])%list = (h ++ [d'])%list.
Proof. induction h as [| x h IH]; cbn; [reflexivity | now rewrite IH]. Qed.

(** A dictionary allocated by a call leaves the ones alive before as they
    were. *)
Lemma read_older (h : Heap.heap) (d d' : Py.dict string) (a : Heap.ref) :
  Heap.read a h = Some d -> Heap.read a (h ++ [d'])%list = Some d.
Proof.
  unfold Heap.read. intros H.
  rewrite nth_error_app1; [exact H |].
  apply nth_error_Some. congruence.
Qed.

End HeapFacts.

Section TwoCalls.

Context {collaborators : Collaborators}.

Variables (mpd_dict : Mpd) (request : Request) (key_id key : option string).

(** A step of the loop on the heap does to the copy what [group_profile]
    does to its parameters. *)
Lemma group_profile_at_step (proxy_url : string) (has_encrypted : bool)
  (h : Heap.heap) (ps : Py.dict string)
  (video audio : Py.dict (Profile * string)) (p : Profile) :
  group_profile_at proxy_url has_encrypted key_id key (List.length h)
    ((h ++ [ps])%list, (video, audio)) p
  = let g := group_profile proxy_url has_encrypted key_id key
               (mkGrouping ps video audio) p in
    ((h ++ [params g])%list, (video_profiles g, audio_profiles g)).
Proof.
  unfold group_profile_at, group_profile, Heap.content.
  rewrite read_last. cbn [Py.get_or params video_profiles audio_profiles].
  rewrite write_last, read_last. cbn [Py.get_or].
  destruct (Py.str_contains "video" (mimeType p)); [reflexivity |].
  destruct (Py.str_contains "audio" (mimeType p)); reflexivity.
Qed.

Lemma grouping_at (proxy_url : string) (has_encrypted : bool)
  (h : Heap.heap) (l : list Profile) :
  forall (ps : Py.dict string) (video audio : Py.dict (Profile * string)),
    fold_left
      (group_profile_at proxy_url has_encrypted key_id key (List.length h))
      l ((h ++ [ps])%list, (video, audio))
    = let g := fold_left (group_profile proxy_url has_encrypted key_id key)
                 l (mkGrouping ps video audio) in
      ((h ++ [params g])%list, (video_profiles g, audio_profiles g)).
Proof.
  induction l as [| p l IH]; intros ps video audio; [reflexivity |].
  cbn [fold_left]. rewrite group_profile_at_step. cbn zeta.
  destruct (group_profile proxy_url has_encrypted key_id key
              (mkGrouping ps video audio) p) as [ps' video' audio'].
  cbn [params video_profiles audio_profiles]. apply IH.
Qed.

(** A call allocates one dictionary and returns what [build_hls]
    returns. *)
Lemma build_hls_at_outcome (h : Heap.heap) (r : Heap.ref) :
  Heap.read r h = Some (Py.dict_of_items (query_params request)) ->
  exists final,
    build_hls_at mpd_dict request r key_id key h
    = ((h ++ [final])%list, build_hls mpd_dict request key_id key).
Proof.
  intros Hr. unfold build_hls_at, Heap.alloc, Heap.content.
  rewrite Hr. cbn [Py.get_or]. rewrite read_last. cbn [Py.get_or].
  unfold build_hls, build_hls_lines, group_profiles.
  destruct (pop_has_encrypted _) as [has_encrypted popped].
  rewrite write_last, grouping_at. cbn zeta.
  eexists. reflexivity.
Qed.

(** C9. Two calls of [build_hls] for the same manifest, request and keys
    return the same text, whatever dictionaries are alive: a call pops
    from and updates a copy of the query parameters, leaves every
    dictionary that was alive before it as it was, and its outcome is a
    function of the manifest, the request and the keys.  The URL codec is
    a function of the strings and of the content of the dictionary it is
    given. *)
Theorem build_hls_twice_same_text :
  forall (h : Heap.heap) (r : Heap.ref),
    Heap.read r h = Some (Py.dict_of_items (query_params request)) ->
    let (h1, first) := build_hls_at mpd_dict request r key_id key h in
    let (h2, second) := build_hls_at mpd_dict request r key_id key h1 in
    second = first
    /\ first = build_hls mpd_dict request key_id key
    /\ (forall a d, Heap.read a h = Some d -> Heap.read a h1 = Some d)
    /\ (forall a d, Heap.read a h1 = Some d -> Heap.read a h2 = Some d).
Proof.
  intros h r Hr.
  destruct (build_hls_at_outcome h r Hr) as (final1 & ->).
  assert (Hr1 : Heap.read r (h ++ [final1])%list
                = Some (Py.dict_of_items (query_params request)))
    by (now apply read_older).
  destruct (build_hls_at_outcome _ r Hr1) as (final2 & ->).
  repeat split; intros a d; apply read_older.
Qed.

End TwoCalls.

(** ** Closed instances for the master playlist as text *)

(** C7, counterexample: strings of the manifest that hold a line feed or a
    double quote are written as they are.  With one audio profile whose
    language is forged the text has two [#EXT-X-MEDIA] lines, both with
    [DEFAULT=YES]; with no audio profile and forged codecs it has an
    [#EXT-X-MEDIA] line; with a forged id the line of the second audio
    profile has [DEFAULT=YES] on both sides of its [DEFAULT=NO] (the id
    is written into the name and into the URL). *)
Lemma forged_strings_break_default_line :
  (exists text,
      build_hls (collaborators := Sample.in_order)
        (Sample.vod [Forged.audio_language]) Sample.request None None
      = inr text
      /\ filter is_audio_profile [Forged.audio_language]
         = [Forged.audio_language]
      /\ map (attributes_named "DEFAULT")
           (filter is_media_text (text_lines text))
         = [["DEFAULT=YES"]; ["DEFAULT=YES"]])
  /\ (exists text,
         build_hls (collaborators := Sample.in_order)
           (Sample.vod [Forged.video_codecs]) Sample.request None None
         = inr text
         /\ filter is_audio_profile [Forged.video_codecs] = []
         /\ map (attributes_named "NAME")
              (filter is_media_text (text_lines text))
            = [["NAME=" ++ DQ ++ "x" ++ DQ]])
  /\ (exists text,
         build_hls (collaborators := Sample.in_order)
           (Sample.vod [Sample.a1; Forged.audio_id]) Sample.request None None
         = inr text
         /\ map (attributes_named "DEFAULT")
              (filter is_media_text (text_lines text))
            = [["DEFAULT=YES"];
               ["DEFAULT=YES"; "DEFAULT=NO"; "DEFAULT=YES"]]).
Proof.
  repeat split; eexists; (split; [vm_compute; reflexivity |]);
    repeat split; vm_compute; reflexivity.
Qed.

Lemma one_default_audio_track_witness :
  exists text first others,
    strings_plain (collaborators := Sample.in_order)
      (Sample.vod [Sample.v1; Sample.a1; Sample.a2]) Sample.request None None
    = true
    /\ build_hls (collaborators := Sample.in_order)
         (Sample.vod [Sample.v1; Sample.a1; Sample.a2]) Sample.request
         None None = inr text
    /\ filter is_media_text (text_lines text) = first :: others
    /\ attributes_named "NAME" first = ["NAME=" ++ DQ ++ "a1" ++ DQ]
    /\ attributes_named "DEFAULT" first = ["DEFAULT=YES"]
    /\ attributes_named "AUTOSELECT" first = ["AUTOSELECT=YES"]
    /\ Forall (fun line =>
                 attributes_named "DEFAULT" line = ["DEFAULT=NO"]
                 /\ attributes_named "AUTOSELECT" line = ["AUTOSELECT=NO"])
         others
    /\ exists line,
         In line others
         /\ attributes_named "NAME" line = ["NAME=" ++ DQ ++ "a2" ++ DQ].
Proof.
  assert (Hplain : strings_plain (collaborators := Sample.in_order)
                     (Sample.vod [Sample.v1; Sample.a1; Sample.a2])
                     Sample.request None None = true)
    by (vm_compute; reflexivity).
  eassert (H : build_hls (collaborators := Sample.in_order)
                 (Sample.vod [Sample.v1; Sample.a1; Sample.a2])
                 Sample.request None None = inr _)
    by (vm_compute; reflexivity).
  pose proof (one_default_audio_track (collaborators := Sample.in_order)
                (Sample.vod [Sample.v1; Sample.a1; Sample.a2])
                Sample.request None None _ Hplain H) as T.
  change (filter is_audio_profile
            (profiles (Sample.vod [Sample.v1; Sample.a1; Sample.a2])))
    with [Sample.a1; Sample.a2] in T.
  cbv beta iota in T.
  destruct T as (first & others & Hm & Hn & Hd & Ha & Hothers & Hq).
  destruct (Hq Sample.a2) as (line & Hline & Hname);
    [right; right; left; reflexivity | reflexivity | discriminate |].
  eexists. exists first, others.
  split; [exact Hplain |]. split; [exact H |].
  split; [exact Hm |]. split; [exact Hn |]. split; [exact Hd |].
  split; [exact Ha |]. split; [exact Hothers |].
  exists line. split; [exact Hline | exact Hname].
Defined.



Lemma audio_attribute_iff_audio_profile_witness :
  exists text line,
    build_hls (collaborators := Sample.in_order)
      (Sample.vod [Sample.v1; Sample.a1]) Sample.request None None = inr text
    /\ In line (text_lines text)
    /\ is_stream_inf_text line = true
    /\ attributes_named "AUDIO" line = ["AUDIO=" ++ DQ ++ "audio" ++ DQ].
Proof.
  eassert (H : build_hls (collaborators := Sample.in_order)
                 (Sample.vod [Sample.v1; Sample.a1]) Sample.request None None
               = inr _) by (vm_compute; reflexivity).
  eexists. exists (stream_inf_tag 500000 640 360 "avc1" "30" true).
  with_lines H ltac:(fun text =>
    assert (Hin : In (stream_inf_tag 500000 640 360 "avc1" "30" true)
                    (text_lines text))
      by (vm_compute; do 3 right; left; reflexivity)).
  split; [exact H |]. split; [exact Hin |]. split; [reflexivity |].
  exact (audio_attribute_iff_audio_profile (collaborators := Sample.in_order)
           (Sample.vod [Sample.v1; Sample.a1]) Sample.request None None
           _ _ eq_refl H Hin eq_refl).
Defined.

Lemma one_media_line_per_audio_id_witness :
  exists text names,
    build_hls (collaborators := Sample.in_order)
      (Sample.vod [Sample.a1; Cases.a1_fr; Sample.a2; Sample.v1])
      Sample.request None None = inr text
    /\ map (attributes_named "NAME") (filter is_media_text (text_lines text))
       = map (fun name => ["NAME=" ++ DQ ++ name ++ DQ]) names
    /\ NoDup names
    /\ (In "a2" names
        <-> exists p,
              In p [Sample.a1; Cases.a1_fr; Sample.a2; Sample.v1]
              /\ is_audio_profile p = true /\ id p = "a2").
Proof.
  eassert (H : build_hls (collaborators := Sample.in_order)
                 (Sample.vod [Sample.a1; Cases.a1_fr; Sample.a2; Sample.v1])
                 Sample.request None None = inr _)
    by (vm_compute; reflexivity).
  destruct (one_media_line_per_audio_id (collaborators := Sample.in_order)
              (Sample.vod [Sample.a1; Cases.a1_fr; Sample.a2; Sample.v1])
              Sample.request None None _ eq_refl H)
    as (names & Hnames & Hnodup & Hiff).
  eexists. exists names. split; [exact H |]. split; [exact Hnames |].
  split; [exact Hnodup | exact (Hiff "a2")].
Defined.

Lemma key_error_names_video_profile_witness :
  build_hls (collaborators := Sample.in_order)
    (Sample.vod [Sample.a2; Sample.v2_no_bandwidth]) Sample.request None None
  = inl (Py.KeyError "bandwidth")
  /\ exists p,
       In p [Sample.a2; Sample.v2_no_bandwidth]
       /\ is_video_profile p = true /\ missing_key p = Some "bandwidth".
Proof.
  assert (H : build_hls (collaborators := Sample.in_order)
                (Sample.vod [Sample.a2; Sample.v2_no_bandwidth])
                Sample.request None None = inl (Py.KeyError "bandwidth"))
    by (vm_compute; reflexivity).
  split; [exact H |].
  apply (key_error_names_video_profile (collaborators := Sample.in_order)
           (Sample.vod [Sample.a2; Sample.v2_no_bandwidth])
           Sample.request None None "bandwidth");
    [left; reflexivity | exact H].
Defined.

Lemma media_playlist_closed_form_witness :
  exists t lines header,
    build_hls_playlist_lines (collaborators := Sample.in_order)
      Sample.two_periods [Sample.v1_empty; Sample.v1] Sample.request
    = (t, inr lines)
    /\ playlist_header Sample.two_periods [Sample.v1_empty; Sample.v1]
       = Py.ok header
    /\ lines
       = ([ExtM3U; Version6] ++ header
          ++ flat_map
               (profile_lines (collaborators := Sample.in_order)
                  (resolve_endpoint (collaborators := Sample.in_order)
                     Sample.request "segment_endpoint")
                  (segment_base (collaborators := Sample.in_order)
                     Sample.request))
               [Sample.v1_empty; Sample.v1]
          ++ [EndList])%list
    /\ t = [no_segments_warning Sample.v1_empty; added_segments_info 2].
Proof.
  eassert (H : build_hls_playlist_lines (collaborators := Sample.in_order)
                 Sample.two_periods [Sample.v1_empty; Sample.v1] Sample.request
               = (_, inr _)) by (vm_compute; reflexivity).
  destruct (media_playlist_closed_form (collaborators := Sample.in_order)
              Sample.two_periods Sample.request
              [Sample.v1_empty; Sample.v1] _ _ H)
    as (header & is_live & Hlive & Hheader & _ & Hlines & Ht).
  assert (E : is_live = false) by (cbn in Hlive; congruence).
  rewrite E in Hlines.
  eexists. eexists. exists header.
  split; [exact H |]. split; [exact Hheader |]. split; [exact Hlines | exact Ht].
Defined.

Lemma media_playlist_never_divides_by_zero_witness :
  exists t e,
    build_hls_playlist (collaborators := Sample.in_order)
      (Sample.vod [Cases.broken]) [Cases.broken] Sample.request = (t, inl e)
    /\ e <> Py.ZeroDivisionError.
Proof.
  eassert (H : build_hls_playlist (collaborators := Sample.in_order)
                 (Sample.vod [Cases.broken]) [Cases.broken] Sample.request
               = (_, inl _)) by (vm_compute; reflexivity).
  eexists. eexists. split; [exact H |].
  exact (media_playlist_never_divides_by_zero
           (collaborators := Sample.in_order)
           (Sample.vod [Cases.broken]) Sample.request [Cases.broken] _ _ H).
Defined.

Lemma build_hls_twice_same_text_witness :
  let (h1, first) :=
    build_hls_at (collaborators := Sample.in_order)
      (Sample.vod [Sample.v1; Sample.a1]) Cases.request_encrypted 1%nat
      (Some "kid") None
      [[("kept", "1")]; Py.dict_of_items Cases.request_encrypted] in
  let (h2, second) :=
    build_hls_at (collaborators := Sample.in_order)
      (Sample.vod [Sample.v1; Sample.a1]) Cases.request_encrypted 1%nat
      (Some "kid") None h1 in
  second = first
  /\ first = build_hls (collaborators := Sample.in_order)
               (Sample.vod [Sample.v1; Sample.a1]) Cases.request_encrypted
               (Some "kid") None
  /\ (forall a d,
        Heap.read a [[("kept", "1")]; Py.dict_of_items Cases.request_encrypted]
        = Some d -> Heap.read a h1 = Some d)
  /\ (forall a d, Heap.read a h1 = Some d -> Heap.read a h2 = Some d).
Proof.
  exact (build_hls_twice_same_text (collaborators := Sample.in_order)
           (Sample.vod [Sample.v1; Sample.a1]) Cases.request_encrypted
           (Some "kid") None
           [[("kept", "1")]; Py.dict_of_items Cases.request_encrypted]
           1%nat eq_refl).
Defined.
